(** * Multi-hop network-coding testbed: the orchestration script

    A shallow embedding of [app/network_coding_for_transport/multihop_topo.py].

    The script is a sequence of blocking calls to an emulation backend
    (Containernet, the VNF manager, Open vSwitch command-line tools, the
    shell of a Docker host) interleaved with log output.  Any backend call
    may raise.  The embedding therefore runs each function of the script
    against an arbitrary backend and records every call that is attempted,
    together with its outcome, and every log line that is written. *)

From Stdlib Require Import ZArith List String Ascii Bool Lia DecimalString
  FinFun.
Import ListNotations.

#[local] Open Scope string_scope.
#[local] Open Scope list_scope.
#[local] Open Scope Z_scope.

(** ** Python values *)

(** [str(n)], ["%s" % n], ["%d" % n] and ["{}".format(n)] for an [int]. *)
Definition str (n : Z) : string := NilZero.string_of_int (Z.to_int n).

(** The characters the script writes as [\n] and as a double quote. *)
Definition nl : string := String (ascii_of_nat 10) EmptyString.
Definition dq : string := String (ascii_of_nat 34) EmptyString.

(** [sep.join(l)] *)
Definition join (sep : string) (l : list string) : string := String.concat sep l.

(** [range(n)] and [range(a, b)] *)
Definition range (n : Z) : list Z := map Z.of_nat (seq 0 (Z.to_nat n)).
Definition range2 (a b : Z) : list Z :=
  map (fun k => a + Z.of_nat k) (seq 0 (Z.to_nat (b - a))).

Definition len {A : Type} (l : list A) : Z := Z.of_nat (List.length l).

(** [l[i]]: a negative index counts from the end; [None] stands for the
    [IndexError] that Python raises outside [-len(l) <= i < len(l)]. *)
Definition py_index {A : Type} (l : list A) (i : Z) : option A :=
  if i <? 0
  then (if i <? - len l then None else nth_error l (Z.to_nat (len l + i)))
  else nth_error l (Z.to_nat i).

(** [l[a:b]]: bounds are taken from the end when negative and clamped. *)
Definition py_slice {A : Type} (l : list A) (a b : Z) : list A :=
  let clamp x := if x <? 0 then Z.max 0 (len l + x) else Z.min x (len l) in
  firstn (Z.to_nat (clamp b - clamp a)) (skipn (Z.to_nat (clamp a)) l).

Fixpoint replace_nth {A : Type} (l : list A) (n : nat) (v : A) : list A :=
  match l, n with
  | [], _ => []
  | _ :: t, O => v :: t
  | x :: t, S n' => x :: replace_nth t n' v
  end.

(** [l[i] = v]: [None] stands for the [IndexError] raised out of range. *)
Definition py_setitem {A : Type} (l : list A) (i : Z) (v : A) : option (list A) :=
  if i <? 0
  then (if i <? - len l then None
        else Some (replace_nth l (Z.to_nat (len l + i)) v))
  else if i <? len l then Some (replace_nth l (Z.to_nat i) v) else None.

(** [d.get(key, None)] on a dict with string keys, read as a condition. *)
Fixpoint dict_get (d : list (string * bool)) (key : string) : option bool :=
  match d with
  | [] => None
  | (k, v) :: t => if String.eqb k key then Some v else dict_get t key
  end.

Definition truthy (o : option bool) : bool :=
  match o with Some true => true | _ => false end.

(** ** Handles returned by the backend

    [net.addDockerHost(name, ip=...)] returns a host object whose [name]
    attribute and [IP()] method give back the arguments it was created with;
    [net.addSwitch(name)] and [mgr.addContainer(name, ...)] likewise. *)

Record Host := mkHost { name : string; IP : string }.
Record Switch := mkSwitch { sw_name : string }.
Record Container := mkContainer { container_name : string }.

(** ** Backend calls *)

(** Command lines handed to [check_output(split(...))]. *)
Inductive ShellCmd :=
| OvsVsctlGetOfport (ifce : string)
| SysctlW (key : string) (value : Z)
| OvsOfctlDelFlows (sw : Z)
| OvsOfctlAddFlow (sw : Z) (proto in_port out_port : string)
| OvsOfctlDumpFlows (sw : Z)
| EthtoolOffload (ifce : string).

(** The text of each command, as the script formats it. *)
Definition cmdline (c : ShellCmd) : string :=
  match c with
  | OvsVsctlGetOfport ifce => "ovs-vsctl get Interface " ++ ifce ++ " ofport"
  | SysctlW key value => "sysctl -w " ++ key ++ "=" ++ str value
  | OvsOfctlDelFlows sw => "ovs-ofctl del-flows s" ++ str sw
  | OvsOfctlAddFlow sw proto in_port out_port =>
      "ovs-ofctl add-flow s" ++ str sw ++ " " ++ dq ++ proto ++ ",in_port="
        ++ in_port ++ ",actions=output=" ++ out_port ++ dq
  | OvsOfctlDumpFlows sw => "ovs-ofctl dump-flows s" ++ str sw
  | EthtoolOffload ifce => "ethtool --offload " ++ ifce ++ " rx off tx off"
  end.

Inductive Call :=
| CheckOutput (c : ShellCmd)
| Containernet_new
| VNFManager_new
| addController (cname : string)
| addDockerHost (hname dimage ip hostname : string)
| addSwitch (sname : string)
| addLinkNamedIfce (src dst delay : string) (loss : option Z)
| net_start
| net_stop
| addContainer (vname dhost dimage dcmd : string) (wait : Z)
| removeContainer (vname : string)
| mgr_stop
| time_sleep (secs : Z)
| host_cmd (host line : string)
| getLogs (vname : string)
| dins_logs (vname : string).

(** What a call does: it returns its output, or it raises. *)
Inductive Outcome :=
| Returns (out : string)
| Throws (msg : string).

Inductive Event :=
| EvCall (c : Call) (o : Outcome)
| EvInfo (s : string)
| EvError (s : string)
| EvPrint (s : string).

(** A backend answers each call knowing everything that happened before. *)
Definition Backend := list Event -> Call -> Outcome.

(** ** Exceptions *)

Inductive exn :=
| RuntimeError (msg : string)
| BackendError (msg : string)
| TypeError (msg : string)
| IndexError (msg : string)
| ValueError (msg : string).

(** [str(e)] *)
Definition exn_msg (e : exn) : string :=
  match e with
  | RuntimeError m | BackendError m | TypeError m | IndexError m
  | ValueError m => m
  end.

Inductive result (A : Type) :=
| Normal (a : A)
| Raised (e : exn).
Arguments Normal {A} a.
Arguments Raised {A} e.

(** ** Splitting a command line

    [shlex.split(s)], with its default settings: blanks separate the words,
    a quotation runs up to its closing quote, a backslash escapes the next
    character (inside a quotation, only when the quotation is a double
    one).  It raises [ValueError] when the text ends inside a quotation or
    right after a backslash. *)

(** Where the tokenizer stands: between two words, inside a word, inside a
    quotation opened by [q], or right after a backslash met inside a word
    ([None]) or inside the quotation [q]. *)
Inductive lex_state :=
| Blank
| InWord
| InQuote (q : ascii)
| Escaped (back : option ascii).

(** Space, tab, carriage return and line feed. *)
Definition is_whitespace (c : ascii) : bool :=
  existsb (Ascii.eqb c) (map ascii_of_nat [32; 9; 13; 10]%nat).

(** The single and the double quote. *)
Definition is_quote (c : ascii) : bool :=
  existsb (Ascii.eqb c) (map ascii_of_nat [39; 34]%nat).

(** The backslash. *)
Definition is_escape (c : ascii) : bool := Ascii.eqb c (ascii_of_nat 92).

(** The quotations in which a backslash escapes: the double ones. *)
Definition is_escapedquote (c : ascii) : bool := Ascii.eqb c (ascii_of_nat 34).

Definition add_char (token : string) (c : ascii) : string :=
  token ++ String c EmptyString.

(** A word is complete: it goes in front of the words that follow. *)
Definition emit (token : string) (rest : result (list string))
  : result (list string) :=
  match rest with
  | Normal argv => Normal (token :: argv)
  | Raised e => Raised e
  end.

(** There is a word to give out: some characters were read, or a
    quotation, possibly empty, was closed. *)
Definition has_token (token : string) (quoted : bool) : bool :=
  negb (String.eqb token "") || quoted.

Fixpoint lex (s : string) (st : lex_state) (token : string) (quoted : bool)
  : result (list string) :=
  match s with
  | EmptyString =>
      match st with
      | Blank | InWord =>
          if has_token token quoted then Normal [token] else Normal []
      | InQuote _ => Raised (ValueError "No closing quotation")
      | Escaped _ => Raised (ValueError "No escaped character")
      end
  | String c rest =>
      match st with
      | Blank =>
          if is_whitespace c then
            if has_token token quoted then emit token (lex rest Blank "" false)
            else lex rest Blank token quoted
          else if is_escape c then lex rest (Escaped None) token quoted
          else if is_quote c then lex rest (InQuote c) token quoted
          else lex rest InWord (String c EmptyString) quoted
      | InQuote q =>
          if Ascii.eqb c q then lex rest InWord token true
          else if is_escape c && is_escapedquote q
               then lex rest (Escaped (Some q)) token true
          else lex rest (InQuote q) (add_char token c) true
      | Escaped (Some q) =>
          if negb (is_escape c) && negb (Ascii.eqb c q)
          then lex rest (InQuote q)
                   (add_char (add_char token (ascii_of_nat 92)) c) quoted
          else lex rest (InQuote q) (add_char token c) quoted
      | Escaped None => lex rest InWord (add_char token c) quoted
      | InWord =>
          if is_whitespace c then
            if has_token token quoted then emit token (lex rest Blank "" false)
            else lex rest Blank token quoted
          else if is_quote c then lex rest (InQuote c) token quoted
          else if is_escape c then lex rest (Escaped None) token quoted
          else lex rest InWord (add_char token c) quoted
      end
  end.

Definition shlex_split (s : string) : result (list string) :=
  lex s Blank "" false.

(** ** The monad of the script

    A computation reads the backend and the history of the run so far, and
    yields a result together with the events it emitted itself. *)

Definition M (A : Type) : Type := Backend -> list Event -> result A * list Event.

Definition ret {A : Type} (a : A) : M A := fun _ _ => (Normal a, []).

Definition raise {A : Type} (e : exn) : M A := fun _ _ => (Raised e, []).

Definition bind {A B : Type} (m : M A) (f : A -> M B) : M B :=
  fun bk h =>
    match m bk h with
    | (Normal a, e1) => let (r, e2) := f a bk (h ++ e1) in (r, e1 ++ e2)
    | (Raised x, e1) => (Raised x, e1)
    end.

Declare Scope script_scope.
Delimit Scope script_scope with script.
Notation "x <- c1 ;; c2" := (bind c1 (fun x => c2))
  (at level 61, c1 at next level, right associativity) : script_scope.
Notation "c1 ;; c2" := (bind c1 (fun _ => c2))
  (at level 61, right associativity) : script_scope.
Notation "' pat <- c1 ;; c2" := (bind c1 (fun x => match x with pat => c2 end))
  (at level 61, pat pattern, c1 at next level, right associativity) : script_scope.
#[local] Open Scope script_scope.

(** A backend call: recorded whether it returns or raises. *)
Definition call (c : Call) : M string :=
  fun bk h =>
    match bk h c with
    | Returns out => (Normal out, [EvCall c (Returns out)])
    | Throws msg => (Raised (BackendError msg), [EvCall c (Throws msg)])
    end.

Definition info (s : string) : M unit := fun _ _ => (Normal tt, [EvInfo s]).
Definition error (s : string) : M unit := fun _ _ => (Normal tt, [EvError s]).
Definition print (s : string) : M unit := fun _ _ => (Normal tt, [EvPrint s]).

(** [try: m  except Exception as e: handler e] *)
Definition try_except {A : Type} (m : M A) (handler : exn -> M A) : M A :=
  fun bk h =>
    match m bk h with
    | (Normal a, e1) => (Normal a, e1)
    | (Raised x, e1) => let (r, e2) := handler x bk (h ++ e1) in (r, e1 ++ e2)
    end.

(** [try: m  finally: fin]: [fin] always runs; an exception raised by
    [fin] replaces the outcome of [m]. *)
Definition try_finally {A : Type} (m : M A) (fin : M unit) : M A :=
  fun bk h =>
    let (r, e1) := m bk h in
    match fin bk (h ++ e1) with
    | (Normal _, e2) => (r, e1 ++ e2)
    | (Raised x, e2) => (Raised x, e1 ++ e2)
    end.

(** A value that may be absent, with the exception raised when it is. *)
Definition lift {A : Type} (o : option A) (e : exn) : M A :=
  match o with Some a => ret a | None => raise e end.

(** [for x in l: body], threading the local variables [s] the body assigns;
    the body says whether the loop goes on or hits [break]. *)
Inductive loop_ctl := Next | Break.

Fixpoint for_loop {A S : Type} (l : list A) (s : S)
    (body : A -> S -> M (loop_ctl * S)) : M S :=
  match l with
  | [] => ret s
  | x :: t =>
      '(c, s1) <- body x s ;;
      match c with
      | Next => for_loop t s1 body
      | Break => ret s1
      end
  end.

(** A loop without local state and without [break]. *)
Definition for_each {A : Type} (l : list A) (body : A -> M unit) : M unit :=
  for_loop l tt (fun x _ => body x ;; ret (Next, tt)).

(** Subscripting a variable that may hold [None]. *)
Definition subscript {A : Type} (l : option (list A)) (i : Z) : M A :=
  match l with
  | None => raise (TypeError "'NoneType' object is not subscriptable")
  | Some l' => lift (py_index l' i) (IndexError "list index out of range")
  end.

Definition slice {A : Type} (l : option (list A)) (a b : Z) : M (list A) :=
  match l with
  | None => raise (TypeError "'NoneType' object is not subscriptable")
  | Some l' => ret (py_slice l' a b)
  end.

Definition py_len {A : Type} (l : option (list A)) : M Z :=
  match l with
  | None => raise (TypeError "object of type 'NoneType' has no len()")
  | Some l' => ret (len l')
  end.

(** [time.sleep(secs)] refuses a negative duration. *)
Definition sleep (secs : Z) : M unit :=
  if secs <? 0 then raise (ValueError "sleep length must be non-negative")
  else call (time_sleep secs) ;; ret tt.

(** [check_output(split(text))]: the text of the command is split first,
    and the command is run only when it could be split.  The backend is
    handed the command the argument list was split from. *)
Definition check_output (c : ShellCmd) : M string :=
  match shlex_split (cmdline c) with
  | Normal _ => call (CheckOutput c)
  | Raised e => raise e
  end.

(** ** The script *)

(** [PROFILES["mobile_recoder_deterministic"]] *)
Definition PROFILES_mobile_recoder_deterministic : Z := 0.

(** [get_ofport(ifce)]: the OpenFlow port of an interface, as printed by
    [ovs-vsctl]: the text comes back as it was printed, nothing is
    stripped. *)
Definition get_ofport (ifce : string) : M string :=
  check_output (OvsVsctlGetOfport ifce).

Definition config_ipv6 (action : string) : M unit :=
  let value := if String.eqb action "disable" then 1 else 0 in
  check_output (SysctlW "net.ipv6.conf.all.disable_ipv6" value) ;;
  check_output (SysctlW "net.ipv6.conf.default.disable_ipv6" value) ;;
  ret tt.

(** One iteration of the loop of [add_ovs_flows]; [continue] at [i == 0]
    ends the iteration after the first rule.  The two port texts are put
    between double quotes in the text of the [add-flow] command, which is
    then split. *)
Definition add_ovs_flows_body (i : Z) : M unit :=
  let proto := "udp" in
  check_output (OvsOfctlDelFlows (i + 1)) ;;
  in_port <- get_ofport ("s" ++ str (i + 1) ++ "-h" ++ str (i + 1)) ;;
  out_port <- get_ofport ("s" ++ str (i + 1) ++ "-s" ++ str (i + 2)) ;;
  check_output (OvsOfctlAddFlow (i + 1) proto in_port out_port) ;;
  if i =? 0 then ret tt
  else
    in_port <- get_ofport ("s" ++ str (i + 1) ++ "-s" ++ str i) ;;
    out_port <- get_ofport ("s" ++ str (i + 1) ++ "-h" ++ str (i + 1)) ;;
    check_output (OvsOfctlAddFlow (i + 1) proto in_port out_port) ;;
    ret tt.

Definition add_ovs_flows (switch_num : Z) : M unit :=
  for_each (range (switch_num - 1)) add_ovs_flows_body.

Definition dump_ovs_flows (switch_num : Z) : M unit :=
  for_each (range switch_num) (fun i =>
    out <- check_output (OvsOfctlDumpFlows (i + 1)) ;;
    info ("### Flow table of the switch s" ++ str (i + 1)
            ++ " after adding flows:" ++ nl) ;;
    print out).

Definition disable_cksum_offload (switch_num : Z) : M unit :=
  for_each (range switch_num) (fun i =>
    let ifce := ("s" ++ str (i + 1) ++ "-h" ++ str (i + 1))%string in
    check_output (EthtoolOffload ifce) ;; ret tt).

(** The index at which [deploy_coders] reads the action map for the relay
    on host index [i]. *)
Definition action_index (i : Z) : Z := i - 2.

Definition recoder_call (i : Z) (dhost action : string) : Call :=
  addContainer ("recoder_on_h" ++ str (i + 1)) dhost "nc_coder"
    ("python3 ./recoder.py " ++ ("h" ++ str (i + 1) ++ "-s" ++ str (i + 1)
                                   ++ " --action " ++ action)) 3.

Definition decoder_call (dhost : string) (n : Z) : Call :=
  addContainer "decoder" dhost "nc_coder"
    ("python3 ./decoder.py h" ++ str (n - 1) ++ "-s" ++ str (n - 1)) 3.

Definition encoder_call (dhost : string) : Call :=
  addContainer "encoder" dhost "nc_coder" "python3 ./encoder.py h2-s2" 3.

(** One iteration of the loop of [deploy_coders], on the local variable
    [recoders]: the relay on host index [i]. *)
Definition deploy_recoder (hosts : option (list Host)) (action_map : list string)
    (i : Z) (recoders : list Container) : M (loop_ctl * list Container) :=
  let name_ := ("recoder_on_h" ++ str (i + 1))%string in
  action <- lift (py_index action_map (action_index i))
                 (IndexError "list index out of range") ;;
  host <- subscript hosts i ;;
  call (recoder_call i (name host) action) ;;
  ret (Next, recoders ++ [mkContainer name_]).

Definition deploy_coders (hosts : option (list Host)) (rec_st_idx relay_num : Z)
    (action_map : list string) : M (Container * Container * list Container) :=
  relays <- slice hosts rec_st_idx (rec_st_idx + relay_num) ;;
  info ("*** Run NC recoder(s) in the middle, on hosts "
          ++ join ", " (map name relays) ++ "..." ++ nl) ;;
  recoders <- for_loop (range2 rec_st_idx (rec_st_idx + relay_num)) []
                       (deploy_recoder hosts action_map) ;;
  sleep relay_num ;;
  dec_host <- subscript hosts (-2) ;;
  info ("*** Run NC decoder on host " ++ name dec_host ++ nl) ;;
  dec_host <- subscript hosts (-2) ;;
  n <- py_len hosts ;;
  call (decoder_call (name dec_host) n) ;;
  enc_host <- subscript hosts 1 ;;
  info ("*** Run NC encoder on host " ++ name enc_host ++ nl) ;;
  enc_host <- subscript hosts 1 ;;
  call (encoder_call (name enc_host)) ;;
  ret (mkContainer "encoder", mkContainer "decoder", recoders).

Definition remove_coders (coders : Container * Container * list Container)
  : M unit :=
  let '(encoder, decoder, recoders) := coders in
  call (removeContainer (container_name encoder)) ;;
  call (removeContainer (container_name decoder)) ;;
  for_each recoders (fun r =>
    call (removeContainer (container_name r)) ;; ret tt).

Definition print_coders_log (coders : Container * Container * list Container)
    (coder_log_conf : list (string * bool)) : M unit :=
  let '(encoder, decoder, recoders) := coders in
  (if truthy (dict_get coder_log_conf "recoder") then
     info ("*** Log of recoders: " ++ nl) ;;
     for_each recoders (fun r =>
       out <- call (getLogs (container_name r)) ;; print out)
   else ret tt) ;;
  (if truthy (dict_get coder_log_conf "decoder") then
     info ("*** Log of decoder: " ++ nl) ;;
     out <- call (dins_logs (container_name decoder)) ;; print out
   else ret tt) ;;
  (if truthy (dict_get coder_log_conf "encoder") then
     info ("*** Log of the encoder: " ++ nl) ;;
     out <- call (dins_logs (container_name encoder)) ;; print out
   else ret tt).

(** The dict [iperf_client_para]. *)
Record IperfClientPara := mkPara {
  p_server_ip : string;
  p_port : Z;
  p_bw : string;
  p_time : Z;
  p_interval : Z;
  p_length : string;
  p_proto : string;
  p_suffix : string
}.

(** The client command line, formatted from the dict. *)
Definition iperf_clt_cmd (p : IperfClientPara) : string :=
  "iperf -c " ++ p_server_ip p ++ " -p " ++ str (p_port p)
    ++ " -t " ++ str (p_time p) ++ " -i " ++ str (p_interval p)
    ++ " -b " ++ p_bw p ++ " -l " ++ p_length p
    ++ " " ++ p_proto p ++ " " ++ p_suffix p.

Section Script.

(** [SYMBOL_SIZE] and [META_DATA_LEN] are imported from the module [common];
    [ALL_FOWARD] is the global set from the command line. *)
Variables SYMBOL_SIZE META_DATA_LEN : Z.
Variable ALL_FOWARD : bool.

(** The dict as it stands when the commands are formatted. *)
Definition iperf_client_para (h_srv : Host) (proto : string) (time : Z)
  : IperfClientPara :=
  let p := {| p_server_ip := IP h_srv;
              p_port := 9999;
              p_bw := "50K";
              p_time := time;
              p_interval := 1;
              p_length := str (SYMBOL_SIZE - META_DATA_LEN);
              p_proto := "-u";
              p_suffix := "> /dev/null 2>&1 &" |} in
  if String.eqb proto "UDP" || String.eqb proto "udp"
  then {| p_server_ip := p_server_ip p;
          p_port := p_port p;
          p_bw := p_bw p;
          p_time := p_time p;
          p_interval := p_interval p;
          p_length := p_length p;
          p_proto := "-u";
          p_suffix := "" |}
  else p.

Definition run_iperf_test (h_clt h_srv : Host) (proto : string) (time : Z)
    (print_clt_log : bool) : M unit :=
  info ("Run Iperf test between " ++ name h_clt ++ " (Client) and "
          ++ name h_srv ++ " (Server), protocol: " ++ proto ++ nl) ;;
  let para := iperf_client_para h_srv proto time in
  call (host_cmd (name h_srv)
          ("iperf -s -p 9999 -i 1 " ++ p_proto para
             ++ " > /tmp/iperf_server.log 2>&1 &")) ;;
  let cmd := iperf_clt_cmd para in
  print ("Iperf client command: " ++ cmd) ;;
  ret_ <- call (host_cmd (name h_clt) cmd) ;;
  info ("*** Output of Iperf server:" ++ nl) ;;
  out <- call (host_cmd (name h_srv) "cat /tmp/iperf_server.log") ;;
  print out ;;
  if print_clt_log then
    info ("*** Output of Iperf client:" ++ nl) ;;
    print ret_
  else ret tt.

(** One iteration of the loop of [create_topology], on the local
    variables [hosts] and [last_sw]: a host, a switch, a lossless link
    between them and, when there is a previous switch, a lossy link to it. *)
Definition assemble_hop (i : Z) (st : list Host * option Switch)
  : M (loop_ctl * (list Host * option Switch)) :=
  let '(hosts, last_sw) := st in
  call (addDockerHost ("h" ++ str (i + 1)) "dev_test"
          ("10.0.0." ++ str (i + 1)) ("h" ++ str (i + 1))) ;;
  let host := mkHost ("h" ++ str (i + 1)) ("10.0.0." ++ str (i + 1)) in
  let hosts := hosts ++ [host] in
  call (addSwitch ("s" ++ str (i + 1))) ;;
  let switch := mkSwitch ("s" ++ str (i + 1)) in
  call (addLinkNamedIfce (sw_name switch) (name host) "20ms" None) ;;
  match last_sw with
  | Some last =>
      call (addLinkNamedIfce (sw_name switch) (sw_name last) "20ms"
              (Some 20)) ;;
      ret (Next, (hosts, Some switch))
  | None => ret (Next, (hosts, Some switch))
  end.

(** The body of the [try] block of [create_topology]: the controller, then
    the hops. *)
Definition assemble (host_num : Z) : M (list Host) :=
  info ("*** Adding controller" ++ nl) ;;
  call (addController "c0") ;;
  info ("*** Adding Docker hosts and switches in a multi-hop chain topo" ++ nl) ;;
  st <- for_loop (range host_num) ([], None) assemble_hop ;;
  ret (fst st).

(** [create_topology(net, host_num)]: the handler logs the exception, stops
    the network and falls off the end of the function, which then returns
    [None]. *)
Definition create_topology (host_num : Z) : M (option (list Host)) :=
  if host_num <? 5 then raise (RuntimeError "Require at least 5 hosts")
  else
    try_except
      (hosts <- assemble host_num ;; ret (Some hosts))
      (fun e => error (exn_msg e) ;; call net_stop ;; ret None).

(** [action_map = ["forward"] * relay_num], then [action_map[i] = "recode"]
    unless all relays only forward. *)
Definition build_action_map (relay_num i : Z) : M (list string) :=
  let action_map := repeat "forward" (Z.to_nat relay_num) in
  if negb ALL_FOWARD
  then lift (py_setitem action_map i "recode")
            (IndexError "list assignment index out of range")
  else ret action_map.

(** One iteration of the sweep loop: the variant of step [i]. *)
Definition variant (hosts : option (list Host)) (rec_st_idx relay_num : Z)
    (coder_log_conf : list (string * bool)) (i : Z) (_ : unit)
  : M (loop_ctl * unit) :=
  action_map <- build_action_map relay_num i ;;
  info ("Number of recoders: " ++ str relay_num ++ ", the action map: "
          ++ join ", " action_map ++ nl) ;;
  coders <- deploy_coders hosts rec_st_idx relay_num action_map ;;
  sleep 3 ;;
  h_clt <- subscript hosts 0 ;;
  h_srv <- subscript hosts (-1) ;;
  run_iperf_test h_clt h_srv "udp" 30 false ;;
  print_coders_log coders coder_log_conf ;;
  remove_coders coders ;;
  if ALL_FOWARD then ret (Break, tt) else ret (Next, tt).

(** The sweep: one variant per relay, or a single one when all relays only
    forward. *)
Definition sweep (hosts : option (list Host)) (rec_st_idx relay_num : Z)
    (coder_log_conf : list (string * bool)) : M unit :=
  for_loop (range relay_num) tt
           (variant hosts rec_st_idx relay_num coder_log_conf).

(** What [run_multihop_nc_test] does before it builds the topology. *)
Definition run_prelude : M string :=
  config_ipv6 "disable" ;;
  call Containernet_new ;;
  call VNFManager_new.

(** What [run_multihop_nc_test] does before it enters its [try] block. *)
Definition run_setup (host_num : Z) : M (option (list Host)) :=
  config_ipv6 "disable" ;;
  call Containernet_new ;;
  call VNFManager_new ;;
  create_topology host_num.

(** The [try] block of [run_multihop_nc_test]. *)
Definition run_experiment (hosts : option (list Host)) (host_num profile : Z)
    (coder_log_conf : list (string * bool)) : M unit :=
  let relay_num := host_num - 2 - 2 in
  let rec_st_idx := 2 in
  info ("*** Starting network" ++ nl) ;;
  call net_start ;;
  info ("*** Adding OpenFlow rules" ++ nl) ;;
  add_ovs_flows host_num ;;
  info ("*** Disable Checksum offloading" ++ nl) ;;
  disable_cksum_offload host_num ;;
  (if profile =? PROFILES_mobile_recoder_deterministic then
     info ("*** Run mobile recoder experiment." ++ nl) ;;
     sweep hosts rec_st_idx relay_num coder_log_conf
   else ret tt) ;;
  info ("*** Emulation stops..." ++ nl).

(** The [finally] block of [run_multihop_nc_test]. *)
Definition run_cleanup : M unit :=
  info ("*** Stopping network" ++ nl) ;;
  call net_stop ;;
  call mgr_stop ;;
  config_ipv6 "enable".

Definition run_multihop_nc_test (host_num profile : Z)
    (coder_log_conf : list (string * bool)) : M unit :=
  hosts <- run_setup host_num ;;
  try_finally
    (try_except
       (run_experiment hosts host_num profile coder_log_conf)
       (fun e =>
          error ("*** Emulation has errors:" ++ nl) ;;
          error (exn_msg e)))
    run_cleanup.

End Script.

(** ** Reading traces *)

(** The calls attempted in a trace, in order. *)
Fixpoint calls_of (ev : list Event) : list Call :=
  match ev with
  | [] => []
  | EvCall c _ :: t => c :: calls_of t
  | _ :: t => calls_of t
  end.

(** How many calls of a trace satisfy [p]. *)
Definition count_calls (p : Call -> bool) (ev : list Event) : nat :=
  List.length (filter p (calls_of ev)).

Definition is_net_stop (c : Call) : bool :=
  match c with net_stop => true | _ => false end.

Definition is_host_creation (c : Call) : bool :=
  match c with addDockerHost _ _ _ _ => true | _ => false end.

Definition is_switch_creation (c : Call) : bool :=
  match c with addSwitch _ => true | _ => false end.

Definition is_link (c : Call) : bool :=
  match c with addLinkNamedIfce _ _ _ _ => true | _ => false end.

(** A link with 20ms delay and no loss. *)
Definition is_host_link (c : Call) : bool :=
  match c with
  | addLinkNamedIfce _ _ delay None => String.eqb delay "20ms"
  | _ => false
  end.

(** A link with 20ms delay and 20% loss. *)
Definition is_switch_link (c : Call) : bool :=
  match c with
  | addLinkNamedIfce _ _ delay (Some loss) =>
      String.eqb delay "20ms" && (loss =? 20)
  | _ => false
  end.

(** Calls that program flows, and calls that deploy or remove coders. *)
Definition is_flow_programming (c : Call) : bool :=
  match c with
  | CheckOutput (OvsOfctlDelFlows _) | CheckOutput (OvsOfctlAddFlow _ _ _ _)
  | CheckOutput (OvsVsctlGetOfport _) => true
  | _ => false
  end.

Definition is_deployment (c : Call) : bool :=
  match c with
  | addContainer _ _ _ _ _ | removeContainer _ => true
  | _ => false
  end.

(** The calls that build the topology. *)
Definition is_assembly (c : Call) : bool :=
  match c with
  | addController _ | addDockerHost _ _ _ _ | addSwitch _
  | addLinkNamedIfce _ _ _ _ => true
  | _ => false
  end.

(** The events [assemble] may emit: log lines and topology-building calls. *)
Definition assembly_event (e : Event) : Prop :=
  match e with
  | EvCall c _ => is_assembly c = true
  | EvInfo _ => True
  | _ => False
  end.

(** The calls one hop of the chain makes when nothing fails. *)
Definition hop_calls (i : Z) : list Call :=
  [addDockerHost ("h" ++ str (i + 1)) "dev_test" ("10.0.0." ++ str (i + 1))
     ("h" ++ str (i + 1));
   addSwitch ("s" ++ str (i + 1));
   addLinkNamedIfce ("s" ++ str (i + 1)) ("h" ++ str (i + 1)) "20ms" None]
  ++ (if i =? 0 then []
      else [addLinkNamedIfce ("s" ++ str (i + 1)) ("s" ++ str i) "20ms"
              (Some 20)]).

(** The host handle created at hop [i]. *)
Definition hop_host (i : Z) : Host :=
  mkHost ("h" ++ str (i + 1)) ("10.0.0." ++ str (i + 1)).

(** The value of [last_sw] on entry to hop [i]. *)
Definition prev_switch (i : Z) : option Switch :=
  if i =? 0 then None else Some (mkSwitch ("s" ++ str i)).

(** *** Flow tables

    The rules a switch holds after a trace: a successful [del-flows]
    empties its table, a successful [add-flow] appends one rule. *)

Definition Rule : Type := string * string * string.

Definition flow_step (sw : Z) (tbl : list Rule) (e : Event) : list Rule :=
  match e with
  | EvCall (CheckOutput (OvsOfctlDelFlows s)) (Returns _) =>
      if s =? sw then [] else tbl
  | EvCall (CheckOutput (OvsOfctlAddFlow s proto in_port out_port)) (Returns _) =>
      if s =? sw then tbl ++ [(proto, in_port, out_port)] else tbl
  | _ => tbl
  end.

Definition flow_table (sw : Z) (ev : list Event) : list Rule :=
  fold_left (flow_step sw) ev [].

(** The flush and install commands a trace addresses to switch [sw]. *)
Inductive FlowCmd := Flush | Install (proto in_port out_port : string).

Fixpoint flow_cmds (sw : Z) (ev : list Event) : list FlowCmd :=
  match ev with
  | [] => []
  | EvCall (CheckOutput (OvsOfctlDelFlows s)) _ :: t =>
      if s =? sw then Flush :: flow_cmds sw t else flow_cmds sw t
  | EvCall (CheckOutput (OvsOfctlAddFlow s proto in_port out_port)) _ :: t =>
      if s =? sw then Install proto in_port out_port :: flow_cmds sw t
      else flow_cmds sw t
  | _ :: t => flow_cmds sw t
  end.

Definition install_cmd (r : Rule) : FlowCmd :=
  let '(proto, in_port, out_port) := r in Install proto in_port out_port.

Definition is_install (c : FlowCmd) : bool :=
  match c with Install _ _ _ => true | Flush => false end.

(** The number of rules a trace installs on switch [sw]. *)
Definition installed (sw : Z) (ev : list Event) : nat :=
  List.length (filter is_install (flow_cmds sw ev)).

(** *** Coders *)

(** The call that launches the relay of host index [i]: on that host, with
    the action read at [action_index i] in the action map. *)
Definition relay_launch (hs : list Host) (action_map : list string)
    (i : Z) (c : Call) : Prop :=
  exists host action,
    py_index hs i = Some host
    /\ py_index action_map (action_index i) = Some action
    /\ c = recoder_call i (name host) action.

Definition is_decoder_launch (c : Call) : bool :=
  match c with
  | addContainer vname _ _ _ _ => String.eqb vname "decoder"
  | _ => false
  end.

Definition is_encoder_launch (c : Call) : bool :=
  match c with
  | addContainer vname _ _ _ _ => String.eqb vname "encoder"
  | _ => false
  end.

(** *** Sweep variants *)

(** The log line that opens a sweep variant. *)
Definition variant_log (relay_num : Z) (action_map : list string) : Event :=
  EvInfo ("Number of recoders: " ++ str relay_num ++ ", the action map: "
            ++ join ", " action_map ++ nl).

Definition is_variant_log (e : Event) : bool :=
  match e with
  | EvInfo s => String.prefix "Number of recoders: " s
  | _ => false
  end.

(** Log lines and calls that do not open a variant. *)
Definition not_variant_log (e : Event) : Prop := is_variant_log e = false.

(** *** Shell redirection

    A backend honours redirection when a command line that ends by sending
    its output to [/dev/null] in the background gives nothing back. *)
Definition redirected (line : string) : Prop :=
  exists pre, line = (pre ++ "> /dev/null 2>&1 &")%string.

Definition honours_redirection (bk : Backend) : Prop :=
  forall h host line out,
    redirected line -> bk h (host_cmd host line) = Returns out -> out = "".

(** A backend on which [c] never raises. *)
Definition never_throws (bk : Backend) (c : Call) : Prop :=
  forall h, exists out, bk h c = Returns out.

(** A backend on which no call raises. *)
Definition reliable (bk : Backend) : Prop := forall c, never_throws bk c.

(** A computation that ends normally on every reliable backend. *)
Definition goes_through {A : Type} (m : M A) : Prop :=
  forall bk h, reliable bk -> exists a ev, m bk h = (Normal a, ev).

(** Every event a computation emits, on any backend, satisfies [P]. *)
Definition emits_only (P : Event -> Prop) {A : Type} (m : M A) : Prop :=
  forall bk h, Forall P (snd (m bk h)).

(** *** Calls a computation avoids *)

(** An event that is not a call satisfying [p]. *)
Definition avoids (p : Call -> bool) (e : Event) : Prop :=
  match e with
  | EvCall c _ => p c = false
  | _ => True
  end.

(** Calls that change a flow table. *)
Definition is_flow_write (c : Call) : bool :=
  match c with
  | CheckOutput (OvsOfctlDelFlows _) | CheckOutput (OvsOfctlAddFlow _ _ _ _) =>
      true
  | _ => false
  end.

Definition is_removal (c : Call) : bool :=
  match c with removeContainer _ => true | _ => false end.

Definition is_launch (c : Call) : bool :=
  match c with addContainer _ _ _ _ _ => true | _ => false end.

(** Calls that read the log of a coder. *)
Definition is_log_read (c : Call) : bool :=
  match c with getLogs _ | dins_logs _ => true | _ => false end.

(** An event that is not an error line of the log. *)
Definition not_error (e : Event) : Prop :=
  match e with
  | EvError _ => False
  | _ => True
  end.

(** An event that is not a call that raised. *)
Definition returned (e : Event) : Prop :=
  match e with
  | EvCall _ (Throws _) => False
  | _ => True
  end.

(** A computation whose normal runs contain no call that raised. *)
Definition clean {A : Type} (m : M A) : Prop :=
  forall bk h a ev, m bk h = (Normal a, ev) -> Forall returned ev.

(** The calls of the setup and of the cleanup of a run. *)
Definition is_setup_call (c : Call) : bool :=
  match c with
  | CheckOutput (SysctlW _ _) | Containernet_new | VNFManager_new
  | net_stop | mgr_stop => true
  | _ => is_assembly c
  end.

(** A kind of call that is none of the calls of the setup and of the
    cleanup of a run. *)
Definition outside_setup (p : Call -> bool) : Prop :=
  forall c, is_setup_call c = true -> p c = false.

(** *** Containers

    The containers a manager holds after a trace: a successful
    [addContainer] adds its name, a successful [removeContainer] drops it. *)

Definition drop (vname : string) (rs : list string) : list string :=
  filter (fun x => negb (String.eqb x vname)) rs.

Definition running_call (rs : list string) (c : Call) : list string :=
  match c with
  | addContainer vname _ _ _ _ => rs ++ [vname]
  | removeContainer vname => drop vname rs
  | _ => rs
  end.

Definition running_step (rs : list string) (e : Event) : list string :=
  match e with
  | EvCall c (Returns _) => running_call rs c
  | _ => rs
  end.

Definition running (ev : list Event) : list string :=
  fold_left running_step ev [].

(** Names that are not among [names]. *)
Definition kept (names : list string) (x : string) : bool :=
  negb (existsb (String.eqb x) names).

(** Calls that add or drop a container. *)
Definition is_container_change (c : Call) : bool :=
  is_launch c || is_removal c.

(** The name of the relay container on host index [i]. *)
Definition recoder_name (i : Z) : string := "recoder_on_h" ++ str (i + 1).

(** The names [remove_coders] removes, in its order. *)
Definition coder_names (coders : Container * Container * list Container)
  : list string :=
  let '(encoder, decoder, recoders) := coders in
  container_name encoder :: container_name decoder
    :: map container_name recoders.

(** *** Commands of the helpers *)

Definition sysctl_all (value : Z) : Call :=
  CheckOutput (SysctlW "net.ipv6.conf.all.disable_ipv6" value).

Definition sysctl_default (value : Z) : Call :=
  CheckOutput (SysctlW "net.ipv6.conf.default.disable_ipv6" value).

Definition dump_call (i : Z) : Call := CheckOutput (OvsOfctlDumpFlows (i + 1)).

Definition cksum_call (i : Z) : Call :=
  CheckOutput (EthtoolOffload ("s" ++ str (i + 1) ++ "-h" ++ str (i + 1))).

(** A backend whose [ovs-vsctl] answers are given by [port], whatever
    happened before. *)
Definition reports (bk : Backend) (port : string -> string) : Prop :=
  forall h ifce out,
    bk h (CheckOutput (OvsVsctlGetOfport ifce)) = Returns out -> out = port ifce.

(** The rules of the switch at index [i] for such a backend: from its host
    to the next switch and, past the first switch, from the previous switch
    to its host. *)
Definition chain_rules (port : string -> string) (i : Z) : list Rule :=
  ("udp", port ("s" ++ str (i + 1) ++ "-h" ++ str (i + 1))%string,
          port ("s" ++ str (i + 1) ++ "-s" ++ str (i + 2))%string)
  :: (if i =? 0 then []
      else [("udp", port ("s" ++ str (i + 1) ++ "-s" ++ str i)%string,
                   port ("s" ++ str (i + 1) ++ "-h" ++ str (i + 1))%string)]).

(** The action map of sweep step [k]: only relay [k] recodes. *)
Definition step_map (relay_num k : Z) : list string :=
  replace_nth (repeat "forward" (Z.to_nat relay_num)) (Z.to_nat k) "recode".

(** A log configuration that asks for no log: each of the three keys is
    missing or holds [False]. *)
Definition quiet (coder_log_conf : list (string * bool)) : Prop :=
  truthy (dict_get coder_log_conf "recoder") = false
  /\ truthy (dict_get coder_log_conf "decoder") = false
  /\ truthy (dict_get coder_log_conf "encoder") = false.

(** The script as launched: 7 hosts, the deterministic profile, no coder
    log; the flag [--all_forward] sets [ALL_FOWARD]. *)
Definition main (SYMBOL_SIZE META_DATA_LEN : Z) (all_forward : bool) : M unit :=
  let HOST_NUM := 7 in
  let coder_log_conf :=
    [("encoder", false); ("decoder", false); ("recoder", false)] in
  run_multihop_nc_test SYMBOL_SIZE META_DATA_LEN all_forward HOST_NUM
                       PROFILES_mobile_recoder_deterministic coder_log_conf.

(** *** Command texts *)

(** A text that can be split. *)
Definition splits (s : string) : Prop :=
  exists argv, shlex_split s = Normal argv.

(** A text without quote and without backslash. *)
Fixpoint plain (s : string) : bool :=
  match s with
  | EmptyString => true
  | String c t => negb (is_quote c) && negb (is_escape c) && plain t
  end.

(** A command whose text arguments are plain. *)
Definition plain_cmd (c : ShellCmd) : bool :=
  match c with
  | OvsVsctlGetOfport ifce => plain ifce
  | SysctlW key _ => plain key
  | OvsOfctlDelFlows _ | OvsOfctlDumpFlows _ => true
  | OvsOfctlAddFlow _ proto in_port out_port =>
      plain proto && plain in_port && plain out_port
  | EthtoolOffload ifce => plain ifce
  end.

(** A backend whose [ovs-vsctl] prints a plain port text for an interface
    whose name is plain. *)
Definition plain_ports (bk : Backend) : Prop :=
  forall h ifce out,
    plain ifce = true ->
    bk h (CheckOutput (OvsVsctlGetOfport ifce)) = Returns out ->
    plain out = true.

(** Between two words or inside a word. *)
Definition word_state (st : lex_state) : Prop := st = Blank \/ st = InWord.

(** *** Calls made in sequence *)

(** The calls [cs] made one after the other, each once the one before has
    returned: the first call that raises is the last one made, and its
    error is the result. *)
Fixpoint run_calls (bk : Backend) (h : list Event) (cs : list Call)
  : result unit * list Event :=
  match cs with
  | [] => (Normal tt, [])
  | c :: t =>
      match bk h c with
      | Returns out =>
          let (r, ev) := run_calls bk (h ++ [EvCall c (Returns out)]) t in
          (r, EvCall c (Returns out) :: ev)
      | Throws msg => (Raised (BackendError msg), [EvCall c (Throws msg)])
      end
  end.

(** The calls of the [finally] block of a run. *)
Definition cleanup_calls : list Call :=
  [net_stop; mgr_stop; sysctl_all 0; sysctl_default 0].

(** A computation that raises only when one of its calls raises: that call
    is of kind [p], it is the last event of the run, and its error is the
    exception. *)
Definition fails_at (p : Call -> bool) {A : Type} (m : M A) : Prop :=
  forall bk h e ev,
    m bk h = (Raised e, ev) ->
    exists pre c msg,
      ev = pre ++ [EvCall c (Throws msg)] /\ p c = true
      /\ e = BackendError msg /\ bk (h ++ pre) c = Throws msg.

(** A computation that a call that raises brings to an end: that call is
    the last event of the run and its error is the result. *)
Definition halting {A : Type} (m : M A) : Prop :=
  forall bk h r ev pre c msg post,
    m bk h = (r, ev) -> ev = pre ++ EvCall c (Throws msg) :: post ->
    post = [] /\ r = Raised (BackendError msg).

(** A computation that ends normally on the backend [bk], whatever happened
    before. *)
Definition passes (bk : Backend) {A : Type} (m : M A) : Prop :=
  forall h, exists a ev, m bk h = (Normal a, ev).

(** ** Backends used in examples *)

(** Every call returns; [ovs-vsctl] reports the interface name as port. *)
Definition ok_backend : Backend := fun _ c =>
  match c with
  | CheckOutput (OvsVsctlGetOfport ifce) => Returns ifce
  | _ => Returns ""
  end.

(** As [ok_backend], but [ovs-vsctl] prints the port of [s1-h1] as a [1]
    followed by a double quote. *)
Definition s1_port_quoted : Backend := fun h c =>
  match c with
  | CheckOutput (OvsVsctlGetOfport ifce) =>
      if String.eqb ifce "s1-h1" then Returns ("1" ++ dq) else Returns ifce
  | _ => ok_backend h c
  end.

(** As [ok_backend], but creating the second switch fails. *)
Definition s2_fails : Backend := fun h c =>
  match c with
  | addSwitch "s2" => Throws "cannot create s2"
  | _ => ok_backend h c
  end.

(** As [ok_backend], but launching the decoder fails. *)
Definition decoder_fails : Backend := fun h c =>
  match c with
  | addContainer "decoder" _ _ _ _ => Throws "cannot start decoder"
  | _ => ok_backend h c
  end.

(** As [ok_backend], but turning checksum offloading off fails on the
    third switch. *)
Definition s3_offload_fails : Backend := fun h c =>
  match c with
  | CheckOutput (EthtoolOffload "s3-h3") => Throws "no such device"
  | _ => ok_backend h c
  end.

(** As [ok_backend], but removing the decoder fails. *)
Definition decoder_stays : Backend := fun h c =>
  match c with
  | removeContainer "decoder" => Throws "cannot remove decoder"
  | _ => ok_backend h c
  end.

(** As [ok_backend], but stopping the manager fails. *)
Definition manager_stuck : Backend := fun h c =>
  match c with
  | mgr_stop => Throws "manager does not stop"
  | _ => ok_backend h c
  end.

(** No call returns. *)
Definition unreachable_backend : Backend := fun _ _ => Throws "unreachable".

Definition no_logs : list (string * bool) :=
  [("encoder", false); ("decoder", false); ("recoder", false)].

Definition hosts_upto (n : Z) : list Host := map hop_host (range n).

(** * Properties *)

Arguments str : simpl never.

(** ** Laws of the monad *)

Section MonadLaws.

Context {A B : Type}.

Lemma bind_normal_inv (m : M A) (f : A -> M B) bk h b ev :
  bind m f bk h = (Normal b, ev) ->
  exists a e1 e2,
    m bk h = (Normal a, e1) /\ f a bk (h ++ e1) = (Normal b, e2)
    /\ ev = e1 ++ e2.
Proof.
  unfold bind. destruct (m bk h) as [[a | x] e1]; [| discriminate].
  destruct (f a bk (h ++ e1)) as [r e2] eqn:Ef. intros E.
  inversion E; subst. exists a, e1, e2. auto.
Qed.

Lemma bind_normal (m : M A) (f : A -> M B) bk h a e1 :
  m bk h = (Normal a, e1) ->
  bind m f bk h = (fst (f a bk (h ++ e1)), e1 ++ snd (f a bk (h ++ e1))).
Proof.
  intros E. unfold bind. rewrite E. now destruct (f a bk (h ++ e1)).
Qed.

Lemma bind_raised (m : M A) (f : A -> M B) bk h x e1 :
  m bk h = (Raised x, e1) -> bind m f bk h = (Raised x, e1).
Proof. intros E. unfold bind. now rewrite E. Qed.

(** A sequence raises either in its first part or in its second. *)
Lemma bind_raised_inv (m : M A) (f : A -> M B) bk h x ev :
  bind m f bk h = (Raised x, ev) ->
  m bk h = (Raised x, ev)
  \/ exists a e1 e2,
       m bk h = (Normal a, e1) /\ f a bk (h ++ e1) = (Raised x, e2)
       /\ ev = e1 ++ e2.
Proof.
  unfold bind. destruct (m bk h) as [[a | y] e1].
  - destruct (f a bk (h ++ e1)) as [r e2] eqn:Ef. intros E.
    inversion E; subst. right. exists a, e1, e2. auto.
  - intros E. inversion E; subst. now left.
Qed.

End MonadLaws.

Lemma call_normal_inv c bk h out ev :
  call c bk h = (Normal out, ev) ->
  bk h c = Returns out /\ ev = [EvCall c (Returns out)].
Proof.
  unfold call. destruct (bk h c); intros E; inversion E; subst; auto.
Qed.

Lemma call_returns c bk h out :
  bk h c = Returns out -> call c bk h = (Normal out, [EvCall c (Returns out)]).
Proof. intros E. unfold call. now rewrite E. Qed.

Lemma call_throws c bk h msg :
  bk h c = Throws msg ->
  call c bk h = (Raised (BackendError msg), [EvCall c (Throws msg)]).
Proof. intros E. unfold call. now rewrite E. Qed.

(** A call emits exactly one event, the call itself. *)
Lemma call_event c bk h : snd (call c bk h) = [EvCall c (bk h c)].
Proof. unfold call. now destruct (bk h c). Qed.

(** ** Command texts that can be split *)

Lemma append_nil_r (s : string) : (s ++ "")%string = s.
Proof. induction s as [| a s IH]; simpl; [reflexivity | now rewrite IH]. Qed.

Lemma append_assoc (s1 s2 s3 : string) :
  ((s1 ++ s2) ++ s3 = s1 ++ (s2 ++ s3))%string.
Proof. induction s1 as [| a s1 IH]; simpl; [reflexivity | now rewrite IH]. Qed.

Lemma emit_normal token r :
  (exists argv, r = Normal argv) -> exists argv, emit token r = Normal argv.
Proof. intros [argv ->]. now eexists. Qed.

(** Reading a plain text between words or inside a word leaves the
    tokenizer between words or inside a word. *)
Lemma lex_plain_app s : plain s = true ->
  forall rest,
    (forall st token quoted,
       word_state st -> exists argv, lex rest st token quoted = Normal argv) ->
    forall st token quoted,
      word_state st -> exists argv, lex (s ++ rest) st token quoted = Normal argv.
Proof.
  induction s as [| c s IH]; intros Hs rest Hrest st token quoted Hst;
    [now apply Hrest |].
  cbn [plain] in Hs. apply andb_true_iff in Hs. destruct Hs as [Hc Hs].
  apply andb_true_iff in Hc. destruct Hc as [Hq He].
  apply negb_true_iff in Hq, He.
  specialize (IH Hs rest Hrest).
  destruct Hst as [-> | ->]; cbn [append lex]; rewrite Hq, He;
    destruct (is_whitespace c); try destruct (has_token token quoted);
    try apply emit_normal; apply IH; first [now left | now right].
Qed.

Lemma lex_end st token quoted :
  word_state st -> exists argv, lex "" st token quoted = Normal argv.
Proof.
  intros [-> | ->]; cbn [lex]; destruct (has_token token quoted); now eexists.
Qed.

Lemma splits_plain s : plain s = true -> splits s.
Proof.
  intros H. unfold splits, shlex_split. rewrite <- (append_nil_r s).
  apply lex_plain_app; [exact H | apply lex_end | now left].
Qed.

Lemma plain_app s1 s2 : plain (s1 ++ s2) = plain s1 && plain s2.
Proof.
  induction s1 as [| c s1 IH]; [reflexivity |]. cbn [append plain].
  rewrite IH. now rewrite andb_assoc.
Qed.

(** The decimal text of an integer is plain. *)
Lemma plain_str n : plain (str n) = true.
Proof.
  assert (H : forall d, plain (NilEmpty.string_of_uint d) = true)
    by (induction d; cbn [NilEmpty.string_of_uint plain]; auto).
  unfold str, NilZero.string_of_int, NilZero.string_of_uint.
  destruct (Z.to_int n) as [d | d]; destruct d; try reflexivity;
    cbn [plain]; try apply H; rewrite H; reflexivity.
Qed.

(** Inside a double quotation a plain text is taken as it stands, up to the
    closing quote. *)
Lemma lex_quotation body : plain body = true ->
  forall rest,
    (forall token quoted,
       exists argv, lex rest InWord token quoted = Normal argv) ->
    forall token quoted,
      exists argv,
        lex (body ++ dq ++ rest) (InQuote (ascii_of_nat 34)) token quoted
        = Normal argv.
Proof.
  induction body as [| c body IH]; intros Hb rest Hrest token quoted.
  - cbn. apply Hrest.
  - cbn [plain] in Hb. apply andb_true_iff in Hb. destruct Hb as [Hc Hb].
    apply andb_true_iff in Hc. destruct Hc as [Hq He].
    apply negb_true_iff in Hq, He. cbn [append lex].
    assert (Hne : Ascii.eqb c (ascii_of_nat 34) = false).
    { unfold is_quote in Hq. cbn [map existsb] in Hq.
      apply orb_false_iff in Hq. destruct Hq as [_ Hq].
      apply orb_false_iff in Hq. tauto. }
    rewrite Hne, He. cbn [andb]. now apply IH.
Qed.

(** A plain text followed by a plain text between double quotes. *)
Lemma splits_quoted pre body :
  plain pre = true -> plain body = true -> splits (pre ++ dq ++ body ++ dq).
Proof.
  intros Hpre Hbody. unfold splits, shlex_split.
  apply lex_plain_app; [exact Hpre | | now left].
  intros st token quoted Hst.
  assert (E : lex (dq ++ body ++ dq) st token quoted
              = lex (body ++ dq ++ "") (InQuote (ascii_of_nat 34)) token quoted).
  { rewrite append_nil_r. destruct Hst as [-> | ->]; reflexivity. }
  rewrite E. apply lex_quotation; [exact Hbody |].
  intros token' quoted'. apply lex_end. now right.
Qed.

(** The text of a command whose text arguments are plain can be split. *)
Lemma splits_cmd c : plain_cmd c = true -> splits (cmdline c).
Proof.
  destruct c as [ifce | key value | sw | sw proto in_port out_port | sw | ifce];
    cbn [plain_cmd cmdline]; intros H;
    try (apply splits_plain; rewrite !plain_app, ?plain_str, ?H; reflexivity).
  apply andb_true_iff in H. destruct H as [H Hout].
  apply andb_true_iff in H. destruct H as [Hproto Hin].
  replace ("ovs-ofctl add-flow s" ++ str sw ++ " " ++ dq ++ proto
             ++ ",in_port=" ++ in_port ++ ",actions=output=" ++ out_port
             ++ dq)%string
    with (("ovs-ofctl add-flow s" ++ str sw ++ " ") ++ dq
            ++ (proto ++ ",in_port=" ++ in_port ++ ",actions=output="
                  ++ out_port) ++ dq)%string
    by (now rewrite !append_assoc).
  apply splits_quoted; rewrite !plain_app, ?plain_str, ?Hproto, ?Hin, ?Hout;
    reflexivity.
Qed.

(** The interface names the script builds from switch and host numbers. *)
Ltac plainly :=
  cbn [plain_cmd];
  repeat first [ rewrite plain_app | rewrite plain_str
               | progress cbn [plain append] ];
  reflexivity.

Ltac splitting := apply splits_cmd; plainly.

(** A command whose text can be split is a plain call. *)
Lemma check_output_call c :
  splits (cmdline c) -> check_output c = call (CheckOutput c).
Proof. intros [argv E]. unfold check_output. now rewrite E. Qed.

Lemma check_output_normal_inv c bk h out ev :
  check_output c bk h = (Normal out, ev) ->
  bk h (CheckOutput c) = Returns out
  /\ ev = [EvCall (CheckOutput c) (Returns out)].
Proof.
  unfold check_output. destruct (shlex_split (cmdline c));
    [apply call_normal_inv | discriminate].
Qed.

(** The two settings of [config_ipv6] are written by plain calls. *)
Lemma config_ipv6_calls action :
  config_ipv6 action
  = (let value := if String.eqb action "disable" then 1 else 0 in
     call (CheckOutput (SysctlW "net.ipv6.conf.all.disable_ipv6" value)) ;;
     call (CheckOutput (SysctlW "net.ipv6.conf.default.disable_ipv6" value)) ;;
     ret tt).
Proof.
  unfold config_ipv6. cbv zeta. now rewrite !check_output_call by splitting.
Qed.

(** The events of a sequence that starts with a call or a log line. *)
Lemma bind_call_events {B : Type} c (f : string -> M B) bk h :
  snd (bind (call c) f bk h)
  = EvCall c (bk h c)
    :: match bk h c with
       | Returns out => snd (f out bk (h ++ [EvCall c (Returns out)]))
       | Throws _ => []
       end.
Proof.
  unfold bind, call. destruct (bk h c) as [out | msg]; [| reflexivity].
  now destruct (f out bk (h ++ [EvCall c (Returns out)])).
Qed.

Lemma bind_info_events {B : Type} s (f : unit -> M B) bk h :
  snd (bind (info s) f bk h) = EvInfo s :: snd (f tt bk (h ++ [EvInfo s])).
Proof.
  unfold bind, info. now destruct (f tt bk (h ++ [EvInfo s])).
Qed.

Lemma bind_print_events {B : Type} s (f : unit -> M B) bk h :
  snd (bind (print s) f bk h) = EvPrint s :: snd (f tt bk (h ++ [EvPrint s])).
Proof.
  unfold bind, print. now destruct (f tt bk (h ++ [EvPrint s])).
Qed.

(** A sequence that starts with a call, by the outcome of the call. *)
Lemma bind_call_split {B : Type} c (f : string -> M B) bk h :
  bind (call c) f bk h
  = match bk h c with
    | Returns out =>
        let (r, e2) := f out bk (h ++ [EvCall c (Returns out)]) in
        (r, EvCall c (Returns out) :: e2)
    | Throws msg => (Raised (BackendError msg), [EvCall c (Throws msg)])
    end.
Proof. unfold bind, call. now destruct (bk h c). Qed.

Lemma bind_info_split {B : Type} s (f : unit -> M B) bk h :
  bind (info s) f bk h
  = let (r, e2) := f tt bk (h ++ [EvInfo s]) in (r, EvInfo s :: e2).
Proof. reflexivity. Qed.

Lemma ret_normal_inv {A : Type} (a b : A) bk h ev :
  ret a bk h = (Normal b, ev) -> a = b /\ ev = [].
Proof. unfold ret. intros E. inversion E; auto. Qed.

Lemma lift_normal_inv {A : Type} (o : option A) e bk h a ev :
  lift o e bk h = (Normal a, ev) -> o = Some a /\ ev = [].
Proof.
  destruct o; unfold lift, ret, raise; intros E; inversion E; auto.
Qed.

Lemma subscript_normal_inv {A : Type} (l : option (list A)) i bk h a ev :
  subscript l i bk h = (Normal a, ev) ->
  exists l', l = Some l' /\ py_index l' i = Some a /\ ev = [].
Proof.
  destruct l as [l' |]; unfold subscript; [| discriminate].
  intros E. apply lift_normal_inv in E. exists l'. tauto.
Qed.

Lemma sleep_normal_inv secs bk h u ev :
  sleep secs bk h = (Normal u, ev) ->
  0 <= secs /\ exists out, ev = [EvCall (time_sleep secs) (Returns out)].
Proof.
  unfold sleep. destruct (secs <? 0) eqn:E; [discriminate |].
  intros H. apply bind_normal_inv in H. destruct H as (a & e1 & e2 & H1 & H2 & ->).
  apply call_normal_inv in H1. destruct H1 as [_ ->].
  apply ret_normal_inv in H2. destruct H2 as [_ ->].
  split; [lia | now exists a].
Qed.

Lemma slice_normal_inv {A : Type} (l : option (list A)) a b bk h r ev :
  slice l a b bk h = (Normal r, ev) ->
  exists l', l = Some l' /\ r = py_slice l' a b /\ ev = [].
Proof.
  destruct l as [l' |]; unfold slice; [| discriminate].
  intros E. apply ret_normal_inv in E. exists l'. intuition.
Qed.

Lemma py_len_normal_inv {A : Type} (l : option (list A)) bk h n ev :
  py_len l bk h = (Normal n, ev) ->
  exists l', l = Some l' /\ n = len l' /\ ev = [].
Proof.
  destruct l as [l' |]; unfold py_len; [| discriminate].
  intros E. apply ret_normal_inv in E. exists l'. intuition.
Qed.

Lemma info_normal_inv s bk h u ev :
  info s bk h = (Normal u, ev) -> ev = [EvInfo s].
Proof. unfold info. congruence. Qed.

Lemma error_normal_inv s bk h u ev :
  error s bk h = (Normal u, ev) -> ev = [EvError s].
Proof. unfold error. congruence. Qed.

Lemma print_normal_inv s bk h u ev :
  print s bk h = (Normal u, ev) -> ev = [EvPrint s].
Proof. unfold print. congruence. Qed.

(** Taking a sequence that ended normally apart, one step at a time. *)
Ltac inv_step H :=
  lazymatch type of H with
  | bind _ _ _ _ = (Normal _, _) =>
      let a := fresh "a" in
      let e1 := fresh "ev" in
      let e2 := fresh "ev" in
      let H1 := fresh "H" in
      apply bind_normal_inv in H;
      destruct H as (a & e1 & e2 & H1 & H & ->);
      inv_step H1; cbv beta in H; inv_step H
  | call _ _ _ = (Normal _, _) =>
      let Hbk := fresh "Hbk" in
      apply call_normal_inv in H; destruct H as [Hbk ->]
  | check_output _ _ _ = (Normal _, _) =>
      let Hbk := fresh "Hbk" in
      apply check_output_normal_inv in H; destruct H as [Hbk ->]
  | get_ofport _ _ _ = (Normal _, _) =>
      let Hbk := fresh "Hbk" in
      apply check_output_normal_inv in H; destruct H as [Hbk ->]
  | ret _ _ _ = (Normal _, _) =>
      apply ret_normal_inv in H; destruct H as [H ->];
      try (injection H as H); subst
  | info _ _ _ = (Normal _, _) =>
      apply info_normal_inv in H; subst
  | error _ _ _ = (Normal _, _) =>
      apply error_normal_inv in H; subst
  | print _ _ _ = (Normal _, _) =>
      apply print_normal_inv in H; subst
  | lift _ _ _ _ = (Normal _, _) =>
      apply lift_normal_inv in H; destruct H as [H ->]
  | subscript _ _ _ _ = (Normal _, _) =>
      let l := fresh "hs" in
      let E := fresh "Ehs" in
      apply subscript_normal_inv in H; destruct H as (l & E & H & ->)
  | slice _ _ _ _ _ = (Normal _, _) =>
      let l := fresh "hs" in
      let E := fresh "Ehs" in
      apply slice_normal_inv in H; destruct H as (l & E & H & ->)
  | py_len _ _ _ = (Normal _, _) =>
      let l := fresh "hs" in
      let E := fresh "Ehs" in
      apply py_len_normal_inv in H; destruct H as (l & E & H & ->)
  | sleep _ _ _ = (Normal _, _) =>
      apply sleep_normal_inv in H; destruct H as [H [? ->]]
  | _ => idtac
  end.

(** ** Handlers *)

Lemma try_finally_events {A : Type} (m : M A) fin bk h :
  snd (try_finally m fin bk h)
  = snd (m bk h) ++ snd (fin bk (h ++ snd (m bk h))).
Proof.
  unfold try_finally. destruct (m bk h) as [r e1]. simpl.
  now destruct (fin bk (h ++ e1)) as [[u | x] e2].
Qed.

(** The [except] clause of the run catches whatever the [try] block
    raises. *)
Lemma log_errors_normal (m : M unit) s bk h :
  fst (try_except m (fun e => error s ;; error (exn_msg e)) bk h) = Normal tt.
Proof.
  unfold try_except. destruct (m bk h) as [[[] | x] e1]; reflexivity.
Qed.

Lemma try_finally_normal {A : Type} (m : M A) fin bk h u e2 :
  fin bk (h ++ snd (m bk h)) = (Normal u, e2) ->
  try_finally m fin bk h = (fst (m bk h), snd (m bk h) ++ e2).
Proof.
  intros H. unfold try_finally. destruct (m bk h) as [r e1].
  cbn [fst snd] in *. now rewrite H.
Qed.

(** ** The loop *)

Section Loops.

Context {A S : Type}.
Variable body : A -> S -> M (loop_ctl * S).

Lemma for_loop_cons x t s :
  for_loop (x :: t) s body
  = ('(c, s1) <- body x s ;;
     match c with Next => for_loop t s1 body | Break => ret s1 end).
Proof. reflexivity. Qed.

(** A loop that ends normally ran its first iteration normally, and then
    either stopped at [break] or ran the rest. *)
Lemma for_loop_normal_inv x t s bk h s' ev :
  for_loop (x :: t) s body bk h = (Normal s', ev) ->
  exists c s1 e1 e2,
    body x s bk h = (Normal (c, s1), e1) /\ ev = e1 ++ e2
    /\ match c with
       | Next => for_loop t s1 body bk (h ++ e1) = (Normal s', e2)
       | Break => s' = s1 /\ e2 = []
       end.
Proof.
  rewrite for_loop_cons. intros H. apply bind_normal_inv in H.
  destruct H as ([c s1] & e1 & e2 & H1 & H2 & ->).
  exists c, s1, e1, e2. split; [assumption |]. split; [reflexivity |].
  destruct c; [assumption |].
  apply ret_normal_inv in H2. destruct H2; subst. auto.
Qed.

(** Whatever holds of every event of every iteration holds of every event
    of the loop. *)
Lemma for_loop_events (P : Event -> Prop) :
  (forall x s bk h, Forall P (snd (body x s bk h))) ->
  forall l s bk h, Forall P (snd (for_loop l s body bk h)).
Proof.
  intros Hbody. induction l as [| x t IH]; intros s bk h.
  - constructor.
  - rewrite for_loop_cons. unfold bind. specialize (Hbody x s bk h).
    destruct (body x s bk h) as [[[c s1] | e] e1]; simpl in *; [| assumption].
    destruct c.
    + specialize (IH s1 bk (h ++ e1)).
      destruct (for_loop t s1 body bk (h ++ e1)) as [r e2]. simpl in *.
      apply Forall_app; auto.
    + simpl. rewrite app_nil_r. assumption.
Qed.

End Loops.

(** ** What a computation may emit *)

Section Emits.

Variable P : Event -> Prop.

Lemma emits_ret {A : Type} (a : A) : emits_only P (ret a).
Proof. intros bk h. constructor. Qed.

Lemma emits_raise {A : Type} e : emits_only P (@raise A e).
Proof. intros bk h. constructor. Qed.

Lemma emits_lift {A : Type} (o : option A) e : emits_only P (lift o e).
Proof. destruct o; [apply emits_ret | apply emits_raise]. Qed.

Lemma emits_subscript {A : Type} (l : option (list A)) i :
  emits_only P (subscript l i).
Proof. destruct l; [apply emits_lift | apply emits_raise]. Qed.

Lemma emits_slice {A : Type} (l : option (list A)) a b :
  emits_only P (slice l a b).
Proof. destruct l; [apply emits_ret | apply emits_raise]. Qed.

Lemma emits_py_len {A : Type} (l : option (list A)) : emits_only P (py_len l).
Proof. destruct l; [apply emits_ret | apply emits_raise]. Qed.

Lemma emits_call c : (forall o, P (EvCall c o)) -> emits_only P (call c).
Proof. intros H bk h. rewrite call_event. auto. Qed.

Lemma emits_info s : P (EvInfo s) -> emits_only P (info s).
Proof. intros H bk h. simpl. auto. Qed.

Lemma emits_error s : P (EvError s) -> emits_only P (error s).
Proof. intros H bk h. simpl. auto. Qed.

Lemma emits_print s : P (EvPrint s) -> emits_only P (print s).
Proof. intros H bk h. simpl. auto. Qed.

Lemma emits_bind {A B : Type} (m : M A) (f : A -> M B) :
  emits_only P m -> (forall a, emits_only P (f a)) -> emits_only P (bind m f).
Proof.
  intros Hm Hf bk h. unfold bind. specialize (Hm bk h).
  destruct (m bk h) as [[a | x] e1]; simpl in *; [| assumption].
  specialize (Hf a bk (h ++ e1)). destruct (f a bk (h ++ e1)) as [r e2].
  simpl in *. apply Forall_app; auto.
Qed.

Lemma emits_try_except {A : Type} (m : M A) (handler : exn -> M A) :
  emits_only P m -> (forall e, emits_only P (handler e)) ->
  emits_only P (try_except m handler).
Proof.
  intros Hm Hh bk h. unfold try_except. specialize (Hm bk h).
  destruct (m bk h) as [[a | x] e1]; simpl in *; [assumption |].
  specialize (Hh x bk (h ++ e1)). destruct (handler x bk (h ++ e1)) as [r e2].
  simpl in *. apply Forall_app; auto.
Qed.

Lemma emits_for_loop {A S : Type} (l : list A) (s : S) body :
  (forall x s', emits_only P (body x s')) -> emits_only P (for_loop l s body).
Proof. intros H bk h. apply for_loop_events. intros. apply H. Qed.

Lemma emits_for_each {A : Type} (l : list A) body :
  (forall x, emits_only P (body x)) -> emits_only P (for_each l body).
Proof.
  intros H. apply emits_for_loop. intros x _. apply emits_bind; [apply H |].
  intros _. apply emits_ret.
Qed.

Lemma emits_sleep secs :
  (forall o, P (EvCall (time_sleep secs) o)) -> emits_only P (sleep secs).
Proof.
  intros H. unfold sleep. destruct (secs <? 0); [apply emits_raise |].
  apply emits_bind; [now apply emits_call | intros; apply emits_ret].
Qed.

Lemma emits_check_output c :
  (forall o, P (EvCall (CheckOutput c) o)) -> emits_only P (check_output c).
Proof.
  intros H. unfold check_output.
  destruct (shlex_split (cmdline c)); [now apply emits_call | apply emits_raise].
Qed.

End Emits.

(** ** Runs on a reliable backend *)

Lemma through_ret {A : Type} (a : A) : goes_through (ret a).
Proof. intros bk h _. now exists a, []. Qed.

Lemma through_call c : goes_through (call c).
Proof.
  intros bk h Hbk. destruct (Hbk c h) as [out E].
  exists out, [EvCall c (Returns out)]. now apply call_returns.
Qed.

Lemma through_info s : goes_through (info s).
Proof. intros bk h _. now exists tt, [EvInfo s]. Qed.

Lemma through_print s : goes_through (print s).
Proof. intros bk h _. now exists tt, [EvPrint s]. Qed.

Lemma through_bind {A B : Type} (m : M A) (f : A -> M B) :
  goes_through m -> (forall a, goes_through (f a)) -> goes_through (bind m f).
Proof.
  intros Hm Hf bk h Hbk. destruct (Hm bk h Hbk) as (a & e1 & E1).
  destruct (Hf a bk (h ++ e1) Hbk) as (b & e2 & E2).
  exists b, (e1 ++ e2). rewrite (bind_normal _ _ _ _ _ _ E1), E2. reflexivity.
Qed.

Lemma through_for_loop {A S : Type} (l : list A) body :
  (forall x (s : S), In x l -> goes_through (body x s)) ->
  forall s, goes_through (for_loop l s body).
Proof.
  induction l as [| x t IH]; intros Hbody s; [apply through_ret |].
  rewrite for_loop_cons. apply through_bind; [apply Hbody; now left |].
  intros [[|] s1]; [| apply through_ret].
  apply IH. intros y s' Hy. apply Hbody. now right.
Qed.

Lemma through_for_each {A : Type} (l : list A) body :
  (forall x, In x l -> goes_through (body x)) -> goes_through (for_each l body).
Proof.
  intros H. apply through_for_loop. intros x _ Hx.
  apply through_bind; [now apply H | intros; apply through_ret].
Qed.

Lemma through_sleep secs : 0 <= secs -> goes_through (sleep secs).
Proof.
  intros H. unfold sleep. destruct (Z.ltb_spec secs 0); [lia |].
  apply through_bind; [apply through_call | intros; apply through_ret].
Qed.

Lemma through_check_output c :
  splits (cmdline c) -> goes_through (check_output c).
Proof. intros H. rewrite (check_output_call c H). apply through_call. Qed.

Lemma never_throws_ok c : never_throws ok_backend c.
Proof.
  intros h. destruct c as [[] | | | | | | | | | | | | | | |]; eexists; reflexivity.
Qed.

Lemma reliable_ok : reliable ok_backend.
Proof. intros c. apply never_throws_ok. Qed.

Ltac through :=
  repeat first
    [ apply through_bind; [| intros ?]
    | apply through_call
    | apply through_check_output; splitting
    | apply through_info
    | apply through_print
    | apply through_ret
    | match goal with
      | |- goes_through (if ?b then _ else _) => destruct b
      end ].

(** ** Lists, ranges and traces *)

Lemma calls_of_app e1 e2 : calls_of (e1 ++ e2) = calls_of e1 ++ calls_of e2.
Proof.
  induction e1 as [| [c o | s | s | s] t IH]; simpl; auto. now rewrite IH.
Qed.

Lemma count_calls_app p e1 e2 :
  count_calls p (e1 ++ e2) = (count_calls p e1 + count_calls p e2)%nat.
Proof.
  unfold count_calls. now rewrite calls_of_app, filter_app, length_app.
Qed.

(** A trace whose events are all of one kind has no call of another. *)
Lemma count_calls_none (P : Event -> Prop) p ev :
  (forall c o, P (EvCall c o) -> p c = false) ->
  Forall P ev -> count_calls p ev = 0%nat.
Proof.
  intros HP H. induction H as [| e t He Ht IH]; [reflexivity |].
  destruct e as [c o | s | s | s]; try exact IH.
  unfold count_calls in *. simpl. rewrite (HP c o He). exact IH.
Qed.

Lemma range_length n : 0 <= n -> len (range n) = n.
Proof.
  intros H. unfold len, range. rewrite length_map, length_seq. lia.
Qed.

Lemma range_nth n i :
  0 <= i < n -> nth_error (range n) (Z.to_nat i) = Some i.
Proof.
  intros H. unfold range. rewrite nth_error_map, nth_error_seq.
  destruct (Nat.ltb_spec (Z.to_nat i) (Z.to_nat n)); [| lia].
  simpl. f_equal. lia.
Qed.

Lemma range_In n i : In i (range n) <-> 0 <= i < n.
Proof.
  unfold range. rewrite in_map_iff. split.
  - intros (k & <- & Hk). apply in_seq in Hk. lia.
  - intros H. exists (Z.to_nat i). split; [lia |]. apply in_seq. lia.
Qed.

Lemma py_index_nonneg {A : Type} (l : list A) i :
  0 <= i -> py_index l i = nth_error l (Z.to_nat i).
Proof.
  intros H. unfold py_index. destruct (Z.ltb_spec i 0); [lia | reflexivity].
Qed.

(** At or past the end of a list there is nothing to read. *)
Lemma py_index_past {A : Type} (l : list A) i :
  len l <= i -> py_index l i = None.
Proof.
  intros H. unfold len in H. rewrite py_index_nonneg by lia.
  apply nth_error_None. lia.
Qed.

Lemma filter_flat_map_length {A B : Type} (p : B -> bool) (f : A -> list B) l k :
  (forall x, In x l -> List.length (filter p (f x)) = k) ->
  List.length (filter p (flat_map f l)) = (k * List.length l)%nat.
Proof.
  induction l as [| x t IH]; intros H; simpl; [lia |].
  rewrite filter_app, length_app, H by (now left).
  rewrite IH by (intros; apply H; now right). lia.
Qed.

(** ** Assembling the topology *)

Lemma prev_switch_succ a :
  prev_switch (Z.of_nat (S a)) = Some (mkSwitch ("s" ++ str (Z.of_nat a + 1))).
Proof.
  unfold prev_switch. replace (Z.of_nat (S a)) with (Z.of_nat a + 1) by lia.
  destruct (Z.eqb_spec (Z.of_nat a + 1) 0); [lia | reflexivity].
Qed.

(** A hop that goes through created its host, its switch and its links,
    and left its switch as the previous one for the next hop. *)
Lemma assemble_hop_normal i hs bk h c st ev :
  assemble_hop i (hs, prev_switch i) bk h = (Normal (c, st), ev) ->
  c = Next /\ st = (hs ++ [hop_host i], Some (mkSwitch ("s" ++ str (i + 1))))
  /\ calls_of ev = hop_calls i.
Proof.
  unfold assemble_hop, hop_calls, prev_switch. intros H.
  destruct (i =? 0); inv_step H; repeat split.
Qed.

Lemma hops_normal m : forall a hs bk h st ev,
  for_loop (map Z.of_nat (seq a m)) (hs, prev_switch (Z.of_nat a))
           assemble_hop bk h = (Normal st, ev) ->
  fst st = hs ++ map hop_host (map Z.of_nat (seq a m))
  /\ calls_of ev = flat_map hop_calls (map Z.of_nat (seq a m)).
Proof.
  induction m as [| m IH]; intros a hs bk h st ev H.
  - cbn [seq map for_loop] in H. apply ret_normal_inv in H.
    destruct H as [<- ->]. simpl. rewrite app_nil_r. split; reflexivity.
  - simpl seq in H. simpl map in H. apply for_loop_normal_inv in H.
    destruct H as (c & s1 & e1 & e2 & Hhop & -> & Hrest).
    apply assemble_hop_normal in Hhop. destruct Hhop as (-> & -> & Hcalls).
    rewrite <- prev_switch_succ in Hrest. apply IH in Hrest.
    destruct Hrest as [Hhosts Hrest]. simpl.
    rewrite Hhosts, calls_of_app, Hcalls, Hrest, <- app_assoc. auto.
Qed.

(** A build that goes through made exactly the calls of the chain and
    returns the hosts of the chain. *)
Lemma assemble_normal host_num bk h hosts ev :
  assemble host_num bk h = (Normal hosts, ev) ->
  hosts = map hop_host (range host_num)
  /\ calls_of ev = addController "c0" :: flat_map hop_calls (range host_num).
Proof.
  unfold assemble. intros H. inv_step H.
  match goal with
  | Hloop : for_loop _ _ _ _ _ = _ |- _ =>
      apply (hops_normal _ 0%nat []) in Hloop;
      destruct Hloop as [Hhosts Hcalls]
  end.
  split; [exact Hhosts |].
  rewrite app_nil_r, !calls_of_app, Hcalls. reflexivity.
Qed.

Lemma assemble_hop_events i st : emits_only assembly_event (assemble_hop i st).
Proof.
  destruct st as [hs [last |]]; unfold assemble_hop;
    repeat (first [ apply emits_bind; [| intros ?]
                  | apply emits_call; intros ?; reflexivity
                  | apply emits_check_output; intros ?; reflexivity
                  | apply emits_ret ]).
Qed.

(** Whether it goes through or not, a build only logs and makes
    topology-building calls. *)
Lemma assemble_events host_num : emits_only assembly_event (assemble host_num).
Proof.
  unfold assemble.
  repeat (first [ apply emits_bind; [| intros ?]
                | apply emits_call; intros ?; reflexivity
                | apply emits_check_output; intros ?; reflexivity
                | apply emits_info; exact I
                | apply emits_for_loop; intros; apply assemble_hop_events
                | apply emits_ret ]).
Qed.

Lemma assemble_goes_through host_num : goes_through (assemble host_num).
Proof.
  unfold assemble. through. apply through_for_loop.
  intros i [hs [last |]] _; unfold assemble_hop; through.
Qed.

(** What [create_topology] does once the host count is accepted. *)
Lemma create_topology_normal host_num bk h hosts ev :
  5 <= host_num ->
  assemble host_num bk h = (Normal hosts, ev) ->
  create_topology host_num bk h = (Normal (Some hosts), ev).
Proof.
  intros Hn H. unfold create_topology.
  destruct (Z.ltb_spec host_num 5); [lia |].
  unfold try_except. rewrite (bind_normal _ _ _ _ _ _ H). simpl.
  now rewrite app_nil_r.
Qed.

Lemma create_topology_failed host_num bk h e ev :
  5 <= host_num ->
  assemble host_num bk h = (Raised e, ev) ->
  create_topology host_num bk h
  = (match bk (h ++ ev ++ [EvError (exn_msg e)]) net_stop with
     | Returns _ => Normal None
     | Throws msg => Raised (BackendError msg)
     end,
     ev ++ [EvError (exn_msg e);
            EvCall net_stop (bk (h ++ ev ++ [EvError (exn_msg e)]) net_stop)]).
Proof.
  intros Hn H. unfold create_topology.
  destruct (Z.ltb_spec host_num 5); [lia |].
  unfold try_except. rewrite (bind_raised _ _ _ _ _ _ H).
  unfold bind, error, call, ret. rewrite <- app_assoc.
  destruct (bk (h ++ ev ++ [EvError (exn_msg e)]) net_stop); reflexivity.
Qed.

(** A build that returns a host list went through. *)
Lemma create_topology_some_inv host_num bk h hosts ev :
  create_topology host_num bk h = (Normal (Some hosts), ev) ->
  5 <= host_num /\ assemble host_num bk h = (Normal hosts, ev).
Proof.
  intros H. unfold create_topology in H.
  destruct (Z.ltb_spec host_num 5); [discriminate |]. split; [lia |].
  destruct (assemble host_num bk h) as [[hs | e] ev'] eqn:E.
  - unfold try_except in H. rewrite (bind_normal _ _ _ _ _ _ E) in H.
    simpl in H. rewrite app_nil_r in H. congruence.
  - unfold try_except in H. rewrite (bind_raised _ _ _ _ _ _ E) in H.
    unfold bind, error, call, ret in H.
    destruct (bk _ net_stop); discriminate.
Qed.

Lemma range_head n :
  1 <= n -> range n = 0 :: map Z.of_nat (seq 1 (Z.to_nat n - 1)).
Proof.
  intros H. unfold range.
  replace (Z.to_nat n) with (S (Z.to_nat n - 1)) at 1 by lia. reflexivity.
Qed.

Lemma hop_calls_count (p : Call -> bool) (k : nat) n :
  0 <= n ->
  (forall i, 0 <= i -> List.length (filter p (hop_calls i)) = k) ->
  List.length (filter p (flat_map hop_calls (range n))) = (k * Z.to_nat n)%nat.
Proof.
  intros Hn H. rewrite (filter_flat_map_length p hop_calls (range n) k).
  - unfold range. now rewrite length_map, length_seq.
  - intros i Hi. apply range_In in Hi. apply H. lia.
Qed.

Lemma hop_calls_switch_links n :
  1 <= n ->
  List.length (filter is_switch_link (flat_map hop_calls (range n)))
  = (Z.to_nat n - 1)%nat.
Proof.
  intros Hn. rewrite (range_head n Hn). cbn [flat_map].
  rewrite filter_app, length_app.
  rewrite (filter_flat_map_length is_switch_link hop_calls _ 1).
  - rewrite length_map, length_seq. simpl. lia.
  - intros i Hi. apply in_map_iff in Hi. destruct Hi as (m & <- & Hm).
    apply in_seq in Hm. unfold hop_calls.
    destruct (Z.eqb_spec (Z.of_nat m) 0); [lia | reflexivity].
Qed.

(** C3. A host count below 5 makes [create_topology] raise its
    configuration error, [RuntimeError("Require at least 5 hosts")], before
    anything is logged and before any backend call (no controller, host,
    switch or link is created); with 5 hosts or more this error is never
    raised, whatever the backend does. *)
Theorem host_count_validation bk h host_num :
  (host_num < 5 ->
   create_topology host_num bk h
   = (Raised (RuntimeError "Require at least 5 hosts"), []))
  /\ (5 <= host_num ->
      forall msg,
        fst (create_topology host_num bk h) <> Raised (RuntimeError msg)).
Proof.
  split; intros Hn.
  - unfold create_topology. destruct (Z.ltb_spec host_num 5); [| lia].
    reflexivity.
  - intros msg. destruct (assemble host_num bk h) as [[hosts | e] ev] eqn:E.
    + rewrite (create_topology_normal _ _ _ _ _ Hn E). discriminate.
    + rewrite (create_topology_failed _ _ _ _ _ Hn E). simpl.
      destruct (bk _ net_stop); discriminate.
Qed.

Lemma host_count_validation_witness :
  create_topology 4 ok_backend []
  = (Raised (RuntimeError "Require at least 5 hosts"), [])
  /\ forall msg,
       fst (create_topology 5 ok_backend []) <> Raised (RuntimeError msg).
Proof.
  split.
  - apply (proj1 (host_count_validation ok_backend [] 4)). lia.
  - apply (proj2 (host_count_validation ok_backend [] 5)). lia.
Defined.

(** C4. With [host_num >= 5], the topology build goes through on a backend
    on which no call raises, and a topology build that goes through creates
    the controller and then, hop by hop, exactly [host_num] hosts,
    [host_num] switches, [host_num] host-switch links with 20ms delay and no
    loss, and [host_num - 1] switch-switch links with 20ms delay and 20%
    loss, and no other link; the host at index [i] is named [h{i+1}] and is
    created with IP address [10.0.0.{i+1}]. *)
Theorem topology_shape bk h host_num :
  5 <= host_num ->
  (reliable bk ->
   exists hosts ev, create_topology host_num bk h = (Normal (Some hosts), ev))
  /\ (forall hosts ev,
        create_topology host_num bk h = (Normal (Some hosts), ev) ->
        calls_of ev
        = addController "c0" :: flat_map hop_calls (range host_num)
        /\ len hosts = host_num
        /\ Z.of_nat (count_calls is_host_creation ev) = host_num
        /\ Z.of_nat (count_calls is_switch_creation ev) = host_num
        /\ Z.of_nat (count_calls is_host_link ev) = host_num
        /\ Z.of_nat (count_calls is_switch_link ev) = host_num - 1
        /\ Z.of_nat (count_calls is_link ev) = host_num + (host_num - 1)
        /\ forall i, 0 <= i < host_num ->
             py_index hosts i
             = Some (mkHost ("h" ++ str (i + 1)) ("10.0.0." ++ str (i + 1)))
             /\ In (addDockerHost ("h" ++ str (i + 1)) "dev_test"
                      ("10.0.0." ++ str (i + 1)) ("h" ++ str (i + 1)))
                   (calls_of ev)).
Proof.
  intros Hn. split.
  { intros Hbk. destruct (assemble_goes_through host_num bk h Hbk)
      as (hosts & ev & E).
    exists hosts, ev. now apply create_topology_normal. }
  intros hosts ev H. apply create_topology_some_inv in H. destruct H as [_ H].
  apply assemble_normal in H. destruct H as [-> Hcalls].
  split; [exact Hcalls |].
  split; [unfold len; rewrite length_map; apply range_length; lia |].
  unfold count_calls. rewrite Hcalls. cbn [filter is_host_creation
    is_switch_creation is_host_link is_switch_link is_link].
  rewrite (hop_calls_count is_host_creation 1),
    (hop_calls_count is_switch_creation 1), (hop_calls_count is_host_link 1),
    hop_calls_switch_links; try lia;
    try (intros i _; unfold hop_calls; destruct (i =? 0); reflexivity).
  repeat (split; [lia |]).
  split.
  - assert (E : List.length (filter is_link (flat_map hop_calls (range host_num)))
                = (Z.to_nat host_num + (Z.to_nat host_num - 1))%nat).
    { rewrite (range_head host_num) by lia. cbn [flat_map].
      rewrite filter_app, length_app.
      rewrite (filter_flat_map_length is_link hop_calls _ 2).
      - rewrite length_map, length_seq. simpl. lia.
      - intros i Hi. apply in_map_iff in Hi. destruct Hi as (m & <- & Hm).
        apply in_seq in Hm. unfold hop_calls.
        destruct (Z.eqb_spec (Z.of_nat m) 0); [lia | reflexivity]. }
    rewrite E. lia.
  - intros i Hi. split.
    + rewrite py_index_nonneg by lia.
      rewrite nth_error_map, range_nth by lia. reflexivity.
    + right. apply in_flat_map. exists i. split; [apply range_In; lia |].
      left. reflexivity.
Qed.

Lemma topology_shape_witness :
  (exists hosts ev,
     create_topology 5 ok_backend [] = (Normal (Some hosts), ev))
  /\ Z.of_nat (count_calls is_host_creation
                 (snd (create_topology 5 ok_backend []))) = 5
  /\ Z.of_nat (count_calls is_switch_link
                 (snd (create_topology 5 ok_backend []))) = 5 - 1.
Proof.
  destruct (topology_shape ok_backend [] 5 ltac:(lia)) as [Hthrough Hshape].
  split; [exact (Hthrough reliable_ok) |].
  pose proof (Hshape (hosts_upto 5) (snd (create_topology 5 ok_backend []))
                eq_refl) as H.
  split; apply H.
Defined.

(** ** Flow rules *)

Lemma for_each_nil {A : Type} (body : A -> M unit) bk h u ev :
  for_each [] body bk h = (Normal u, ev) -> ev = [].
Proof.
  intros H. change (ret tt bk h = (Normal u, ev)) in H.
  apply ret_normal_inv in H. tauto.
Qed.

Lemma for_each_cons_inv {A : Type} (body : A -> M unit) x t bk h u ev :
  for_each (x :: t) body bk h = (Normal u, ev) ->
  exists e1 e2,
    body x bk h = (Normal tt, e1)
    /\ for_each t body bk (h ++ e1) = (Normal tt, e2)
    /\ ev = e1 ++ e2.
Proof.
  unfold for_each. intros H. apply for_loop_normal_inv in H.
  destruct H as (c & [] & e1 & e2 & Hbody & -> & Hrest).
  apply bind_normal_inv in Hbody.
  destruct Hbody as ([] & e1' & e0 & Hbody & Hret & ->).
  apply ret_normal_inv in Hret. destruct Hret as [Hc ->].
  injection Hc as <-. rewrite app_nil_r in *.
  destruct u. exists e1', e2. auto.
Qed.

Lemma flow_cmds_app sw e1 e2 :
  flow_cmds sw (e1 ++ e2) = flow_cmds sw e1 ++ flow_cmds sw e2.
Proof.
  induction e1 as [| e t IH]; [reflexivity |].
  destruct e as [[[] | | | | | | | | | | | | | | |] o | s | s | s];
    simpl; auto; destruct (_ =? sw); simpl; now rewrite IH.
Qed.

Lemma flow_table_app sw e1 e2 :
  flow_table sw (e1 ++ e2) = fold_left (flow_step sw) e2 (flow_table sw e1).
Proof. unfold flow_table. apply fold_left_app. Qed.

Lemma installed_rules rules :
  List.length (filter is_install (Flush :: map install_cmd rules))
  = List.length rules.
Proof.
  simpl. induction rules as [| [[p i] o] t IH]; simpl; auto.
Qed.

(** An iteration that goes through flushes its switch and then installs
    one rule on the first switch, two on any other; it sends no flow
    command to any other switch. *)
Lemma add_ovs_flows_body_normal i bk h u ev :
  add_ovs_flows_body i bk h = (Normal u, ev) ->
  exists rules,
    List.length rules = (if i =? 0 then 1%nat else 2%nat)
    /\ forall sw,
         flow_cmds sw ev
         = (if i + 1 =? sw then Flush :: map install_cmd rules else [])
         /\ forall tbl,
              fold_left (flow_step sw) ev tbl
              = (if i + 1 =? sw then rules else tbl).
Proof.
  unfold add_ovs_flows_body. intros H.
  destruct (i =? 0); inv_step H.
  - eexists [(_, _, _)]. split; [reflexivity |]. intros sw. simpl.
    destruct (i + 1 =? sw); split; reflexivity.
  - eexists [(_, _, _); (_, _, _)]. split; [reflexivity |]. intros sw. simpl.
    destruct (i + 1 =? sw); split; reflexivity.
Qed.

(** The loop, over indices that do not repeat: each switch of an index in
    the list is flushed and then given its rules; no other switch is
    touched. *)
Lemma add_ovs_flows_loop l : NoDup l -> forall bk h u ev,
  for_each l add_ovs_flows_body bk h = (Normal u, ev) ->
  forall sw,
    (In (sw - 1) l ->
     exists rules,
       List.length rules = (if sw - 1 =? 0 then 1%nat else 2%nat)
       /\ flow_cmds sw ev = Flush :: map install_cmd rules
       /\ forall tbl, fold_left (flow_step sw) ev tbl = rules)
    /\ (~ In (sw - 1) l ->
        flow_cmds sw ev = []
        /\ forall tbl, fold_left (flow_step sw) ev tbl = tbl).
Proof.
  induction 1 as [| i t Hi Ht IH]; intros bk h u ev H sw.
  - apply for_each_nil in H. subst. split; [intros [] | auto].
  - apply for_each_cons_inv in H. destruct H as (e1 & e2 & Hbody & Hrest & ->).
    apply add_ovs_flows_body_normal in Hbody.
    destruct Hbody as (rules & Hlen & Hbody).
    destruct (Hbody sw) as [Hcmds Htbl].
    destruct (IH _ _ _ _ Hrest sw) as [IHin IHout].
    rewrite flow_cmds_app, Hcmds.
    destruct (Z.eqb_spec (i + 1) sw) as [E | E].
    + assert (Ei : sw - 1 = i) by lia. rewrite Ei in *.
      destruct (IHout Hi) as [Hnone Hsame]. split; [| intros Hn; simpl in Hn; tauto].
      intros _. exists rules. rewrite Hnone, app_nil_r.
      split; [exact Hlen |]. split; [reflexivity |].
      intros tbl. now rewrite fold_left_app, Htbl, Hsame.
    + split.
      * intros [Hin | Hin]; [lia |].
        destruct (IHin Hin) as (rules' & Hlen' & Hcmds' & Htbl').
        exists rules'. split; [exact Hlen' |]. split; [exact Hcmds' |].
        intros tbl. now rewrite fold_left_app, Htbl'.
      * intros Hn. destruct IHout as [Hnone Hsame].
        { intros Hin. apply Hn. now right. }
        split; [exact Hnone |].
        intros tbl. now rewrite fold_left_app, Htbl, Hsame.
Qed.

(** *** Runs on one backend *)

Lemma passes_bind {A B : Type} bk (m : M A) (f : A -> M B) (P : A -> Prop) :
  (forall h, exists a ev, m bk h = (Normal a, ev) /\ P a) ->
  (forall a, P a -> passes bk (f a)) -> passes bk (bind m f).
Proof.
  intros Hm Hf h. destruct (Hm h) as (a & e1 & E1 & Ha).
  destruct (Hf a Ha (h ++ e1)) as (b & e2 & E2).
  exists b, (e1 ++ e2). rewrite (bind_normal _ _ _ _ _ _ E1), E2. reflexivity.
Qed.

Lemma passes_seq {A B : Type} bk (m : M A) (f : A -> M B) :
  passes bk m -> (forall a, passes bk (f a)) -> passes bk (bind m f).
Proof.
  intros Hm Hf. apply (passes_bind bk m f (fun _ => True)).
  - intros h. destruct (Hm h) as (a & ev & E). now exists a, ev.
  - intros a _. apply Hf.
Qed.

Lemma passes_through {A : Type} bk (m : M A) :
  reliable bk -> goes_through m -> passes bk m.
Proof. intros Hbk Hm h. now apply Hm. Qed.

Lemma passes_for_loop {A S : Type} bk (l : list A) body :
  (forall x (s : S), In x l -> passes bk (body x s)) ->
  forall s, passes bk (for_loop l s body).
Proof.
  induction l as [| x t IH]; intros Hbody s; [intros h; now exists s, [] |].
  rewrite for_loop_cons. apply passes_seq; [apply Hbody; now left |].
  intros [[|] s1]; [| intros h; now exists s1, []].
  apply IH. intros y s' Hy. apply Hbody. now right.
Qed.

Lemma passes_for_each {A : Type} bk (l : list A) body :
  (forall x, In x l -> passes bk (body x)) -> passes bk (for_each l body).
Proof.
  intros H. apply passes_for_loop. intros x _ Hx.
  apply passes_seq; [now apply H | intros _ h; now exists (Next, tt), []].
Qed.

(** On a reliable backend with plain port texts, the port of an interface
    with a plain name is read, and is plain. *)
Lemma get_ofport_passes bk ifce h :
  reliable bk -> plain_ports bk -> plain ifce = true ->
  exists port ev,
    get_ofport ifce bk h = (Normal port, ev) /\ plain port = true.
Proof.
  intros Hbk Hports Hifce. unfold get_ofport.
  rewrite check_output_call by (apply splits_cmd; exact Hifce).
  destruct (Hbk (CheckOutput (OvsVsctlGetOfport ifce)) h) as [port E].
  exists port, [EvCall (CheckOutput (OvsVsctlGetOfport ifce)) (Returns port)].
  split; [now apply call_returns | exact (Hports _ _ _ Hifce E)].
Qed.

Lemma add_ovs_flows_body_passes bk i :
  reliable bk -> plain_ports bk -> passes bk (add_ovs_flows_body i).
Proof.
  intros Hbk Hports. unfold add_ovs_flows_body.
  assert (Hrule : forall sw in_port out_port,
             plain in_port = true -> plain out_port = true ->
             passes bk (check_output (OvsOfctlAddFlow sw "udp" in_port
                                                      out_port))).
  { intros sw in_port out_port Hin Hout. apply passes_through; [exact Hbk |].
    apply through_check_output, splits_cmd. cbn [plain_cmd].
    now rewrite Hin, Hout. }
  apply passes_seq;
    [apply passes_through; [exact Hbk | through] | intros _].
  apply (passes_bind bk _ _ (fun port => plain port = true));
    [intros h; apply get_ofport_passes; auto; plainly | intros in_port Hin].
  apply (passes_bind bk _ _ (fun port => plain port = true));
    [intros h; apply get_ofport_passes; auto; plainly | intros out_port Hout].
  apply passes_seq; [now apply Hrule | intros _].
  destruct (i =? 0); [intros h; now exists tt, [] |].
  apply (passes_bind bk _ _ (fun port => plain port = true));
    [intros h; apply get_ofport_passes; auto; plainly | intros in_port' Hin'].
  apply (passes_bind bk _ _ (fun port => plain port = true));
    [intros h; apply get_ofport_passes; auto; plainly | intros out_port' Hout'].
  apply passes_seq; [now apply Hrule | intros _ h; now exists tt, []].
Qed.

Lemma add_ovs_flows_passes bk switch_num :
  reliable bk -> plain_ports bk -> passes bk (add_ovs_flows switch_num).
Proof.
  intros Hbk Hports. unfold add_ovs_flows. apply passes_for_each.
  intros i _. now apply add_ovs_flows_body_passes.
Qed.

Lemma plain_ports_ok : plain_ports ok_backend.
Proof. intros h ifce out Hifce H. injection H as <-. exact Hifce. Qed.

Lemma range_NoDup n : NoDup (range n).
Proof.
  unfold range. apply Injective_map_NoDup; [| apply seq_NoDup].
  intros x y. apply Nat2Z.inj.
Qed.

(** C5, as the code has it.  The installation goes through on a backend
    on which no call raises and whose port texts hold no quote and no
    backslash, so that the text of every [add-flow] command can be split.
    An installation that goes through over
    [switch_num] switches programs the switches at index [0 <= i <
    switch_num - 1]: each is flushed first and then given exactly 1 rule at
    index 0 and exactly 2 rules at any other index, so that its table holds
    just these rules whatever it held before; the last switch, and any other
    switch, receives no flow command.  Installing a second time leaves the
    number of rules of every switch unchanged. *)
Theorem flow_rules_installed bk h switch_num :
  (reliable bk -> plain_ports bk ->
   exists ev, add_ovs_flows switch_num bk h = (Normal tt, ev))
  /\ (forall ev,
        add_ovs_flows switch_num bk h = (Normal tt, ev) ->
        (forall i, 0 <= i < switch_num - 1 ->
           exists rules,
             flow_cmds (i + 1) ev = Flush :: map install_cmd rules
             /\ flow_table (i + 1) (h ++ ev) = rules
             /\ List.length rules = (if i =? 0 then 1%nat else 2%nat)
             /\ installed (i + 1) ev = (if i =? 0 then 1%nat else 2%nat))
        /\ (forall i, ~ 0 <= i < switch_num - 1 ->
              flow_cmds (i + 1) ev = []
              /\ flow_table (i + 1) (h ++ ev) = flow_table (i + 1) h)
        /\ (forall ev',
              add_ovs_flows switch_num bk (h ++ ev) = (Normal tt, ev') ->
              forall sw,
                List.length (flow_table sw ((h ++ ev) ++ ev'))
                = List.length (flow_table sw (h ++ ev)))).
Proof.
  split.
  { intros Hbk Hports.
    destruct (add_ovs_flows_passes bk switch_num Hbk Hports h)
      as ([] & ev & E). now exists ev. }
  intros ev H. unfold add_ovs_flows in *.
  pose proof (add_ovs_flows_loop _ (range_NoDup (switch_num - 1)) _ _ _ _ H)
    as Hloop.
  split; [| split].
  - intros i Hi. destruct (Hloop (i + 1)) as [Hin _].
    replace (i + 1 - 1) with i in Hin by lia.
    destruct Hin as (rules & Hlen & Hcmds & Htbl); [apply range_In; lia |].
    exists rules. rewrite flow_table_app, Htbl. unfold installed.
    rewrite Hcmds, installed_rules. auto.
  - intros i Hi. destruct (Hloop (i + 1)) as [_ Hout].
    replace (i + 1 - 1) with i in Hout by lia.
    destruct Hout as [Hnone Hsame]; [rewrite range_In; lia |].
    now rewrite flow_table_app, Hsame.
  - intros ev' H' sw.
    pose proof (add_ovs_flows_loop _ (range_NoDup (switch_num - 1))
                  _ _ _ _ H' sw) as [Hin' Hout'].
    destruct (Hloop sw) as [Hin Hout].
    rewrite (flow_table_app sw (h ++ ev) ev'), (flow_table_app sw h ev).
    destruct (in_dec Z.eq_dec (sw - 1) (range (switch_num - 1))) as [Hsw | Hsw].
    + destruct (Hin Hsw) as (rules & Hlen & _ & Htbl).
      destruct (Hin' Hsw) as (rules' & Hlen' & _ & Htbl').
      rewrite Htbl', Htbl. congruence.
    + destruct (Hout' Hsw) as [_ Hsame']. now rewrite Hsame'.
Qed.

Lemma flow_rules_installed_witness :
  (exists ev, add_ovs_flows 5 ok_backend [] = (Normal tt, ev))
  /\ installed 1 (snd (add_ovs_flows 5 ok_backend [])) = 1%nat
  /\ installed 4 (snd (add_ovs_flows 5 ok_backend [])) = 2%nat
  /\ List.length
       (flow_table 4
          ((snd (add_ovs_flows 5 ok_backend []))
             ++ snd (add_ovs_flows 5 ok_backend
                       (snd (add_ovs_flows 5 ok_backend [])))))
     = List.length (flow_table 4 (snd (add_ovs_flows 5 ok_backend []))).
Proof.
  destruct (flow_rules_installed ok_backend [] 5) as [Hthrough Hrules].
  split; [exact (Hthrough reliable_ok plain_ports_ok) |].
  pose proof (Hrules (snd (add_ovs_flows 5 ok_backend [])) eq_refl)
    as (Hin & _ & Hidem).
  destruct (Hin 0 ltac:(lia)) as (r0 & _ & _ & _ & H0).
  destruct (Hin 3 ltac:(lia)) as (r3 & _ & _ & _ & H3).
  split; [exact H0 |]. split; [exact H3 |].
  exact (Hidem _ eq_refl 4).
Defined.

(** C5, as stated, fails.  With 5 switches and a backend on which nothing
    fails, the switch at index 4 is neither flushed nor given any rule. *)
Lemma last_switch_not_programmed :
  fst (add_ovs_flows 5 ok_backend []) = Normal tt
  /\ flow_cmds 5 (snd (add_ovs_flows 5 ok_backend [])) = []
  /\ installed 5 (snd (add_ovs_flows 5 ok_backend [])) = 0%nat
  /\ installed 5 (snd (add_ovs_flows 5 ok_backend [])) <> 2%nat.
Proof.
  repeat split; try (vm_compute; reflexivity).
  vm_compute. discriminate.
Qed.

(** ** Action maps and the sweep *)

Lemma replace_nth_length {A : Type} (l : list A) n v :
  List.length (replace_nth l n v) = List.length l.
Proof.
  revert n. induction l as [| x t IH]; intros [| n]; simpl; auto.
Qed.

Lemma replace_nth_same {A : Type} (l : list A) n v :
  (n < List.length l)%nat -> nth_error (replace_nth l n v) n = Some v.
Proof.
  revert n. induction l as [| x t IH]; intros [| n] H; simpl in *;
    try lia; auto. apply IH. lia.
Qed.

Lemma replace_nth_other {A : Type} (l : list A) n m v :
  n <> m -> nth_error (replace_nth l n v) m = nth_error l m.
Proof.
  revert n m. induction l as [| x t IH]; intros [| n] [| m] H; simpl;
    try congruence; auto.
Qed.

Ltac emits :=
  repeat first
    [ apply emits_bind; [| intros ?]
    | apply emits_call; intros ?; reflexivity
    | apply emits_check_output; intros ?; reflexivity
    | apply emits_info; reflexivity
    | apply emits_print; reflexivity
    | apply emits_ret
    | apply emits_raise
    | apply emits_lift
    | apply emits_subscript
    | apply emits_slice
    | apply emits_py_len
    | apply emits_sleep; intros ?; reflexivity
    | apply emits_for_loop; intros ? ?
    | apply emits_for_each; intros ?
    | match goal with
      | |- emits_only _ (if ?b then _ else _) => destruct b
      end ].

Lemma deploy_coders_no_variant_log hosts rec_st_idx relay_num action_map :
  emits_only not_variant_log
             (deploy_coders hosts rec_st_idx relay_num action_map).
Proof. unfold deploy_coders, deploy_recoder. emits. Qed.

Lemma run_iperf_test_no_variant_log SYMBOL_SIZE META_DATA_LEN
    h_clt h_srv proto time print_clt_log :
  emits_only not_variant_log
             (run_iperf_test SYMBOL_SIZE META_DATA_LEN h_clt h_srv proto time
                             print_clt_log).
Proof. unfold run_iperf_test. emits. Qed.

Lemma print_coders_log_no_variant_log coders coder_log_conf :
  emits_only not_variant_log (print_coders_log coders coder_log_conf).
Proof.
  destruct coders as [[encoder decoder] recoders].
  unfold print_coders_log. emits.
Qed.

Lemma remove_coders_no_variant_log coders :
  emits_only not_variant_log (remove_coders coders).
Proof.
  destruct coders as [[encoder decoder] recoders].
  unfold remove_coders. emits.
Qed.

Lemma prefix_append s x : String.prefix s (s ++ x) = true.
Proof.
  induction s as [| a s IH]; simpl; [now destruct x |].
  destruct (ascii_dec a a); [exact IH | contradiction].
Qed.

Lemma filter_none {A : Type} (p : A -> bool) l :
  Forall (fun x => p x = false) l -> filter p l = [].
Proof.
  induction 1 as [| x t Hx Ht IH]; simpl; [reflexivity |]. now rewrite Hx.
Qed.

Section Sweep.

Variables SYMBOL_SIZE META_DATA_LEN : Z.
Variable hosts : option (list Host).
Variable rec_st_idx : Z.
Variable coder_log_conf : list (string * bool).

Let all_forward_variant :=
  variant SYMBOL_SIZE META_DATA_LEN true hosts rec_st_idx.

(** With all relays forwarding, a variant that completes ends the loop. *)
Lemma variant_breaks relay_num i u bk h c u' ev :
  all_forward_variant relay_num coder_log_conf i u bk h = (Normal (c, u'), ev) ->
  c = Break.
Proof.
  unfold all_forward_variant, variant. intros H.
  repeat (apply bind_normal_inv in H;
          destruct H as (? & ? & ? & _ & H & _); cbv beta in H).
  apply ret_normal_inv in H. destruct H as [H _]. congruence.
Qed.

(** With all relays forwarding, the sweep is the variant of step 0 and
    nothing else. *)
Lemma sweep_all_forward relay_num bk h :
  1 <= relay_num ->
  sweep SYMBOL_SIZE META_DATA_LEN true hosts rec_st_idx relay_num
        coder_log_conf bk h
  = (match fst (all_forward_variant relay_num coder_log_conf 0 tt bk h) with
     | Normal _ => Normal tt
     | Raised e => Raised e
     end,
     snd (all_forward_variant relay_num coder_log_conf 0 tt bk h)).
Proof.
  intros Hn. unfold sweep. rewrite (range_head relay_num Hn), for_loop_cons.
  fold all_forward_variant. unfold bind.
  destruct (all_forward_variant relay_num coder_log_conf 0 tt bk h)
    as [[[c []] | e] ev] eqn:E; [| reflexivity].
  apply variant_breaks in E. subst c. simpl. now rewrite app_nil_r.
Qed.

(** A variant logs its action map once, first of all. *)
Lemma variant_logs_once relay_num i u bk h :
  filter is_variant_log
         (snd (all_forward_variant relay_num coder_log_conf i u bk h))
  = [variant_log relay_num (repeat "forward" (Z.to_nat relay_num))].
Proof.
  unfold all_forward_variant, variant, build_action_map. cbn [negb].
  rewrite (bind_normal _ _ _ _ _ _ eq_refl). cbn [snd app].
  rewrite bind_info_events. cbn [filter is_variant_log].
  rewrite prefix_append.
  unfold variant_log. f_equal. apply filter_none.
  match goal with |- Forall _ (snd (?m bk ?h')) =>
    enough (E : emits_only not_variant_log m) by exact (E bk h') end.
  emits;
    first [ apply deploy_coders_no_variant_log
          | apply run_iperf_test_no_variant_log
          | apply print_coders_log_no_variant_log
          | apply remove_coders_no_variant_log ].
Qed.

End Sweep.

(** A run gets past its setup only with 5 hosts or more. *)
Lemma run_setup_normal_inv host_num bk h hosts ev :
  run_setup host_num bk h = (Normal hosts, ev) -> 5 <= host_num.
Proof.
  unfold run_setup, config_ipv6. intros H. inv_step H.
  unfold create_topology in H. destruct (Z.ltb_spec host_num 5); [| lia].
  discriminate.
Qed.

(** C6. With [relay_num = host_num - 4] relays and all-forward mode off,
    the action map built for sweep step [k] in [0, relay_num) has [recode]
    at position [k] and [forward] at every other position.  In all-forward
    mode every entry of the action map is [forward], whatever the step, and
    the sweep runs the variant of step 0 and nothing more: it logs exactly
    one action map, the all-forward one, however many relays there are.
    There is at least one relay whenever a run reaches the sweep, since a
    run gets past its setup only with 5 hosts or more. *)
Theorem sweep_action_maps SYMBOL_SIZE META_DATA_LEN hosts rec_st_idx
    coder_log_conf host_num bk h :
  let relay_num := host_num - 2 - 2 in
  relay_num = host_num - 4
  /\ (forall k, 0 <= k < relay_num ->
        exists action_map,
          build_action_map false relay_num k bk h = (Normal action_map, [])
          /\ len action_map = relay_num
          /\ py_index action_map k = Some "recode"
          /\ forall j, 0 <= j < relay_num -> j <> k ->
               py_index action_map j = Some "forward")
  /\ (forall k,
        build_action_map true relay_num k bk h
        = (Normal (repeat "forward" (Z.to_nat relay_num)), [])
        /\ ~ In "recode" (repeat "forward" (Z.to_nat relay_num)))
  /\ (1 <= relay_num ->
      sweep SYMBOL_SIZE META_DATA_LEN true hosts rec_st_idx relay_num
            coder_log_conf bk h
      = (match fst (variant SYMBOL_SIZE META_DATA_LEN true hosts rec_st_idx
                            relay_num coder_log_conf 0 tt bk h) with
         | Normal _ => Normal tt
         | Raised e => Raised e
         end,
         snd (variant SYMBOL_SIZE META_DATA_LEN true hosts rec_st_idx
                      relay_num coder_log_conf 0 tt bk h))
      /\ filter is_variant_log
                (snd (sweep SYMBOL_SIZE META_DATA_LEN true hosts rec_st_idx
                            relay_num coder_log_conf bk h))
         = [variant_log relay_num (repeat "forward" (Z.to_nat relay_num))])
  /\ (forall hosts' ev0,
        run_setup host_num bk h = (Normal hosts', ev0) -> 1 <= relay_num).
Proof.
  intros relay_num. split; [unfold relay_num; lia |].
  split; [| split; [| split]];
    [| | | intros hosts' ev0 H; apply run_setup_normal_inv in H;
           unfold relay_num; lia].
  - intros k Hk. unfold build_action_map, py_setitem. cbn [negb].
    assert (Hlen : len (repeat "forward" (Z.to_nat relay_num)) = relay_num)
      by (unfold len; rewrite repeat_length; lia).
    rewrite Hlen.
    destruct (Z.ltb_spec k 0); [lia |]. destruct (Z.ltb_spec k relay_num); [| lia].
    eexists. split; [reflexivity |]. split; [| split].
    + unfold len in *. now rewrite replace_nth_length.
    + rewrite py_index_nonneg by lia. apply replace_nth_same.
      rewrite repeat_length. lia.
    + intros j Hj Hjk. rewrite py_index_nonneg by lia.
      rewrite replace_nth_other by lia. apply nth_error_repeat. lia.
  - intros k. split; [reflexivity |].
    intros H. apply repeat_spec in H. discriminate.
  - intros Hn. rewrite sweep_all_forward by exact Hn.
    split; [reflexivity |]. apply variant_logs_once.
Qed.

Lemma sweep_action_maps_witness :
  (exists action_map,
     build_action_map false (7 - 2 - 2) 1 ok_backend [] = (Normal action_map, [])
     /\ len action_map = 7 - 2 - 2
     /\ py_index action_map 1 = Some "recode"
     /\ forall j, 0 <= j < 7 - 2 - 2 -> j <> 1 ->
          py_index action_map j = Some "forward")
  /\ filter is_variant_log
            (snd (sweep 1 0 true (Some (hosts_upto 7)) 2 (7 - 2 - 2) no_logs
                        ok_backend []))
     = [variant_log (7 - 2 - 2) (repeat "forward" (Z.to_nat (7 - 2 - 2)))].
Proof.
  pose proof (sweep_action_maps 1 0 (Some (hosts_upto 7)) 2 no_logs 7
                ok_backend []) as (_ & Hstep & _ & Hall & _).
  split.
  - apply (Hstep 1). lia.
  - apply Hall. lia.
Defined.

(** The sweep for 7 hosts: one variant per relay, each with its own relay
    recoding. *)
Example sweep_seven_hosts :
  filter is_variant_log
         (snd (run_multihop_nc_test 1 0 false 7 0 no_logs ok_backend []))
  = [variant_log 3 ["recode"; "forward"; "forward"];
     variant_log 3 ["forward"; "recode"; "forward"];
     variant_log 3 ["forward"; "forward"; "recode"]].
Proof. vm_compute. reflexivity. Qed.

(** The sweep for 5 hosts: a single relay, a single variant. *)
Example sweep_five_hosts :
  filter is_variant_log
         (snd (run_multihop_nc_test 1 0 false 5 0 no_logs ok_backend []))
  = [variant_log 1 ["recode"]].
Proof. vm_compute. reflexivity. Qed.

(** The all-forward run for 7 hosts: a single variant, no relay recoding. *)
Example sweep_all_forward_seven_hosts :
  filter is_variant_log
         (snd (run_multihop_nc_test 1 0 true 7 0 no_logs ok_backend []))
  = [variant_log 3 ["forward"; "forward"; "forward"]].
Proof. vm_compute. reflexivity. Qed.

(** ** Deploying the coders *)

(** A relay that starts was launched on the host at its index, with the
    action read at [action_index i] in the action map. *)
Lemma deploy_recoder_normal hosts action_map i recoders bk h c recoders' ev :
  deploy_recoder hosts action_map i recoders bk h = (Normal (c, recoders'), ev) ->
  exists hs host action,
    hosts = Some hs
    /\ py_index hs i = Some host
    /\ py_index action_map (action_index i) = Some action
    /\ calls_of ev = [recoder_call i (name host) action]
    /\ c = Next
    /\ recoders' = recoders ++ [mkContainer ("recoder_on_h" ++ str (i + 1))].
Proof.
  unfold deploy_recoder. intros H. inv_step H. eauto 10.
Qed.

Lemma deploy_loop_normal hs action_map l : forall recoders bk h recoders' ev,
  for_loop l recoders (deploy_recoder (Some hs) action_map) bk h
  = (Normal recoders', ev) ->
  Forall2 (relay_launch hs action_map) l (calls_of ev)
  /\ recoders'
     = recoders
         ++ map (fun i => mkContainer ("recoder_on_h" ++ str (i + 1))) l.
Proof.
  induction l as [| i t IH]; intros recoders bk h recoders' ev H.
  - cbn [for_loop] in H. apply ret_normal_inv in H. destruct H as [<- ->].
    split; [constructor | now rewrite app_nil_r].
  - apply for_loop_normal_inv in H.
    destruct H as (c & r1 & e1 & e2 & Hbody & -> & Hrest).
    apply deploy_recoder_normal in Hbody.
    destruct Hbody as (hs' & host & action & Ehs & Hh & Ha & Hcalls & -> & ->).
    injection Ehs as <-. apply IH in Hrest. destruct Hrest as [Hrel ->].
    rewrite calls_of_app, Hcalls. split.
    + constructor; [now exists host, action | exact Hrel].
    + now rewrite <- app_assoc.
Qed.

Lemma range2_length a b : a <= b -> len (range2 a b) = b - a.
Proof.
  intros H. unfold len, range2. rewrite length_map, length_seq. lia.
Qed.

Lemma range2_In a b i : In i (range2 a b) <-> a <= i < b.
Proof.
  unfold range2. rewrite in_map_iff. split.
  - intros (k & <- & Hk). apply in_seq in Hk. lia.
  - intros H. exists (Z.to_nat (i - a)). split; [lia |]. apply in_seq. lia.
Qed.

Lemma Forall2_In_l {A B : Type} (R : A -> B -> Prop) l l' x :
  Forall2 R l l' -> In x l -> exists y, R x y.
Proof.
  induction 1 as [| a b t t' Hab Ht IH]; intros Hin; [destruct Hin |].
  destruct Hin as [<- | Hin]; [now exists b | auto].
Qed.

(** What a deployment that goes through has done. *)
Lemma deploy_coders_normal hosts rec_st_idx relay_num action_map bk h coders ev :
  deploy_coders hosts rec_st_idx relay_num action_map bk h = (Normal coders, ev) ->
  exists hs relays dec_host enc_host,
    hosts = Some hs
    /\ 0 <= relay_num
    /\ Forall2 (relay_launch hs action_map)
               (range2 rec_st_idx (rec_st_idx + relay_num)) relays
    /\ py_index hs (-2) = Some dec_host
    /\ py_index hs 1 = Some enc_host
    /\ calls_of ev
       = relays ++ [time_sleep relay_num;
                    decoder_call (name dec_host) (len hs);
                    encoder_call (name enc_host)]
    /\ coders
       = (mkContainer "encoder", mkContainer "decoder",
          map (fun i => mkContainer ("recoder_on_h" ++ str (i + 1)))
              (range2 rec_st_idx (rec_st_idx + relay_num))).
Proof.
  unfold deploy_coders. intros H. inv_step H.
  repeat match goal with
         | E : Some _ = Some _ |- _ => injection E as E; subst
         end.
  repeat match goal with
         | E1 : py_index ?l ?i = Some ?x, E2 : py_index ?l ?i = Some ?y |- _ =>
             assert (x = y) by congruence; subst y; clear E2
         end.
  match goal with
  | Hloop : for_loop _ _ _ _ _ = _ |- _ =>
      apply deploy_loop_normal in Hloop; destruct Hloop as [Hrel ->]
  end.
  do 4 eexists. split; [reflexivity |]. split; [eassumption |].
  split; [exact Hrel |]. split; [eassumption |]. split; [eassumption |].
  split; [| reflexivity].
  rewrite !calls_of_app. reflexivity.
Qed.

Lemma py_index_some {A : Type} (l : list A) i :
  - len l <= i < len l -> exists x, py_index l i = Some x.
Proof.
  intros H. unfold py_index, len in *.
  destruct (Z.ltb_spec i 0).
  - destruct (Z.ltb_spec i (- Z.of_nat (List.length l))); [lia |].
    destruct (nth_error l (Z.to_nat (Z.of_nat (List.length l) + i))) eqn:E;
      [now eexists |].
    apply nth_error_None in E. lia.
  - destruct (nth_error l (Z.to_nat i)) eqn:E; [now eexists |].
    apply nth_error_None in E. lia.
Qed.

Lemma deploy_coders_goes_through hs relay_num action_map :
  0 <= relay_num -> len action_map = relay_num -> relay_num + 4 <= len hs ->
  goes_through (deploy_coders (Some hs) 2 relay_num action_map).
Proof.
  intros Hn Ham Hhs. unfold deploy_coders, slice, subscript, py_len.
  destruct (py_index_some hs (-2) ltac:(lia)) as [dec_host Ed].
  destruct (py_index_some hs 1 ltac:(lia)) as [enc_host Ee].
  rewrite Ed, Ee. cbn [lift].
  through; try (apply through_sleep; exact Hn).
  apply through_for_loop. intros i recoders Hi. apply range2_In in Hi.
  unfold deploy_recoder, subscript.
  destruct (py_index_some action_map (action_index i)
              ltac:(unfold action_index; lia)) as [action Ea].
  destruct (py_index_some hs i ltac:(lia)) as [host Eh].
  rewrite Ea, Eh. cbn [lift]. through.
Qed.

Lemma relay_launches_only hs action_map l relays :
  Forall2 (relay_launch hs action_map) l relays ->
  filter is_decoder_launch relays = []
  /\ filter is_encoder_launch relays = [].
Proof.
  induction 1 as [| i c t t' (host & action & _ & _ & ->) Ht [IHd IHe]];
    simpl; auto.
Qed.

(** On a backend on which no call raises, the deployment goes through as
    soon as every index it reads is within the list it reads. *)
Lemma deploy_coders_passes hs rec_st_idx relay_num action_map :
  0 <= relay_num -> 2 <= len hs ->
  (forall i, rec_st_idx <= i < rec_st_idx + relay_num ->
             - len hs <= i < len hs
             /\ - len action_map <= i - 2 < len action_map) ->
  goes_through (deploy_coders (Some hs) rec_st_idx relay_num action_map).
Proof.
  intros Hn Hhs Hidx. unfold deploy_coders, slice, subscript, py_len.
  destruct (py_index_some hs (-2) ltac:(lia)) as [dec_host Ed].
  destruct (py_index_some hs 1 ltac:(lia)) as [enc_host Ee].
  rewrite Ed, Ee. cbn [lift].
  through; try (apply through_sleep; exact Hn).
  apply through_for_loop. intros i recoders Hi. apply range2_In in Hi.
  destruct (Hidx i ltac:(lia)) as [Hh Ha].
  unfold deploy_recoder, subscript.
  destruct (py_index_some action_map (action_index i)
              ltac:(unfold action_index; lia)) as [action Ea].
  destruct (py_index_some hs i ltac:(lia)) as [host Eh].
  rewrite Ea, Eh. cbn [lift]. through.
Qed.

(** When the first relay sits past host index 2 and the action map has one
    entry per relay, the deployment never goes through. *)
Lemma deploy_coders_past_two hosts rec_st_idx relay_num action_map bk h :
  2 < rec_st_idx -> 1 <= relay_num -> len action_map = relay_num ->
  exists e ev,
    deploy_coders hosts rec_st_idx relay_num action_map bk h = (Raised e, ev).
Proof.
  intros Hrec Hn Hlen.
  destruct (deploy_coders hosts rec_st_idx relay_num action_map bk h)
    as [[coders | e] ev] eqn:E; [| now exists e, ev].
  exfalso. apply deploy_coders_normal in E.
  destruct E as (hs & relays & _ & _ & _ & _ & Hrel & _).
  destruct (Forall2_In_l _ _ _ (rec_st_idx + relay_num - 1) Hrel)
    as (c & host & action & _ & Ha & _).
  + apply range2_In. lia.
  + rewrite py_index_past in Ha by (unfold action_index; lia). discriminate.
Qed.




Lemma py_index_wraps {A : Type} (l : list A) j :
  0 <= j < len l -> py_index l (j - len l) = py_index l j.
Proof.
  intros H. unfold py_index.
  destruct (Z.ltb_spec (j - len l) 0); [| lia].
  destruct (Z.ltb_spec (j - len l) (- len l)); [lia |].
  destruct (Z.ltb_spec j 0); [lia |]. f_equal. lia.
Qed.

(** What one iteration of the relay loop emits: nothing when one of its two
    reads fails, and else the launch of the relay, with the role read at
    index [i - 2] of the action map. *)
Lemma deploy_recoder_events hosts action_map i recoders bk h :
  snd (deploy_recoder hosts action_map i recoders bk h) = []
  \/ exists hs host action,
       hosts = Some hs /\ py_index hs i = Some host
       /\ py_index action_map (i - 2) = Some action
       /\ snd (deploy_recoder hosts action_map i recoders bk h)
          = [EvCall
               (addContainer ("recoder_on_h" ++ str (i + 1)) (name host)
                  "nc_coder"
                  ("python3 ./recoder.py h" ++ str (i + 1) ++ "-s"
                     ++ str (i + 1) ++ " --action " ++ action) 3)
               (bk h (addContainer ("recoder_on_h" ++ str (i + 1)) (name host)
                        "nc_coder"
                        ("python3 ./recoder.py h" ++ str (i + 1) ++ "-s"
                           ++ str (i + 1) ++ " --action " ++ action) 3))].
Proof.
  unfold deploy_recoder, action_index.
  destruct (py_index action_map (i - 2)) as [action |] eqn:Ea;
    [| left; reflexivity].
  destruct hosts as [hs |]; [| left; reflexivity].
  destruct (py_index hs i) as [host |] eqn:Eh;
    [| left; unfold subscript; rewrite Eh; reflexivity].
  right. exists hs, host, action. repeat (split; [reflexivity || assumption |]).
  unfold subscript. rewrite Eh. cbn [lift].
  rewrite (bind_normal _ _ _ _ _ _ (eq_refl : ret action bk h = (Normal action, []))).
  cbn [snd app].
  rewrite (bind_normal _ _ _ _ _ _
             (eq_refl : ret host bk (h ++ []) = (Normal host, []))).
  cbn [snd app]. rewrite !app_nil_r, bind_call_events. unfold recoder_call.
  f_equal. now destruct (bk h _).
Qed.




(** With the first relay on host index 3, the relays on host indices 3 and
    4 are given the actions of positions 1 and 2 of the action map, and the
    third relay is not launched: reading position 3 raises [IndexError]. *)
Example deploy_from_index_three :
  deploy_coders (Some (hosts_upto 8)) 3 3 ["recode"; "forward"; "forward"]
                ok_backend []
  = (Raised (IndexError "list index out of range"),
     [EvInfo ("*** Run NC recoder(s) in the middle, on hosts h4, h5, h6..."
                ++ nl);
      EvCall (addContainer "recoder_on_h4" "h4" "nc_coder"
                "python3 ./recoder.py h4-s4 --action forward" 3) (Returns "");
      EvCall (addContainer "recoder_on_h5" "h5" "nc_coder"
                "python3 ./recoder.py h5-s5 --action forward" 3) (Returns "")]).
Proof. vm_compute. reflexivity. Qed.

(** ** The traffic driver *)

Lemma redirected_append p s : redirected s -> redirected (p ++ s).
Proof.
  intros [pre ->]. exists (p ++ pre)%string. symmetry. apply append_assoc.
Qed.

Section TrafficDriver.

Variables SYMBOL_SIZE META_DATA_LEN : Z.
Variables h_clt h_srv : Host.
Variable proto : string.
Variable time : Z.

Let para := iperf_client_para SYMBOL_SIZE META_DATA_LEN h_srv proto time.

Lemma para_length : p_length para = str (SYMBOL_SIZE - META_DATA_LEN).
Proof.
  unfold para, iperf_client_para.
  now destruct (String.eqb proto "UDP" || String.eqb proto "udp").
Qed.

Lemma para_proto : p_proto para = "-u".
Proof.
  unfold para, iperf_client_para.
  now destruct (String.eqb proto "UDP" || String.eqb proto "udp").
Qed.

Lemma para_suffix :
  p_suffix para
  = if String.eqb proto "UDP" || String.eqb proto "udp" then ""
    else "> /dev/null 2>&1 &".
Proof.
  unfold para, iperf_client_para.
  now destruct (String.eqb proto "UDP" || String.eqb proto "udp").
Qed.

(** The client command, spelled out. *)
Lemma iperf_clt_cmd_text :
  iperf_clt_cmd para
  = ("iperf -c " ++ IP h_srv ++ " -p 9999 -t " ++ str time
       ++ " -i 1 -b 50K -l " ++ str (SYMBOL_SIZE - META_DATA_LEN)
       ++ " -u " ++ p_suffix para)%string.
Proof.
  unfold iperf_clt_cmd. rewrite para_length, para_proto.
  unfold para, iperf_client_para.
  now destruct (String.eqb proto "UDP" || String.eqb proto "udp").
Qed.

(** The calls of the traffic driver: the receiver, the sender, the read of
    the receiver's log; a call that raises ends the sequence. *)
Lemma run_iperf_test_calls print_clt_log bk h :
  exists k,
    calls_of (snd (run_iperf_test SYMBOL_SIZE META_DATA_LEN h_clt h_srv proto
                                  time print_clt_log bk h))
    = firstn k
        [host_cmd (name h_srv)
           ("iperf -s -p 9999 -i 1 -u > /tmp/iperf_server.log 2>&1 &");
         host_cmd (name h_clt) (iperf_clt_cmd para);
         host_cmd (name h_srv) "cat /tmp/iperf_server.log"].
Proof.
  unfold run_iperf_test. fold para. rewrite para_proto.
  rewrite bind_info_events, bind_call_events. cbn [calls_of].
  destruct (bk _ _) as [o1 | m1]; [| now exists 1%nat].
  rewrite bind_print_events, bind_call_events. cbn [calls_of].
  destruct (bk _ (host_cmd (name h_clt) _)) as [o2 | m2]; [| now exists 2%nat].
  rewrite bind_info_events, bind_call_events. cbn [calls_of].
  exists 3%nat. cbn [firstn]. do 3 f_equal.
  destruct (bk _ _) as [o3 | m3]; [| reflexivity].
  rewrite bind_print_events. now destruct print_clt_log.
Qed.

(** A run of the traffic driver that goes through. *)
Lemma run_iperf_test_normal print_clt_log bk h u ev :
  run_iperf_test SYMBOL_SIZE META_DATA_LEN h_clt h_srv proto time
                 print_clt_log bk h = (Normal u, ev) ->
  exists ev0 report out,
    bk (h ++ ev0) (host_cmd (name h_clt) (iperf_clt_cmd para)) = Returns report
    /\ ev = ev0
            ++ [EvCall (host_cmd (name h_clt) (iperf_clt_cmd para))
                  (Returns report);
                EvInfo ("*** Output of Iperf server:" ++ nl);
                EvCall (host_cmd (name h_srv) "cat /tmp/iperf_server.log")
                  (Returns out);
                EvPrint out]
            ++ (if print_clt_log
                then [EvInfo ("*** Output of Iperf client:" ++ nl);
                      EvPrint report]
                else []).
Proof.
  unfold run_iperf_test. fold para. intros H.
  destruct print_clt_log; inv_step H;
    match goal with
    | |- exists _ _ _, _ /\ [?a] ++ [?b] ++ [?c] ++ _ = _ =>
        exists [a; b; c]
    end;
    eexists _, _;
    (split; [| reflexivity]);
    match goal with
    | Hbk : bk _ (host_cmd (name h_clt) _) = _ |- _ =>
        rewrite <- !app_assoc in Hbk; exact Hbk
    end.
Qed.

(** The traffic driver starts the receiver first; when that command
    raises nothing else is done, and when it returns the driver prints the
    client command and launches the sender with it. *)
Lemma run_iperf_test_sender print_clt_log bk h :
  let started :=
    EvInfo ("Run Iperf test between " ++ name h_clt ++ " (Client) and "
              ++ name h_srv ++ " (Server), protocol: " ++ proto ++ nl) in
  let receiver :=
    host_cmd (name h_srv)
             "iperf -s -p 9999 -i 1 -u > /tmp/iperf_server.log 2>&1 &" in
  (forall msg,
     bk (h ++ [started]) receiver = Throws msg ->
     run_iperf_test SYMBOL_SIZE META_DATA_LEN h_clt h_srv proto time
                    print_clt_log bk h
     = (Raised (BackendError msg), [started; EvCall receiver (Throws msg)]))
  /\ (forall out,
        bk (h ++ [started]) receiver = Returns out ->
        exists rest,
          snd (run_iperf_test SYMBOL_SIZE META_DATA_LEN h_clt h_srv proto time
                              print_clt_log bk h)
          = [started; EvCall receiver (Returns out);
             EvPrint ("Iperf client command: " ++ iperf_clt_cmd para);
             EvCall (host_cmd (name h_clt) (iperf_clt_cmd para))
               (bk (h ++ [started; EvCall receiver (Returns out);
                          EvPrint ("Iperf client command: "
                                     ++ iperf_clt_cmd para)])
                   (host_cmd (name h_clt) (iperf_clt_cmd para)))]
            ++ rest).
Proof.
  intros started receiver. subst started receiver. unfold run_iperf_test.
  fold para. rewrite para_proto.
  change ("iperf -s -p 9999 -i 1 " ++ "-u"
            ++ " > /tmp/iperf_server.log 2>&1 &")%string
    with "iperf -s -p 9999 -i 1 -u > /tmp/iperf_server.log 2>&1 &".
  split.
  - intros msg H. rewrite bind_info_split, bind_call_split, H. reflexivity.
  - intros out H. rewrite bind_info_events, bind_call_events, H.
    rewrite bind_print_events, bind_call_events. rewrite <- !app_assoc.
    cbn [app]. eexists. reflexivity.
Qed.

End TrafficDriver.

(** C8. Whatever the protocol argument, the payload length handed to the
    sender is [SYMBOL_SIZE - META_DATA_LEN]: it is the [length] entry of the
    parameter dict and the [-l] argument of the client command.  The
    traffic driver starts the receiver first; whenever that command returns,
    it launches the sender on the client host with this very command, and
    it sends no other command to the client host.  It leaves without
    launching the sender only when starting the receiver raises. *)
Theorem payload_length SYMBOL_SIZE META_DATA_LEN h_clt h_srv proto time
    print_clt_log bk h :
  let payload := str (SYMBOL_SIZE - META_DATA_LEN) in
  let cmd :=
    ("iperf -c " ++ IP h_srv ++ " -p 9999 -t " ++ str time
       ++ " -i 1 -b 50K -l " ++ payload ++ " -u "
       ++ (if String.eqb proto "UDP" || String.eqb proto "udp" then ""
           else "> /dev/null 2>&1 &"))%string in
  let started :=
    EvInfo ("Run Iperf test between " ++ name h_clt ++ " (Client) and "
              ++ name h_srv ++ " (Server), protocol: " ++ proto ++ nl) in
  let receiver :=
    host_cmd (name h_srv)
             "iperf -s -p 9999 -i 1 -u > /tmp/iperf_server.log 2>&1 &" in
  p_length (iperf_client_para SYMBOL_SIZE META_DATA_LEN h_srv proto time)
  = payload
  /\ iperf_clt_cmd (iperf_client_para SYMBOL_SIZE META_DATA_LEN h_srv proto time)
     = cmd
  /\ (exists k,
        calls_of (snd (run_iperf_test SYMBOL_SIZE META_DATA_LEN h_clt h_srv
                                      proto time print_clt_log bk h))
        = firstn k
            [receiver; host_cmd (name h_clt) cmd;
             host_cmd (name h_srv) "cat /tmp/iperf_server.log"])
  /\ (forall out,
        bk (h ++ [started]) receiver = Returns out ->
        exists rest,
          snd (run_iperf_test SYMBOL_SIZE META_DATA_LEN h_clt h_srv proto time
                              print_clt_log bk h)
          = [started; EvCall receiver (Returns out);
             EvPrint ("Iperf client command: " ++ cmd);
             EvCall (host_cmd (name h_clt) cmd)
               (bk (h ++ [started; EvCall receiver (Returns out);
                          EvPrint ("Iperf client command: " ++ cmd)])
                   (host_cmd (name h_clt) cmd))]
            ++ rest)
  /\ (forall msg,
        bk (h ++ [started]) receiver = Throws msg ->
        run_iperf_test SYMBOL_SIZE META_DATA_LEN h_clt h_srv proto time
                       print_clt_log bk h
        = (Raised (BackendError msg), [started; EvCall receiver (Throws msg)])).
Proof.
  intros payload cmd started receiver.
  split; [apply para_length |].
  assert (E : iperf_clt_cmd
                (iperf_client_para SYMBOL_SIZE META_DATA_LEN h_srv proto time)
              = cmd)
    by (rewrite iperf_clt_cmd_text, para_suffix; reflexivity).
  split; [exact E |]. rewrite <- E.
  split; [apply run_iperf_test_calls |].
  destruct (run_iperf_test_sender SYMBOL_SIZE META_DATA_LEN h_clt h_srv proto
              time print_clt_log bk h) as [Hfail Hsend].
  split; [exact Hsend | exact Hfail].
Qed.

Lemma payload_length_witness :
  exists rest,
    snd (run_iperf_test 100 4 (hop_host 0) (hop_host 6) "TCP" 30 false
                        ok_backend [])
    = [EvInfo ("Run Iperf test between h1 (Client) and h7 (Server), "
                 ++ "protocol: TCP" ++ nl);
       EvCall (host_cmd "h7"
                 "iperf -s -p 9999 -i 1 -u > /tmp/iperf_server.log 2>&1 &")
         (Returns "");
       EvPrint ("Iperf client command: iperf -c 10.0.0.7 -p 9999 -t 30 "
                  ++ "-i 1 -b 50K -l 96 -u > /dev/null 2>&1 &");
       EvCall (host_cmd "h1"
                 ("iperf -c 10.0.0.7 -p 9999 -t 30 -i 1 -b 50K -l 96 -u "
                    ++ "> /dev/null 2>&1 &"))
         (Returns "")]
      ++ rest.
Proof.
  exact (proj1 (proj2 (proj2 (proj2
           (payload_length 100 4 (hop_host 0) (hop_host 6) "TCP" 30 false
                           ok_backend []))))
           "" eq_refl).
Defined.


Lemma honours_redirection_ok : honours_redirection ok_backend.
Proof. intros h host line out _ H. injection H as <-. reflexivity. Qed.


(** * Further properties of the script *)

(** ** Calls a computation never makes *)

Lemma emits_try_finally (P : Event -> Prop) {A : Type} (m : M A) fin :
  emits_only P m -> emits_only P fin -> emits_only P (try_finally m fin).
Proof.
  intros Hm Hf bk h. rewrite try_finally_events. apply Forall_app. split.
  - apply Hm.
  - apply Hf.
Qed.

Lemma count_avoided p ev : Forall (avoids p) ev -> count_calls p ev = 0%nat.
Proof.
  apply count_calls_none. intros c o H. exact H.
Qed.

Ltac avoiding :=
  repeat first
    [ apply emits_bind; [| intros ?]
    | apply emits_call; intros ?; reflexivity
    | apply emits_check_output; intros ?; reflexivity
    | apply emits_info; exact I
    | apply emits_error; exact I
    | apply emits_print; exact I
    | apply emits_ret
    | apply emits_raise
    | apply emits_lift
    | apply emits_subscript
    | apply emits_slice
    | apply emits_py_len
    | apply emits_sleep; intros ?; reflexivity
    | apply emits_for_loop; intros ? ?
    | apply emits_for_each; intros ?
    | apply emits_try_except; [| intros ?]
    | apply emits_try_finally
    | match goal with
      | |- emits_only _ (if ?b then _ else _) => destruct b
      | |- emits_only _ (match ?o with Some _ => _ | None => _ end) =>
          destruct o
      | |- emits_only _ (let '(_, _) := ?x in _) => destruct x
      end ].

(** ** Loops of single calls *)

Lemma for_each_cons {A : Type} (body : A -> M unit) x t bk h :
  for_each (x :: t) body bk h
  = match body x bk h with
    | (Normal _, e1) =>
        let (r, e2) := for_each t body bk (h ++ e1) in (r, e1 ++ e2)
    | (Raised e, e1) => (Raised e, e1)
    end.
Proof.
  unfold for_each. cbn [for_loop]. unfold bind, ret.
  destruct (body x bk h) as [[[] | e] e1]; [| reflexivity].
  cbn [app]. now rewrite !app_nil_r.
Qed.

(** When each iteration attempts one call, the loop attempts the calls of
    a prefix of its list, in order, and all of them when it ends
    normally. *)
Lemma for_each_calls {A : Type} (body : A -> M unit) (c : A -> Call) :
  (forall x bk h, calls_of (snd (body x bk h)) = [c x]) ->
  forall l bk h,
    (exists k, calls_of (snd (for_each l body bk h)) = map c (firstn k l))
    /\ (forall u, fst (for_each l body bk h) = Normal u ->
                  calls_of (snd (for_each l body bk h)) = map c l).
Proof.
  intros Hbody. induction l as [| x t IH]; intros bk h.
  - split; [now exists 0%nat | reflexivity].
  - rewrite for_each_cons. specialize (Hbody x bk h).
    destruct (body x bk h) as [[[] | e] e1]; cbn [snd] in Hbody.
    + destruct (IH bk (h ++ e1)) as [[k Hk] Hall].
      destruct (for_each t body bk (h ++ e1)) as [r e2]. cbn [fst snd] in *.
      rewrite calls_of_app, Hbody. split.
      * exists (S k). cbn [firstn map]. now rewrite Hk.
      * intros u Hu. now rewrite (Hall u Hu).
    + cbn [fst snd]. split; [now exists 1%nat | discriminate].
Qed.

(** Loops whose iterations run alike run alike. *)
Lemma for_each_ext {A : Type} (f g : A -> M unit) l :
  (forall x bk h, f x bk h = g x bk h) ->
  forall bk h, for_each l f bk h = for_each l g bk h.
Proof.
  intros Hfg. induction l as [| x t IH]; intros bk h; [reflexivity |].
  rewrite !for_each_cons, Hfg.
  destruct (g x bk h) as [[[] | e] e1]; [rewrite IH |]; reflexivity.
Qed.

(** A loop of single calls makes the calls in sequence. *)
Lemma for_each_run_calls {A : Type} (c : A -> Call) l bk : forall h,
  for_each l (fun x => call (c x) ;; ret tt) bk h = run_calls bk h (map c l).
Proof.
  induction l as [| x t IH]; intros h; [reflexivity |].
  rewrite for_each_cons, bind_call_split. cbn [map run_calls].
  destruct (bk h (c x)) as [out | msg]; [| reflexivity].
  cbn [ret]. rewrite IH.
  now destruct (run_calls bk (h ++ [EvCall (c x) (Returns out)]) (map c t)).
Qed.

(** What calls made in sequence amount to: a prefix of the calls, in
    order, and all of them, each returned, when the sequence ends normally;
    every outcome recorded is the answer of the backend at that point; a
    call that raised is the last one made and its error is the result; and
    the sequence raises in no other way. *)
Lemma run_calls_law bk cs : forall h,
  (exists k, calls_of (snd (run_calls bk h cs)) = firstn k cs)
  /\ (forall u,
        fst (run_calls bk h cs) = Normal u ->
        calls_of (snd (run_calls bk h cs)) = cs
        /\ Forall returned (snd (run_calls bk h cs)))
  /\ (forall pre c o post,
        snd (run_calls bk h cs) = pre ++ EvCall c o :: post ->
        bk (h ++ pre) c = o
        /\ forall msg,
             o = Throws msg ->
             post = [] /\ fst (run_calls bk h cs) = Raised (BackendError msg))
  /\ (forall e,
        fst (run_calls bk h cs) = Raised e ->
        exists pre c msg,
          snd (run_calls bk h cs) = pre ++ [EvCall c (Throws msg)]
          /\ In c cs /\ e = BackendError msg /\ Forall returned pre).
Proof.
  induction cs as [| c0 t IH]; intros h.
  - cbn [run_calls fst snd]. repeat split.
    + now exists 0%nat.
    + constructor.
    + destruct pre; discriminate H.
    + destruct pre; discriminate H.
    + destruct pre; discriminate H.
    + intros e H. discriminate H.
  - cbn [run_calls]. destruct (bk h c0) as [out | msg0] eqn:E.
    + destruct (IH (h ++ [EvCall c0 (Returns out)]))
        as ([k Hk] & Hall & Hev & Hraise).
      destruct (run_calls bk (h ++ [EvCall c0 (Returns out)]) t) as [r ev].
      cbn [fst snd calls_of] in *. split; [| split; [| split]].
      * exists (S k). cbn [firstn]. now rewrite Hk.
      * intros u Hu. destruct (Hall u Hu) as [-> Hret].
        split; [reflexivity |]. constructor; [exact I | exact Hret].
      * intros pre c o post H. destruct pre as [| e0 pre'].
        -- cbn [app] in H. injection H as <- <- <-. rewrite app_nil_r.
           split; [exact E | intros msg Hm; discriminate Hm].
        -- cbn [app] in H. injection H as <- H.
           specialize (Hev pre' c o post H). rewrite <- app_assoc in Hev.
           exact Hev.
      * intros e Hr. destruct (Hraise e Hr) as (pre & c & msg & -> & Hin & -> & Hpre).
        exists (EvCall c0 (Returns out) :: pre), c, msg.
        split; [reflexivity |]. split; [now right |]. split; [reflexivity |].
        constructor; [exact I | exact Hpre].
    + cbn [fst snd calls_of]. split; [| split; [| split]].
      * now exists 1%nat.
      * intros u Hu. discriminate Hu.
      * intros pre c o post H. destruct pre as [| e0 pre'].
        -- cbn [app] in H. injection H as <- <- <-. rewrite app_nil_r.
           split; [exact E |]. intros msg Hm. injection Hm as <-. auto.
        -- cbn [app] in H. injection H as _ H. destruct pre'; discriminate H.
      * intros e Hr. injection Hr as <-. exists [], c0, msg0.
        split; [reflexivity |]. split; [now left |]. split; [reflexivity |].
        constructor.
Qed.

(** X1. [config_ipv6] writes 1 to the two [disable_ipv6] settings when its
    argument is ["disable"], and 0 for any other argument; it sets [all]
    first, and sets [default] only when the first command returned. *)
Theorem ipv6_switch action bk h :
  let value := if String.eqb action "disable" then 1 else 0 in
  (value = 1 <-> action = "disable")
  /\ (value = 0 <-> action <> "disable")
  /\ snd (config_ipv6 action bk h)
     = EvCall (sysctl_all value) (bk h (sysctl_all value))
       :: match bk h (sysctl_all value) with
          | Returns out =>
              [EvCall (sysctl_default value)
                 (bk (h ++ [EvCall (sysctl_all value) (Returns out)])
                     (sysctl_default value))]
          | Throws _ => []
          end.
Proof.
  intros value. split; [| split].
  - unfold value. destruct (String.eqb_spec action "disable"); split;
      congruence.
  - unfold value. destruct (String.eqb_spec action "disable"); split;
      congruence.
  - rewrite config_ipv6_calls. cbv zeta. fold value. fold (sysctl_all value).
    fold (sysctl_default value). rewrite bind_call_events. f_equal.
    destruct (bk h (sysctl_all value)) as [out | msg]; [| reflexivity].
    rewrite bind_call_events. f_equal.
    match goal with |- match ?x with _ => _ end = _ => now destruct x end.
Qed.

(** A trace without flush or install command leaves every flow table as
    it was. *)
Lemma flow_untouched sw ev :
  Forall (avoids is_flow_write) ev ->
  forall h,
    flow_cmds sw ev = [] /\ flow_table sw (h ++ ev) = flow_table sw h.
Proof.
  intros H h. rewrite flow_table_app. generalize (flow_table sw h) as tbl.
  induction H as [| e t He Ht IH]; intros tbl; [now split |].
  destruct e as [[[] | | | | | | | | | | | | | | |] o | s | s | s];
    try discriminate He; destruct (IH tbl) as [IH1 IH2];
    cbn [flow_cmds fold_left flow_step]; try (destruct o); auto.
Qed.

(** X2. [dump_ovs_flows] is read-only and covers every switch: whatever
    the backend does, it sends no flush and no install command, so every
    flow table stays as it was; the calls it makes are the dumps of a prefix
    of the switches [s1 .. s{switch_num}], in order, and of all of them,
    the last switch included, when it ends normally. *)
Theorem dump_is_read_only switch_num bk h :
  (forall sw,
     flow_cmds sw (snd (dump_ovs_flows switch_num bk h)) = []
     /\ flow_table sw (h ++ snd (dump_ovs_flows switch_num bk h))
        = flow_table sw h)
  /\ (exists k,
        calls_of (snd (dump_ovs_flows switch_num bk h))
        = map dump_call (firstn k (range switch_num)))
  /\ (forall u,
        fst (dump_ovs_flows switch_num bk h) = Normal u ->
        calls_of (snd (dump_ovs_flows switch_num bk h))
        = map dump_call (range switch_num)).
Proof.
  split; [| split].
  - intros sw. apply flow_untouched.
    enough (E : emits_only (avoids is_flow_write) (dump_ovs_flows switch_num))
      by apply E.
    unfold dump_ovs_flows. avoiding.
  - unfold dump_ovs_flows. apply (for_each_calls _ dump_call).
    intros i bk' h'. rewrite check_output_call by splitting.
    rewrite bind_call_events. unfold dump_call.
    cbn [calls_of]. f_equal. now destruct (bk' h' _).
  - unfold dump_ovs_flows. apply (for_each_calls _ dump_call).
    intros i bk' h'. rewrite check_output_call by splitting.
    rewrite bind_call_events. unfold dump_call.
    cbn [calls_of]. f_equal. now destruct (bk' h' _).
Qed.

Lemma dump_is_read_only_witness :
  fst (dump_ovs_flows 5 ok_backend []) = Normal tt
  /\ calls_of (snd (dump_ovs_flows 5 ok_backend []))
     = map dump_call [0; 1; 2; 3; 4].
Proof.
  split; [reflexivity |].
  apply (proj2 (proj2 (dump_is_read_only 5 ok_backend [])) tt). reflexivity.
Defined.

Lemma disable_cksum_offload_run_calls switch_num bk h :
  disable_cksum_offload switch_num bk h
  = run_calls bk h (map cksum_call (range switch_num)).
Proof.
  unfold disable_cksum_offload. rewrite <- for_each_run_calls.
  apply for_each_ext. intros i bk' h'. cbv zeta.
  now rewrite check_output_call by splitting.
Qed.

(** X3. [disable_cksum_offload] turns checksum offloading off on the
    host-facing interface [s{i+1}-h{i+1}] of the switches, one command after
    the other, in order, and makes no other call.  It stops at the first
    command that fails: each command is run once the one before has
    returned, a command that raises is the last one run and its error
    leaves the function, and nothing else makes it raise.  When it ends
    normally all [switch_num] commands have been run and have returned. *)
Theorem cksum_offload_calls switch_num bk h :
  disable_cksum_offload switch_num bk h
  = run_calls bk h (map cksum_call (range switch_num))
  /\ (exists k,
        calls_of (snd (disable_cksum_offload switch_num bk h))
        = map cksum_call (firstn k (range switch_num)))
  /\ (forall u,
        fst (disable_cksum_offload switch_num bk h) = Normal u ->
        calls_of (snd (disable_cksum_offload switch_num bk h))
        = map cksum_call (range switch_num)
        /\ Forall returned (snd (disable_cksum_offload switch_num bk h))
        /\ (0 <= switch_num ->
            len (calls_of (snd (disable_cksum_offload switch_num bk h)))
            = switch_num))
  /\ (forall pre c o post,
        snd (disable_cksum_offload switch_num bk h)
        = pre ++ EvCall c o :: post ->
        bk (h ++ pre) c = o
        /\ forall msg,
             o = Throws msg ->
             post = []
             /\ fst (disable_cksum_offload switch_num bk h)
                = Raised (BackendError msg))
  /\ (forall e,
        fst (disable_cksum_offload switch_num bk h) = Raised e ->
        exists pre c msg,
          snd (disable_cksum_offload switch_num bk h)
          = pre ++ [EvCall c (Throws msg)]
          /\ e = BackendError msg /\ Forall returned pre).
Proof.
  rewrite disable_cksum_offload_run_calls.
  destruct (run_calls_law bk (map cksum_call (range switch_num)) h)
    as ([k Hk] & Hall & Hev & Hraise).
  split; [reflexivity |]. split; [| split; [| split]].
  - exists k. rewrite Hk. apply firstn_map.
  - intros u Hu. destruct (Hall u Hu) as [Hcalls Hret].
    split; [exact Hcalls |]. split; [exact Hret |].
    intros Hn. rewrite Hcalls. unfold len. rewrite length_map.
    now apply range_length.
  - exact Hev.
  - intros e He. destruct (Hraise e He) as (pre & c & msg & E & _ & Hmsg & Hpre).
    now exists pre, c, msg.
Qed.

Lemma cksum_offload_calls_witness :
  (fst (disable_cksum_offload 5 ok_backend []) = Normal tt
   /\ calls_of (snd (disable_cksum_offload 5 ok_backend []))
      = map cksum_call [0; 1; 2; 3; 4]
   /\ len (calls_of (snd (disable_cksum_offload 5 ok_backend []))) = 5)
  /\ (fst (disable_cksum_offload 5 s3_offload_fails [])
      = Raised (BackendError "no such device")
      /\ exists pre c msg,
           snd (disable_cksum_offload 5 s3_offload_fails [])
           = pre ++ [EvCall c (Throws msg)]
           /\ BackendError "no such device" = BackendError msg
           /\ Forall returned pre).
Proof.
  split.
  - split; [reflexivity |].
    destruct (proj1 (proj2 (proj2 (cksum_offload_calls 5 ok_backend []))) tt
                eq_refl) as (Hcalls & _ & Hlen).
    split; [exact Hcalls | apply Hlen; lia].
  - split; [reflexivity |].
    exact (proj2 (proj2 (proj2 (proj2
             (cksum_offload_calls 5 s3_offload_fails []))))
             (BackendError "no such device") eq_refl).
Defined.

(** ** Removing the coders *)

Lemma remove_coders_calls coders bk h :
  (exists k,
     calls_of (snd (remove_coders coders bk h))
     = map removeContainer (firstn k (coder_names coders)))
  /\ (forall u,
        fst (remove_coders coders bk h) = Normal u ->
        calls_of (snd (remove_coders coders bk h))
        = map removeContainer (coder_names coders)).
Proof.
  destruct coders as [[encoder decoder] recoders].
  unfold remove_coders, coder_names.
  assert (Hbody : forall r bk' h',
             calls_of (snd ((call (removeContainer (container_name r)) ;;
                             ret tt) bk' h'))
             = [removeContainer (container_name r)]).
  { intros r bk' h'. rewrite bind_call_events. cbn [calls_of]. f_equal.
    now destruct (bk' h' _). }
  pose proof (for_each_calls
                (fun r => call (removeContainer (container_name r)) ;; ret tt)
                (fun r => removeContainer (container_name r)) Hbody recoders)
    as Hloop.
  rewrite bind_call_split.
  destruct (bk h (removeContainer (container_name encoder))) as [o1 | m1];
    [| split; [now exists 1%nat | intros u Hu; discriminate Hu]].
  rewrite bind_call_split.
  destruct (bk _ (removeContainer (container_name decoder))) as [o2 | m2];
    [| split; [now exists 2%nat | intros u Hu; discriminate Hu]].
  match goal with
  | |- context [for_each recoders ?b bk ?h'] =>
      destruct (Hloop bk h') as [[k Hk] Hall];
      destruct (for_each recoders b bk h') as [r e2]
  end.
  cbn [fst snd app calls_of] in *. split.
  - exists (S (S k)). cbn [firstn map].
    rewrite Hk, <- (map_map container_name removeContainer). do 3 f_equal.
    first [apply firstn_map | symmetry; apply firstn_map].
  - intros u Hu. cbn [map]. rewrite (Hall u Hu), map_map. reflexivity.
Qed.

Lemma remove_coders_run_calls coders bk h :
  remove_coders coders bk h
  = run_calls bk h (map removeContainer (coder_names coders)).
Proof.
  destruct coders as [[encoder decoder] recoders].
  unfold remove_coders, coder_names. cbn [map run_calls].
  rewrite bind_call_split.
  destruct (bk h (removeContainer (container_name encoder))) as [o1 | m1];
    [| reflexivity].
  rewrite bind_call_split.
  destruct (bk _ (removeContainer (container_name decoder))) as [o2 | m2];
    [| reflexivity].
  rewrite (for_each_run_calls (fun r => removeContainer (container_name r))),
    map_map.
  now destruct (run_calls bk _ _).
Qed.

(** X4. [remove_coders] asks for the removal of the encoder first, then
    of the decoder, then of the relays in the order they were launched, and
    makes no other call.  It stops at the first removal that fails: each
    removal is asked for once the one before has returned, a removal that
    raises is the last one asked for and its error leaves the function, and
    nothing else makes it raise.  When it ends normally every removal has
    been asked for and has returned. *)
Theorem remove_order coders bk h :
  remove_coders coders bk h
  = run_calls bk h (map removeContainer (coder_names coders))
  /\ (exists k,
        calls_of (snd (remove_coders coders bk h))
        = map removeContainer (firstn k (coder_names coders)))
  /\ (forall u,
        fst (remove_coders coders bk h) = Normal u ->
        calls_of (snd (remove_coders coders bk h))
        = map removeContainer (coder_names coders)
        /\ Forall returned (snd (remove_coders coders bk h)))
  /\ (forall pre c o post,
        snd (remove_coders coders bk h) = pre ++ EvCall c o :: post ->
        bk (h ++ pre) c = o
        /\ forall msg,
             o = Throws msg ->
             post = []
             /\ fst (remove_coders coders bk h) = Raised (BackendError msg))
  /\ (forall e,
        fst (remove_coders coders bk h) = Raised e ->
        exists pre c msg,
          snd (remove_coders coders bk h) = pre ++ [EvCall c (Throws msg)]
          /\ e = BackendError msg /\ Forall returned pre).
Proof.
  rewrite remove_coders_run_calls.
  destruct (run_calls_law bk (map removeContainer (coder_names coders)) h)
    as ([k Hk] & Hall & Hev & Hraise).
  split; [reflexivity |]. split; [| split; [| split]].
  - exists k. rewrite Hk. apply firstn_map.
  - exact Hall.
  - exact Hev.
  - intros e He. destruct (Hraise e He) as (pre & c & msg & E & _ & Hmsg & Hpre).
    now exists pre, c, msg.
Qed.

Lemma remove_order_witness :
  let coders :=
    (mkContainer "encoder", mkContainer "decoder",
     [mkContainer "recoder_2"; mkContainer "recoder_3"]) in
  (fst (remove_coders coders ok_backend []) = Normal tt
   /\ calls_of (snd (remove_coders coders ok_backend []))
      = map removeContainer ["encoder"; "decoder"; "recoder_2"; "recoder_3"])
  /\ (remove_coders coders decoder_stays []
      = (Raised (BackendError "cannot remove decoder"),
         [EvCall (removeContainer "encoder") (Returns "");
          EvCall (removeContainer "decoder") (Throws "cannot remove decoder")])
      /\ exists pre c msg,
           snd (remove_coders coders decoder_stays [])
           = pre ++ [EvCall c (Throws msg)]
           /\ BackendError "cannot remove decoder" = BackendError msg
           /\ Forall returned pre).
Proof.
  intros coders. split.
  - split; [reflexivity |].
    exact (proj1 (proj1 (proj2 (proj2 (remove_order coders ok_backend []))) tt
                   eq_refl)).
  - split; [reflexivity |].
    exact (proj2 (proj2 (proj2 (proj2 (remove_order coders decoder_stays []))))
             (BackendError "cannot remove decoder") eq_refl).
Defined.


(** ** The containers of a variant *)

Section Clean.

Lemma clean_ret {A : Type} (a : A) : clean (ret a).
Proof. intros bk h b ev H. apply ret_normal_inv in H. now destruct H as [_ ->]. Qed.

Lemma clean_raise {A : Type} e : clean (@raise A e).
Proof. intros bk h b ev H. discriminate H. Qed.

Lemma clean_lift {A : Type} (o : option A) e : clean (lift o e).
Proof. destruct o; [apply clean_ret | apply clean_raise]. Qed.

Lemma clean_subscript {A : Type} (l : option (list A)) i :
  clean (subscript l i).
Proof. destruct l; [apply clean_lift | apply clean_raise]. Qed.

Lemma clean_slice {A : Type} (l : option (list A)) a b : clean (slice l a b).
Proof. destruct l; [apply clean_ret | apply clean_raise]. Qed.

Lemma clean_py_len {A : Type} (l : option (list A)) : clean (py_len l).
Proof. destruct l; [apply clean_ret | apply clean_raise]. Qed.

Lemma clean_call c : clean (call c).
Proof.
  intros bk h out ev H. apply call_normal_inv in H. destruct H as [_ ->].
  repeat constructor.
Qed.

Lemma clean_info s : clean (info s).
Proof.
  intros bk h u ev H. apply info_normal_inv in H. subst. repeat constructor.
Qed.

Lemma clean_print s : clean (print s).
Proof.
  intros bk h u ev H. apply print_normal_inv in H. subst. repeat constructor.
Qed.

Lemma clean_bind {A B : Type} (m : M A) (f : A -> M B) :
  clean m -> (forall a, clean (f a)) -> clean (bind m f).
Proof.
  intros Hm Hf bk h b ev H. apply bind_normal_inv in H.
  destruct H as (a & e1 & e2 & H1 & H2 & ->). apply Forall_app. split.
  - exact (Hm _ _ _ _ H1).
  - exact (Hf _ _ _ _ _ H2).
Qed.

Lemma clean_for_loop {A S : Type} (l : list A) body :
  (forall x (s : S), clean (body x s)) -> forall s, clean (for_loop l s body).
Proof.
  intros Hbody. induction l as [| x t IH]; intros s; [apply clean_ret |].
  rewrite for_loop_cons. apply clean_bind; [apply Hbody |].
  intros [[|] s1]; [apply IH | apply clean_ret].
Qed.

Lemma clean_for_each {A : Type} (l : list A) body :
  (forall x, clean (body x)) -> clean (for_each l body).
Proof.
  intros H. apply clean_for_loop. intros x _.
  apply clean_bind; [apply H | intros; apply clean_ret].
Qed.

Lemma clean_sleep secs : clean (sleep secs).
Proof.
  unfold sleep. destruct (secs <? 0); [apply clean_raise |].
  apply clean_bind; [apply clean_call | intros; apply clean_ret].
Qed.

Lemma clean_check_output c : clean (check_output c).
Proof.
  unfold check_output.
  destruct (shlex_split (cmdline c)); [apply clean_call | apply clean_raise].
Qed.

End Clean.

Ltac cleaning :=
  repeat first
    [ apply clean_bind; [| intros ?]
    | apply clean_call
    | apply clean_check_output
    | apply clean_info
    | apply clean_print
    | apply clean_ret
    | apply clean_raise
    | apply clean_lift
    | apply clean_subscript
    | apply clean_slice
    | apply clean_py_len
    | apply clean_sleep
    | apply clean_for_loop; intros ? ?
    | apply clean_for_each; intros ? ].

Lemma deploy_coders_clean hosts rec_st_idx relay_num action_map :
  clean (deploy_coders hosts rec_st_idx relay_num action_map).
Proof. unfold deploy_coders, deploy_recoder. cleaning. Qed.

Lemma remove_coders_clean coders : clean (remove_coders coders).
Proof.
  destruct coders as [[encoder decoder] recoders]. unfold remove_coders.
  cleaning.
Qed.

Lemma running_app h ev :
  running (h ++ ev) = fold_left running_step ev (running h).
Proof. unfold running. apply fold_left_app. Qed.

(** When no call raised, the containers follow from the calls alone. *)
Lemma running_of_calls ev :
  Forall returned ev ->
  forall rs,
    fold_left running_step ev rs = fold_left running_call (calls_of ev) rs.
Proof.
  induction 1 as [| e t He Ht IH]; intros rs; [reflexivity |].
  destruct e as [c [out | msg] | s | s | s]; cbn [fold_left calls_of];
    try apply IH. destruct He.
Qed.

(** A trace that launches and removes nothing leaves the containers as
    they were. *)
Lemma running_untouched ev :
  Forall (avoids is_container_change) ev ->
  forall rs, fold_left running_step ev rs = rs.
Proof.
  induction 1 as [| e t He Ht IH]; intros rs; [reflexivity |].
  cbn [fold_left]. rewrite <- (IH rs) at 2. f_equal.
  destruct e as [c [out | msg] | s | s | s]; try reflexivity.
  destruct c; try reflexivity; discriminate He.
Qed.

Lemma running_relays hs action_map l relays :
  Forall2 (relay_launch hs action_map) l relays ->
  forall rs, fold_left running_call relays rs = rs ++ map recoder_name l.
Proof.
  induction 1 as [| i c t t' (host & action & _ & _ & ->) Ht IH]; intros rs.
  - now rewrite app_nil_r.
  - cbn [fold_left map]. rewrite IH. unfold recoder_call at 1.
    cbn [running_call]. now rewrite <- app_assoc.
Qed.

Lemma filter_twice {A : Type} (f g : A -> bool) l :
  filter f (filter g l) = filter (fun x => g x && f x) l.
Proof.
  induction l as [| x t IH]; [reflexivity |]. cbn [filter].
  destruct (g x); cbn [filter andb]; [| exact IH].
  destruct (f x); now rewrite IH.
Qed.

Lemma running_removals names : forall rs,
  fold_left running_call (map removeContainer names) rs
  = filter (kept names) rs.
Proof.
  induction names as [| n t IH]; intros rs.
  - cbn [map fold_left]. unfold kept. cbn [existsb negb].
    induction rs as [| x r IHr]; [reflexivity |]. cbn [filter]. now f_equal.
  - cbn [map fold_left running_call]. rewrite IH. unfold drop.
    rewrite filter_twice. apply filter_ext. intros x. unfold kept.
    cbn [existsb]. now rewrite negb_orb.
Qed.

Lemma kept_in names x : In x names -> kept names x = false.
Proof.
  intros H. unfold kept. apply negb_false_iff. apply existsb_exists.
  exists x. split; [exact H | apply String.eqb_refl].
Qed.

Lemma deploy_remove_running hosts rec_st_idx relay_num action_map bk h
    coders ev1 mid u ev2 :
  deploy_coders hosts rec_st_idx relay_num action_map bk h
  = (Normal coders, ev1) ->
  Forall (avoids is_container_change) mid ->
  remove_coders coders bk ((h ++ ev1) ++ mid) = (Normal u, ev2) ->
  running (h ++ ev1)
  = running h
      ++ map recoder_name (range2 rec_st_idx (rec_st_idx + relay_num))
      ++ ["decoder"; "encoder"]
  /\ running (((h ++ ev1) ++ mid) ++ ev2)
     = filter (kept (coder_names coders)) (running h)
  /\ (running h = [] -> running (((h ++ ev1) ++ mid) ++ ev2) = []).
Proof.
  intros Hdeploy Hmid Hremove.
  pose proof (deploy_coders_clean _ _ _ _ _ _ _ _ Hdeploy) as Hclean1.
  pose proof (remove_coders_clean _ _ _ _ _ Hremove) as Hclean2.
  apply deploy_coders_normal in Hdeploy.
  destruct Hdeploy as (hs & relays & dec_host & enc_host & -> & _ & Hrel & _
                       & _ & Hcalls & ->).
  assert (Hrun : running (h ++ ev1)
                 = running h
                     ++ map recoder_name
                            (range2 rec_st_idx (rec_st_idx + relay_num))
                     ++ ["decoder"; "encoder"]).
  { rewrite running_app, (running_of_calls _ Hclean1), Hcalls, fold_left_app.
    rewrite (running_relays _ _ _ _ Hrel). cbn [fold_left].
    unfold decoder_call, encoder_call. cbn [running_call].
    now rewrite <- !app_assoc. }
  split; [exact Hrun |].
  assert (Hnames : coder_names
                     (mkContainer "encoder", mkContainer "decoder",
                      map (fun i => mkContainer ("recoder_on_h" ++ str (i + 1)))
                          (range2 rec_st_idx (rec_st_idx + relay_num)))
                   = "encoder" :: "decoder"
                       :: map recoder_name
                              (range2 rec_st_idx (rec_st_idx + relay_num))).
  { cbn [coder_names container_name]. now rewrite map_map. }
  assert (Hend : running (((h ++ ev1) ++ mid) ++ ev2)
                 = filter (kept (coder_names
                     (mkContainer "encoder", mkContainer "decoder",
                      map (fun i => mkContainer ("recoder_on_h" ++ str (i + 1)))
                          (range2 rec_st_idx (rec_st_idx + relay_num)))))
                          (running h)).
  { rewrite running_app, (running_of_calls _ Hclean2).
    destruct (remove_coders_calls
                (mkContainer "encoder", mkContainer "decoder",
                 map (fun i => mkContainer ("recoder_on_h" ++ str (i + 1)))
                     (range2 rec_st_idx (rec_st_idx + relay_num)))
                bk ((h ++ ev1) ++ mid)) as [_ Hall].
    rewrite Hremove in Hall. cbn [fst snd] in Hall.
    rewrite (Hall u eq_refl), running_removals.
    rewrite running_app, (running_untouched _ Hmid), Hrun, Hnames.
    rewrite filter_app.
    rewrite (filter_none (kept _) (map recoder_name _ ++ _)).
    - now rewrite app_nil_r.
    - apply Forall_forall. intros x Hx. apply kept_in.
      apply in_app_or in Hx. destruct Hx as [Hx | [<- | [<- | []]]].
      + now do 2 right.
      + right. now left.
      + now left. }
  split; [exact Hend |]. intros Hnone. rewrite Hend, Hnone. reflexivity.
Qed.

(** X5. Deploying and then removing releases every container.  After a
    deployment that goes through, the manager holds, on top of what it held,
    one container per relay of [rec_st_idx, rec_st_idx + relay_num), then the
    decoder and the encoder.  After any steps that launch and remove
    nothing, a [remove_coders] that goes through leaves exactly the
    containers held before that do not bear one of these names: none, when
    nothing was held before. *)
Theorem containers_released hosts rec_st_idx relay_num action_map bk h
    coders ev1 mid u ev2 :
  deploy_coders hosts rec_st_idx relay_num action_map bk h
  = (Normal coders, ev1) ->
  Forall (avoids is_container_change) mid ->
  remove_coders coders bk ((h ++ ev1) ++ mid) = (Normal u, ev2) ->
  running (h ++ ev1)
  = running h
      ++ map recoder_name (range2 rec_st_idx (rec_st_idx + relay_num))
      ++ ["decoder"; "encoder"]
  /\ running (((h ++ ev1) ++ mid) ++ ev2)
     = filter (kept (coder_names coders)) (running h)
  /\ (running h = [] -> running (((h ++ ev1) ++ mid) ++ ev2) = []).
Proof. apply deploy_remove_running. Qed.

Lemma containers_released_witness :
  running (snd (deploy_coders (Some (hosts_upto 7)) 2 3
                  ["recode"; "forward"; "forward"] ok_backend []))
  = ["recoder_on_h3"; "recoder_on_h4"; "recoder_on_h5"; "decoder"; "encoder"]
  /\ running
       ((snd (deploy_coders (Some (hosts_upto 7)) 2 3
                ["recode"; "forward"; "forward"] ok_backend [])
           ++ [EvCall (time_sleep 3) (Returns "")])
          ++ snd (remove_coders
                    (mkContainer "encoder", mkContainer "decoder",
                     [mkContainer "recoder_on_h3"; mkContainer "recoder_on_h4";
                      mkContainer "recoder_on_h5"])
                    ok_backend
                    (snd (deploy_coders (Some (hosts_upto 7)) 2 3
                            ["recode"; "forward"; "forward"] ok_backend [])
                       ++ [EvCall (time_sleep 3) (Returns "")])))
     = [].
Proof.
  destruct (containers_released (Some (hosts_upto 7)) 2 3
              ["recode"; "forward"; "forward"] ok_backend []
              (mkContainer "encoder", mkContainer "decoder",
               [mkContainer "recoder_on_h3"; mkContainer "recoder_on_h4";
                mkContainer "recoder_on_h5"])
              _ [EvCall (time_sleep 3) (Returns "")] tt _
              eq_refl
              (Forall_cons _ (eq_refl : avoids is_container_change
                                          (EvCall (time_sleep 3) (Returns "")))
                           (Forall_nil _))
              eq_refl)
    as (Hrun & _ & Hnone).
  split; [exact Hrun | exact (Hnone eq_refl)].
Defined.

(** ** The contents of the flow rules *)

Lemma add_ovs_flows_body_rules port i bk h u ev :
  reports bk port ->
  add_ovs_flows_body i bk h = (Normal u, ev) ->
  forall sw tbl,
    fold_left (flow_step sw) ev tbl
    = (if i + 1 =? sw then chain_rules port i else tbl).
Proof.
  intros Hrep H sw tbl. unfold add_ovs_flows_body, chain_rules in *.
  destruct (i =? 0); inv_step H;
    repeat match goal with
           | Hb : bk _ (CheckOutput (OvsVsctlGetOfport _)) = Returns _ |- _ =>
               apply Hrep in Hb; subst
           end;
    simpl; destruct (i + 1 =? sw); reflexivity.
Qed.

Lemma add_ovs_flows_loop_rules port l : NoDup l -> forall bk h u ev,
  reports bk port ->
  for_each l add_ovs_flows_body bk h = (Normal u, ev) ->
  forall sw tbl,
    In (sw - 1) l ->
    fold_left (flow_step sw) ev tbl = chain_rules port (sw - 1).
Proof.
  induction 1 as [| i t Hi Ht IH]; intros bk h u ev Hrep H sw tbl Hin;
    [destruct Hin |].
  apply for_each_cons_inv in H. destruct H as (e1 & e2 & Hbody & Hrest & ->).
  rewrite fold_left_app, (add_ovs_flows_body_rules port _ _ _ _ _ Hrep Hbody).
  destruct (Z.eqb_spec (i + 1) sw) as [E | E].
  - assert (Ei : sw - 1 = i) by lia. rewrite Ei in *.
    destruct (add_ovs_flows_loop t Ht _ _ _ _ Hrest sw) as [_ Hout].
    rewrite Ei in Hout. destruct (Hout Hi) as [_ Hsame]. apply Hsame.
  - destruct Hin as [Hin | Hin]; [lia |].
    exact (IH _ _ _ _ Hrep Hrest sw tbl Hin).
Qed.

(** X6. On a backend whose [ovs-vsctl] answers are given by a port map, an
    installation that goes through leaves on the switch at index [i < 
    switch_num - 1] exactly the rules of the chain, in this order: UDP from
    the port of its host to the port of the next switch and, past the first
    switch, UDP from the port of the previous switch to the port of its
    host.  Whatever the table held before is gone. *)
Theorem chain_rules_installed port bk h switch_num ev :
  reports bk port ->
  add_ovs_flows switch_num bk h = (Normal tt, ev) ->
  forall i, 0 <= i < switch_num - 1 ->
    flow_table (i + 1) (h ++ ev) = chain_rules port i.
Proof.
  intros Hrep H i Hi. rewrite flow_table_app. unfold add_ovs_flows in H.
  rewrite (add_ovs_flows_loop_rules port _ (range_NoDup _) _ _ _ _ Hrep H);
    replace (i + 1 - 1) with i by lia; [reflexivity |].
  apply range_In. lia.
Qed.

Lemma reports_ok : reports ok_backend (fun ifce => ifce).
Proof. intros h ifce out H. injection H as <-. reflexivity. Qed.

Lemma chain_rules_installed_witness :
  flow_table 1 (snd (add_ovs_flows 5 ok_backend []))
  = [("udp", "s1-h1", "s1-s2")]
  /\ flow_table 3 (snd (add_ovs_flows 5 ok_backend []))
     = [("udp", "s3-h3", "s3-s4"); ("udp", "s3-s2", "s3-h3")].
Proof.
  pose proof (chain_rules_installed (fun ifce => ifce) ok_backend [] 5
                (snd (add_ovs_flows 5 ok_backend [])) reports_ok eq_refl)
    as H.
  split; [exact (H 0 ltac:(lia)) | exact (H 2 ltac:(lia))].
Defined.

(** ** Deployments that fail *)

Lemma build_action_map_silent ALL_FOWARD relay_num i bk h :
  snd (build_action_map ALL_FOWARD relay_num i bk h) = [].
Proof.
  unfold build_action_map. destruct (negb ALL_FOWARD); [| reflexivity].
  now destruct (py_setitem _ _ _).
Qed.

Lemma deploy_coders_never_removes hosts rec_st_idx relay_num action_map :
  emits_only (avoids is_removal)
             (deploy_coders hosts rec_st_idx relay_num action_map).
Proof. unfold deploy_coders, deploy_recoder. avoiding. Qed.

(** X10. A deployment that fails is not rolled back.  [deploy_coders]
    never removes a container, and when it raises inside a variant the
    variant leaves at once with the same exception: after the log line of
    its action map it has emitted the events of the deployment and nothing
    else, so [remove_coders] is not run and the containers already started
    stay with the manager. *)
Theorem failed_deployment_not_rolled_back SYMBOL_SIZE META_DATA_LEN ALL_FOWARD
    hosts rec_st_idx relay_num coder_log_conf i u bk h action_map e ev :
  build_action_map ALL_FOWARD relay_num i bk h = (Normal action_map, []) ->
  deploy_coders hosts rec_st_idx relay_num action_map bk
                (h ++ [variant_log relay_num action_map]) = (Raised e, ev) ->
  variant SYMBOL_SIZE META_DATA_LEN ALL_FOWARD hosts rec_st_idx relay_num
          coder_log_conf i u bk h
  = (Raised e, variant_log relay_num action_map :: ev)
  /\ count_calls is_removal (variant_log relay_num action_map :: ev) = 0%nat
  /\ running (h ++ variant_log relay_num action_map :: ev)
     = fold_left running_step ev (running h).
Proof.
  intros Hmap Hdeploy. split; [| split].
  - unfold variant. rewrite (bind_normal _ _ _ _ _ _ Hmap). cbn [app].
    rewrite app_nil_r. fold (variant_log relay_num action_map).
    rewrite bind_info_split. unfold variant_log in Hdeploy.
    rewrite (bind_raised _ _ _ _ _ _ Hdeploy). reflexivity.
  - apply count_avoided. constructor; [exact I |].
    pose proof (deploy_coders_never_removes hosts rec_st_idx relay_num
                  action_map bk (h ++ [variant_log relay_num action_map]))
      as H.
    rewrite Hdeploy in H. exact H.
  - rewrite running_app. reflexivity.
Qed.

Lemma failed_deployment_not_rolled_back_witness :
  fst (variant 1 0 false (Some (hosts_upto 7)) 2 3 no_logs 0 tt
               decoder_fails [])
  = Raised (BackendError "cannot start decoder")
  /\ count_calls is_removal
       (snd (variant 1 0 false (Some (hosts_upto 7)) 2 3 no_logs 0 tt
                     decoder_fails [])) = 0%nat
  /\ running (snd (variant 1 0 false (Some (hosts_upto 7)) 2 3 no_logs 0 tt
                           decoder_fails []))
     = ["recoder_on_h3"; "recoder_on_h4"; "recoder_on_h5"].
Proof.
  destruct (failed_deployment_not_rolled_back 1 0 false
              (Some (hosts_upto 7)) 2 3 no_logs 0 tt decoder_fails []
              ["recode"; "forward"; "forward"]
              (BackendError "cannot start decoder")
              (snd (deploy_coders (Some (hosts_upto 7)) 2 3
                      ["recode"; "forward"; "forward"] decoder_fails
                      [variant_log 3 ["recode"; "forward"; "forward"]]))
              eq_refl eq_refl)
    as (Hvariant & Hcount & Hrun).
  rewrite Hvariant. split; [reflexivity |]. split; [exact Hcount |].
  cbn [snd]. vm_compute. reflexivity.
Defined.

(** X12. With a negative relay count and a host list, [deploy_coders]
    launches nothing: it logs its first line, starts no relay, and leaves
    with the [ValueError] of [time.sleep] before the decoder and the
    encoder are started. *)
Theorem negative_relay_count hs rec_st_idx relay_num action_map bk h :
  relay_num < 0 ->
  exists line,
    deploy_coders (Some hs) rec_st_idx relay_num action_map bk h
    = (Raised (ValueError "sleep length must be non-negative"),
       [EvInfo line]).
Proof.
  intros Hn. unfold deploy_coders, slice, range2.
  replace (Z.to_nat (rec_st_idx + relay_num - rec_st_idx)) with 0%nat by lia.
  cbn [seq map for_loop]. unfold sleep.
  destruct (Z.ltb_spec relay_num 0); [| lia].
  eexists. reflexivity.
Qed.

Lemma negative_relay_count_witness :
  exists line,
    deploy_coders (Some (hosts_upto 7)) 2 (-1) [] ok_backend []
    = (Raised (ValueError "sleep length must be non-negative"),
       [EvInfo line]).
Proof.
  apply (negative_relay_count (hosts_upto 7) 2 (-1) [] ok_backend []). lia.
Defined.

(** * The run from setup to cleanup *)

(** ** Where a computation raises *)

Section Fails.

Variable p : Call -> bool.

Lemma fails_never {A : Type} (m : M A) :
  (forall bk h, exists a, fst (m bk h) = Normal a) -> fails_at p m.
Proof.
  intros Hm bk h e ev H. destruct (Hm bk h) as [a Ha]. rewrite H in Ha.
  discriminate Ha.
Qed.

Lemma fails_ret {A : Type} (a : A) : fails_at p (ret a).
Proof. apply fails_never. intros; now exists a. Qed.

Lemma fails_info s : fails_at p (info s).
Proof. apply fails_never. intros; now exists tt. Qed.

Lemma fails_error s : fails_at p (error s).
Proof. apply fails_never. intros; now exists tt. Qed.

Lemma fails_print s : fails_at p (print s).
Proof. apply fails_never. intros; now exists tt. Qed.

Lemma fails_call c : p c = true -> fails_at p (call c).
Proof.
  intros Hp bk h e ev H. unfold call in H.
  destruct (bk h c) as [out | msg] eqn:E; [discriminate |].
  injection H as <- <-. exists [], c, msg. rewrite app_nil_r. auto.
Qed.

Lemma fails_check_output c :
  splits (cmdline c) -> p (CheckOutput c) = true ->
  fails_at p (check_output c).
Proof. intros H Hp. rewrite (check_output_call c H). now apply fails_call. Qed.

Lemma fails_after (h e1 : list Event) (bk : Backend) e e2 :
  (exists pre c msg,
     e2 = pre ++ [EvCall c (Throws msg)] /\ p c = true
     /\ e = BackendError msg /\ bk ((h ++ e1) ++ pre) c = Throws msg) ->
  exists pre c msg,
    e1 ++ e2 = pre ++ [EvCall c (Throws msg)] /\ p c = true
    /\ e = BackendError msg /\ bk (h ++ pre) c = Throws msg.
Proof.
  intros (pre & c & msg & -> & Hp & -> & Hbk).
  exists (e1 ++ pre), c, msg. rewrite <- app_assoc in Hbk.
  rewrite app_assoc. auto.
Qed.

Lemma fails_bind {A B : Type} (m : M A) (f : A -> M B) :
  fails_at p m -> (forall a, fails_at p (f a)) -> fails_at p (bind m f).
Proof.
  intros Hm Hf bk h e ev H. apply bind_raised_inv in H.
  destruct H as [H | (a & e1 & e2 & _ & H & ->)].
  - exact (Hm _ _ _ _ H).
  - apply fails_after. exact (Hf _ _ _ _ _ H).
Qed.

Lemma fails_for_loop {A S : Type} (l : list A) body :
  (forall x (s : S), fails_at p (body x s)) ->
  forall s, fails_at p (for_loop l s body).
Proof.
  intros Hbody. induction l as [| x t IH]; intros s; [apply fails_ret |].
  rewrite for_loop_cons. apply fails_bind; [apply Hbody |].
  intros [[|] s1]; [apply IH | apply fails_ret].
Qed.

Lemma fails_for_each {A : Type} (l : list A) body :
  (forall x, fails_at p (body x)) -> fails_at p (for_each l body).
Proof.
  intros H. apply fails_for_loop. intros x _.
  apply fails_bind; [apply H | intros; apply fails_ret].
Qed.

(** What leaves a [try] block with a handler is what leaves the handler. *)
Lemma fails_try_except {A : Type} (m : M A) handler :
  (forall x, fails_at p (handler x)) -> fails_at p (try_except m handler).
Proof.
  intros Hh bk h e ev H. unfold try_except in H.
  destruct (m bk h) as [[a | x] e1]; [discriminate |].
  destruct (handler x bk (h ++ e1)) as [r e2] eqn:E.
  injection H as Hr Hev. subst r ev. apply fails_after.
  exact (Hh _ _ _ _ _ E).
Qed.

(** When the body of a [try] never raises, what leaves the statement is
    what leaves its [finally] block. *)
Lemma fails_try_finally {A : Type} (m : M A) fin :
  (forall bk h, exists a, fst (m bk h) = Normal a) ->
  fails_at p fin -> fails_at p (try_finally m fin).
Proof.
  intros Hm Hf bk h e ev H. unfold try_finally in H.
  destruct (Hm bk h) as [a Ha]. destruct (m bk h) as [r e1].
  cbn [fst] in Ha. subst r.
  destruct (fin bk (h ++ e1)) as [[u | x] e2] eqn:Ef; [discriminate |].
  injection H as Hx Hev. subst x ev. apply fails_after.
  exact (Hf _ _ _ _ Ef).
Qed.

End Fails.

Ltac failing :=
  repeat first
    [ apply fails_bind; [| intros ?]
    | apply fails_call; reflexivity
    | apply fails_check_output; [splitting | reflexivity]
    | apply fails_ret
    | apply fails_info
    | apply fails_error
    | apply fails_print
    | apply fails_for_loop; intros ? ?
    | apply fails_for_each; intros ?
    | apply fails_try_except; intros ? ].

(** ** Calls that raise end the run of a computation *)

Section Halting.

Lemma halting_silent {A : Type} (m : M A) :
  (forall bk h, snd (m bk h) = []) -> halting m.
Proof.
  intros Hm bk h r ev pre c msg post H Hev. specialize (Hm bk h).
  rewrite H in Hm. cbn [snd] in Hm. rewrite Hm in Hev.
  destruct pre; discriminate Hev.
Qed.

Lemma halting_ret {A : Type} (a : A) : halting (ret a).
Proof. now apply halting_silent. Qed.

Lemma halting_raise {A : Type} e : halting (@raise A e).
Proof. now apply halting_silent. Qed.

Lemma halting_lift {A : Type} (o : option A) e : halting (lift o e).
Proof. destruct o; [apply halting_ret | apply halting_raise]. Qed.

Lemma halting_subscript {A : Type} (l : option (list A)) i :
  halting (subscript l i).
Proof. destruct l; [apply halting_lift | apply halting_raise]. Qed.

Lemma halting_slice {A : Type} (l : option (list A)) a b :
  halting (slice l a b).
Proof. destruct l; [apply halting_ret | apply halting_raise]. Qed.

Lemma halting_py_len {A : Type} (l : option (list A)) : halting (py_len l).
Proof. destruct l; [apply halting_ret | apply halting_raise]. Qed.

(** A single event that is not a call that raised. *)
Lemma halting_line {A : Type} (m : M A) :
  (forall bk h, exists e, snd (m bk h) = [e] /\ returned e) -> halting m.
Proof.
  intros Hm bk h r ev pre c msg post H Hev.
  destruct (Hm bk h) as (e & He & Hret). rewrite H in He. cbn [snd] in He.
  rewrite He in Hev. destruct pre as [| x pre'].
  - injection Hev as ->. destruct Hret.
  - injection Hev as _ Hev. destruct pre'; discriminate Hev.
Qed.

Lemma halting_info s : halting (info s).
Proof. apply halting_line. intros. exists (EvInfo s). now split. Qed.

Lemma halting_error s : halting (error s).
Proof. apply halting_line. intros. exists (EvError s). now split. Qed.

Lemma halting_print s : halting (print s).
Proof. apply halting_line. intros. exists (EvPrint s). now split. Qed.

Lemma halting_call c : halting (call c).
Proof.
  intros bk h r ev pre c' msg post H Hev. unfold call in H.
  destruct (bk h c) as [out | m0]; injection H as <- <-;
    (destruct pre as [| x pre'];
     [| injection Hev as _ Hev; destruct pre'; discriminate Hev]).
  - discriminate Hev.
  - injection Hev as -> -> <-. auto.
Qed.

Lemma halting_check_output c : halting (check_output c).
Proof.
  unfold check_output.
  destruct (shlex_split (cmdline c)); [apply halting_call | apply halting_raise].
Qed.

Lemma halting_bind {A B : Type} (m : M A) (f : A -> M B) :
  halting m -> (forall a, halting (f a)) -> halting (bind m f).
Proof.
  intros Hm Hf bk h r ev pre c msg post H Hev. unfold bind in H.
  destruct (m bk h) as [[a | x] e1] eqn:Em.
  - destruct (f a bk (h ++ e1)) as [r2 e2] eqn:Ef. injection H as <- <-.
    apply app_eq_app in Hev. destruct Hev as [l [[He1 Hl] | [Hpre He2]]].
    + destruct l as [| x l'].
      * cbn [app] in Hl. symmetry in Hl.
        exact (Hf _ _ _ _ _ [] _ _ _ Ef Hl).
      * cbn [app] in Hl. injection Hl as <- _.
        destruct (Hm _ _ _ _ _ _ _ _ Em He1) as [_ Hr]. discriminate Hr.
    + exact (Hf _ _ _ _ _ _ _ _ _ Ef He2).
  - injection H as <- <-. destruct (Hm _ _ _ _ _ _ _ _ Em Hev) as [Hpost Hr].
    injection Hr as ->. auto.
Qed.

Lemma halting_for_loop {A S : Type} (l : list A) body :
  (forall x (s : S), halting (body x s)) -> forall s, halting (for_loop l s body).
Proof.
  intros Hbody. induction l as [| x t IH]; intros s; [apply halting_ret |].
  rewrite for_loop_cons. apply halting_bind; [apply Hbody |].
  intros [[|] s1]; [apply IH | apply halting_ret].
Qed.

Lemma halting_for_each {A : Type} (l : list A) body :
  (forall x, halting (body x)) -> halting (for_each l body).
Proof.
  intros H. apply halting_for_loop. intros x _.
  apply halting_bind; [apply H | intros; apply halting_ret].
Qed.

Lemma halting_sleep secs : halting (sleep secs).
Proof.
  unfold sleep. destruct (secs <? 0); [apply halting_raise |].
  apply halting_bind; [apply halting_call | intros; apply halting_ret].
Qed.

(** In a run of such a computation every call returned, but possibly the
    last one; and every call returned when the run ended normally. *)
Lemma halting_returned {A : Type} (m : M A) bk h r ev :
  halting m -> m bk h = (r, ev) ->
  (forall a, r = Normal a -> Forall returned ev)
  /\ (forall pre last, ev = pre ++ [last] -> Forall returned pre).
Proof.
  intros Hm H.
  assert (K : forall pre x post,
             ev = pre ++ x :: post ->
             post <> [] \/ (exists a, r = Normal a) -> returned x).
  { intros pre x post Hev Hor. destruct x as [c [out | msg] | s | s | s];
      try exact I.
    destruct (Hm _ _ _ _ _ _ _ _ H Hev) as [Hpost Hr].
    destruct Hor as [Hne | [a Ha]]; [now elim Hne |].
    rewrite Ha in Hr. discriminate Hr. }
  split.
  - intros a Ha. apply Forall_forall. intros x Hx. apply in_split in Hx.
    destruct Hx as (l1 & l2 & Hev). apply (K l1 x l2 Hev). right. now exists a.
  - intros pre last Hev. apply Forall_forall. intros x Hx.
    apply in_split in Hx. destruct Hx as (l1 & l2 & ->).
    apply (K l1 x (l2 ++ [last])); [now rewrite Hev, <- app_assoc |].
    left. destruct l2; discriminate.
Qed.

End Halting.

Ltac halts :=
  repeat first
    [ apply halting_bind; [| intros ?]
    | apply halting_call
    | apply halting_check_output
    | apply halting_info
    | apply halting_error
    | apply halting_print
    | apply halting_ret
    | apply halting_raise
    | apply halting_lift
    | apply halting_subscript
    | apply halting_slice
    | apply halting_py_len
    | apply halting_sleep
    | apply halting_for_loop; intros ? ?
    | apply halting_for_each; intros ? ].

(** ** What leaves a run *)

(** With 5 hosts or more, the setup of a run raises only when one of its
    calls raises. *)
Lemma run_setup_fails host_num :
  5 <= host_num -> fails_at is_setup_call (run_setup host_num).
Proof.
  intros Hn. unfold run_setup, config_ipv6, create_topology.
  destruct (Z.ltb_spec host_num 5); [lia |]. failing.
Qed.

(** The cleanup is its log line followed by its four calls, made in
    sequence. *)
Lemma run_cleanup_run_calls bk h :
  run_cleanup bk h
  = (fst (run_calls bk (h ++ [EvInfo ("*** Stopping network" ++ nl)])
                    cleanup_calls),
     EvInfo ("*** Stopping network" ++ nl)
       :: snd (run_calls bk (h ++ [EvInfo ("*** Stopping network" ++ nl)])
                         cleanup_calls)).
Proof.
  unfold run_cleanup. rewrite config_ipv6_calls, bind_info_split.
  unfold cleanup_calls, sysctl_all, sysctl_default. cbn [run_calls].
  cbv zeta. cbn [String.eqb Ascii.eqb Bool.eqb].
  rewrite bind_call_split. destruct (bk _ net_stop) as [o1 | m1]; [| reflexivity].
  rewrite bind_call_split. destruct (bk _ mgr_stop) as [o2 | m2]; [| reflexivity].
  rewrite bind_call_split.
  destruct (bk _ (CheckOutput (SysctlW "net.ipv6.conf.all.disable_ipv6" 0)))
    as [o3 | m3]; [| reflexivity].
  rewrite bind_call_split.
  destruct (bk _ (CheckOutput (SysctlW "net.ipv6.conf.default.disable_ipv6" 0)))
    as [o4 | m4]; reflexivity.
Qed.

(** The cleanup ends normally when its four calls return. *)
Lemma run_cleanup_returns bk h :
  never_throws bk net_stop -> never_throws bk mgr_stop ->
  never_throws bk (sysctl_all 0) -> never_throws bk (sysctl_default 0) ->
  exists ev, run_cleanup bk h = (Normal tt, ev).
Proof.
  intros H1 H2 H3 H4. rewrite run_cleanup_run_calls.
  unfold cleanup_calls. cbn [run_calls].
  destruct (H1 (h ++ [EvInfo ("*** Stopping network" ++ nl)])) as [o1 ->].
  match goal with |- context [bk ?h' mgr_stop] =>
    destruct (H2 h') as [o2 ->] end.
  match goal with |- context [bk ?h' (sysctl_all 0)] =>
    destruct (H3 h') as [o3 ->] end.
  match goal with |- context [bk ?h' (sysctl_default 0)] =>
    destruct (H4 h') as [o4 ->] end.
  eexists. reflexivity.
Qed.

(** A run that got past its setup: the events of the [try] block, the two
    error lines when the block raised, then the cleanup, whose result is
    the result of the run. *)
Lemma run_outcome SYMBOL_SIZE META_DATA_LEN ALL_FOWARD host_num profile
    coder_log_conf bk h hosts ev0 :
  run_setup host_num bk h = (Normal hosts, ev0) ->
  let exp :=
    run_experiment SYMBOL_SIZE META_DATA_LEN ALL_FOWARD hosts host_num
                   profile coder_log_conf bk (h ++ ev0) in
  let logged :=
    match fst exp with
    | Normal _ => []
    | Raised e =>
        [EvError ("*** Emulation has errors:" ++ nl); EvError (exn_msg e)]
    end in
  let stop := EvInfo ("*** Stopping network" ++ nl) in
  let cleanup :=
    run_calls bk (((h ++ ev0) ++ snd exp ++ logged) ++ [stop]) cleanup_calls in
  run_multihop_nc_test SYMBOL_SIZE META_DATA_LEN ALL_FOWARD host_num profile
                       coder_log_conf bk h
  = (fst cleanup, ev0 ++ (snd exp ++ logged) ++ stop :: snd cleanup).
Proof.
  intros Hsetup exp logged stop cleanup. unfold run_multihop_nc_test.
  rewrite (bind_normal _ _ _ _ _ _ Hsetup).
  match goal with
  | |- context [try_finally ?G run_cleanup bk (h ++ ev0)] =>
      assert (HG : G bk (h ++ ev0) = (Normal tt, snd exp ++ logged))
  end.
  { unfold try_except. subst logged. fold exp.
    destruct exp as [[[] | e] ev1]; [now rewrite app_nil_r | reflexivity]. }
  unfold try_finally. rewrite HG, run_cleanup_run_calls. fold stop.
  fold cleanup. cbn [fst snd].
  destruct cleanup as [[[] | x] e2]; reflexivity.
Qed.

Lemma run_fails SYMBOL_SIZE META_DATA_LEN ALL_FOWARD host_num profile
    coder_log_conf :
  5 <= host_num ->
  fails_at is_setup_call
    (run_multihop_nc_test SYMBOL_SIZE META_DATA_LEN ALL_FOWARD host_num
                          profile coder_log_conf).
Proof.
  intros Hn. unfold run_multihop_nc_test.
  apply fails_bind; [now apply run_setup_fails | intros hosts].
  apply fails_try_finally.
  - intros bk h. exists tt. apply log_errors_normal.
  - unfold run_cleanup, config_ipv6. failing.
Qed.

(** X7. Errors of the experiment do not leave a run.  With 5 hosts or
    more, an exception leaves [run_multihop_nc_test] only in two ways.  The
    setup raises: then a call of the setup raised, it is the last event of
    the run, and nothing of the experiment was run.  Or the setup is passed:
    then whatever the [try] block raises, a backend error included, is
    logged as the line ["*** Emulation has errors:"] followed by its
    message, the cleanup follows at once, and the result of the run is the
    result of the four calls of the cleanup: the run ends normally when they
    all returned, and raises only the error of the one that raised. *)
Theorem experiment_errors_stay_inside SYMBOL_SIZE META_DATA_LEN ALL_FOWARD
    host_num profile coder_log_conf bk h :
  5 <= host_num ->
  (forall e ev0,
     run_setup host_num bk h = (Raised e, ev0) ->
     run_multihop_nc_test SYMBOL_SIZE META_DATA_LEN ALL_FOWARD host_num
                          profile coder_log_conf bk h = (Raised e, ev0)
     /\ exists pre c msg,
          ev0 = pre ++ [EvCall c (Throws msg)] /\ is_setup_call c = true
          /\ e = BackendError msg /\ bk (h ++ pre) c = Throws msg)
  /\ (forall hosts ev0,
        run_setup host_num bk h = (Normal hosts, ev0) ->
        let exp :=
          run_experiment SYMBOL_SIZE META_DATA_LEN ALL_FOWARD hosts host_num
                         profile coder_log_conf bk (h ++ ev0) in
        let logged :=
          match fst exp with
          | Normal _ => []
          | Raised e =>
              [EvError ("*** Emulation has errors:" ++ nl);
               EvError (exn_msg e)]
          end in
        let stop := EvInfo ("*** Stopping network" ++ nl) in
        let cleanup :=
          run_calls bk (((h ++ ev0) ++ snd exp ++ logged) ++ [stop])
                    [net_stop; mgr_stop;
                     CheckOutput (SysctlW "net.ipv6.conf.all.disable_ipv6" 0);
                     CheckOutput
                       (SysctlW "net.ipv6.conf.default.disable_ipv6" 0)] in
        run_multihop_nc_test SYMBOL_SIZE META_DATA_LEN ALL_FOWARD host_num
                             profile coder_log_conf bk h
        = (fst cleanup, ev0 ++ (snd exp ++ logged) ++ stop :: snd cleanup)
        /\ (Forall returned (snd cleanup) ->
            fst (run_multihop_nc_test SYMBOL_SIZE META_DATA_LEN ALL_FOWARD
                   host_num profile coder_log_conf bk h) = Normal tt)
        /\ (forall e,
              fst (run_multihop_nc_test SYMBOL_SIZE META_DATA_LEN ALL_FOWARD
                     host_num profile coder_log_conf bk h) = Raised e ->
              exists pre c msg,
                snd cleanup = pre ++ [EvCall c (Throws msg)]
                /\ In c [net_stop; mgr_stop;
                         CheckOutput
                           (SysctlW "net.ipv6.conf.all.disable_ipv6" 0);
                         CheckOutput
                           (SysctlW "net.ipv6.conf.default.disable_ipv6" 0)]
                /\ e = BackendError msg /\ Forall returned pre)).
Proof.
  intros Hn. split.
  - intros e ev0 Hsetup. split.
    + unfold run_multihop_nc_test. now rewrite (bind_raised _ _ _ _ _ _ Hsetup).
    + exact (run_setup_fails host_num Hn _ _ _ _ Hsetup).
  - intros hosts ev0 Hsetup exp logged stop cleanup.
    pose proof (run_outcome SYMBOL_SIZE META_DATA_LEN ALL_FOWARD host_num
                  profile coder_log_conf bk h hosts ev0 Hsetup) as Hrun.
    cbv zeta in Hrun. fold exp in Hrun. fold logged in Hrun.
    fold stop in Hrun. change (run_calls bk _ cleanup_calls) with cleanup in Hrun.
    rewrite Hrun. cbn [fst snd]. split; [reflexivity |].
    destruct (run_calls_law bk
                [net_stop; mgr_stop;
                 CheckOutput (SysctlW "net.ipv6.conf.all.disable_ipv6" 0);
                 CheckOutput (SysctlW "net.ipv6.conf.default.disable_ipv6" 0)]
                (((h ++ ev0) ++ snd exp ++ logged) ++ [stop]))
      as (_ & _ & _ & Hraise).
    fold cleanup in Hraise. split; [| exact Hraise].
    intros Hret. destruct (fst cleanup) as [[] | e] eqn:E; [reflexivity |].
    destruct (Hraise e eq_refl) as (pre & c & msg & Hev & _).
    rewrite Hev in Hret. apply Forall_app in Hret. destruct Hret as [_ Hret].
    inversion Hret as [| ? ? Hlast _]. destruct Hlast.
Qed.

Lemma experiment_errors_stay_inside_witness :
  (run_multihop_nc_test 1 0 false 5 0 no_logs unreachable_backend []
   = (Raised (BackendError "unreachable"),
      [EvCall (CheckOutput (SysctlW "net.ipv6.conf.all.disable_ipv6" 1))
         (Throws "unreachable")]))
  /\ fst (run_multihop_nc_test 1 0 false 5 0 no_logs s2_fails []) = Normal tt
  /\ exists rest,
       snd (run_multihop_nc_test 1 0 false 5 0 no_logs s2_fails [])
       = snd (run_setup 5 s2_fails [])
           ++ (snd (run_experiment 1 0 false None 5 0 no_logs s2_fails
                      (snd (run_setup 5 s2_fails [])))
                 ++ [EvError ("*** Emulation has errors:" ++ nl);
                     EvError "'NoneType' object is not subscriptable"])
           ++ EvInfo ("*** Stopping network" ++ nl) :: rest.
Proof.
  split; [| split].
  - exact (proj1 (proj1 (experiment_errors_stay_inside 1 0 false 5 0 no_logs
                           unreachable_backend [] ltac:(lia))
                    (BackendError "unreachable") _ eq_refl)).
  - destruct (proj2 (experiment_errors_stay_inside 1 0 false 5 0 no_logs
                       s2_fails [] ltac:(lia))
                None (snd (run_setup 5 s2_fails [])) eq_refl)
      as (_ & Hend & _).
    apply Hend. vm_compute. repeat constructor.
  - destruct (proj2 (experiment_errors_stay_inside 1 0 false 5 0 no_logs
                       s2_fails [] ltac:(lia))
                None (snd (run_setup 5 s2_fails [])) eq_refl)
      as (Hrun & _).
    rewrite Hrun. eexists. reflexivity.
Defined.

(** ** What a run never does *)

Lemma run_setup_avoids p host_num :
  outside_setup p ->
  emits_only (avoids p) (run_setup host_num).
Proof.
  intros Hp. unfold run_setup, config_ipv6, create_topology, assemble.
  repeat first
    [ apply emits_bind; [| intros ?]
    | apply emits_call; intros ?; apply Hp; reflexivity
    | apply emits_check_output; intros ?; apply Hp; reflexivity
    | apply emits_info; exact I
    | apply emits_error; exact I
    | apply emits_ret
    | apply emits_raise
    | apply emits_try_except; [| intros ?]
    | match goal with
      | |- emits_only _ (if ?b then _ else _) => destruct b
      end ].
  apply emits_for_loop. intros i [hs [last |]]; unfold assemble_hop;
    repeat first
      [ apply emits_bind; [| intros ?]
      | apply emits_call; intros ?; apply Hp; reflexivity
      | apply emits_check_output; intros ?; apply Hp; reflexivity
      | apply emits_ret ].
Qed.

Lemma run_cleanup_avoids p :
  outside_setup p -> emits_only (avoids p) run_cleanup.
Proof.
  intros Hp. unfold run_cleanup, config_ipv6.
  repeat first
    [ apply emits_bind; [| intros ?]
    | apply emits_call; intros ?; apply Hp; reflexivity
    | apply emits_check_output; intros ?; apply Hp; reflexivity
    | apply emits_info; exact I
    | apply emits_ret ].
Qed.

Lemma deployment_outside_setup : outside_setup is_deployment.
Proof.
  intros c H.
  destruct c as [[] | | | | | | | | | | | | | | |]; try discriminate H;
    reflexivity.
Qed.

Lemma log_read_outside_setup : outside_setup is_log_read.
Proof.
  intros c H.
  destruct c as [[] | | | | | | | | | | | | | | |]; try discriminate H;
    reflexivity.
Qed.

(** Without a host list the deployment raises before any call. *)
Lemma deploy_coders_none rec_st_idx relay_num action_map bk h :
  deploy_coders None rec_st_idx relay_num action_map bk h
  = (Raised (TypeError "'NoneType' object is not subscriptable"), []).
Proof. reflexivity. Qed.

Lemma sweep_none_avoids SYMBOL_SIZE META_DATA_LEN ALL_FOWARD rec_st_idx
    relay_num coder_log_conf :
  emits_only (avoids is_deployment)
             (sweep SYMBOL_SIZE META_DATA_LEN ALL_FOWARD None rec_st_idx
                    relay_num coder_log_conf).
Proof.
  unfold sweep. apply emits_for_loop. intros i u. unfold variant.
  apply emits_bind; [unfold build_action_map; avoiding | intros action_map].
  apply emits_bind; [apply emits_info; exact I | intros _].
  intros bk h. rewrite (bind_raised _ _ _ _ _ _ (deploy_coders_none _ _ _ _ _)).
  constructor.
Qed.

Lemma experiment_without_hosts_avoids SYMBOL_SIZE META_DATA_LEN ALL_FOWARD
    host_num profile coder_log_conf :
  emits_only (avoids is_deployment)
    (run_experiment SYMBOL_SIZE META_DATA_LEN ALL_FOWARD None host_num
                    profile coder_log_conf).
Proof.
  unfold run_experiment, add_ovs_flows, add_ovs_flows_body, get_ofport,
    disable_cksum_offload.
  repeat first
    [ apply sweep_none_avoids
    | apply emits_bind; [| intros ?]
    | apply emits_call; intros ?; reflexivity
    | apply emits_check_output; intros ?; reflexivity
    | apply emits_info; exact I
    | apply emits_ret
    | apply emits_for_each; intros ?
    | match goal with
      | |- emits_only _ (if ?b then _ else _) => destruct b
      end ].
Qed.

(** X8. After a topology build that failed, the run deploys nothing.  When
    the setup of a run ends with [create_topology] returning [None], the
    whole run, which still starts the network and programs the flows, makes
    no [addContainer] and no [removeContainer] call: the first variant
    stops on the missing host list before any coder is launched. *)
Theorem no_deployment_without_hosts SYMBOL_SIZE META_DATA_LEN ALL_FOWARD
    host_num profile coder_log_conf bk h ev0 :
  run_setup host_num bk h = (Normal None, ev0) ->
  count_calls is_deployment
    (snd (run_multihop_nc_test SYMBOL_SIZE META_DATA_LEN ALL_FOWARD host_num
                               profile coder_log_conf bk h)) = 0%nat.
Proof.
  intros Hsetup. apply count_avoided. unfold run_multihop_nc_test.
  rewrite (bind_normal _ _ _ _ _ _ Hsetup). cbn [snd]. apply Forall_app. split.
  - pose proof (run_setup_avoids is_deployment host_num
                  deployment_outside_setup bk h) as H.
    rewrite Hsetup in H. exact H.
  - match goal with |- Forall _ (snd (?m bk ?h')) =>
      enough (E : emits_only (avoids is_deployment) m) by exact (E bk h') end.
    apply emits_try_finally;
      [| apply run_cleanup_avoids; exact deployment_outside_setup].
    apply emits_try_except; [| intros e; avoiding].
    apply experiment_without_hosts_avoids.
Qed.

Lemma no_deployment_without_hosts_witness :
  count_calls is_deployment
    (snd (run_multihop_nc_test 1 0 false 5 0 no_logs s2_fails [])) = 0%nat.
Proof.
  exact (no_deployment_without_hosts 1 0 false 5 0 no_logs s2_fails []
           (snd (run_setup 5 s2_fails [])) eq_refl).
Defined.

(** Events of the functions of the script that set up no handler: [tac]
    settles what is asked of each event. *)
Ltac emits_with tac :=
  repeat first
    [ match goal with
      | |- emits_only _ (print_coders_log ?c _) =>
          destruct c as [[? ?] ?]; unfold print_coders_log
      | |- emits_only _ (remove_coders ?c) =>
          destruct c as [[? ?] ?]; unfold remove_coders
      | |- emits_only _ (deploy_coders _ _ _ _) =>
          unfold deploy_coders, deploy_recoder
      | |- emits_only _ (run_iperf_test _ _ _ _ _ _ _) =>
          unfold run_iperf_test
      | |- emits_only _ (assemble_hop _ ?st) =>
          destruct st as [? [? |]]; unfold assemble_hop
      end
    | apply emits_bind; [| intros ?]
    | apply emits_call; intros ?; tac
    | apply emits_check_output; intros ?; tac
    | apply emits_info; tac
    | apply emits_print; tac
    | apply emits_ret
    | apply emits_raise
    | apply emits_lift
    | apply emits_subscript
    | apply emits_slice
    | apply emits_py_len
    | apply emits_sleep; intros ?; tac
    | apply emits_for_loop; intros ? ?
    | apply emits_for_each; intros ?
    | match goal with
      | |- emits_only _ (if ?b then _ else _) => destruct b
      end ].

(** ** Failure of the build *)

Lemma assemble_fails host_num : fails_at is_assembly (assemble host_num).
Proof.
  unfold assemble. failing.
  match goal with
  | |- fails_at _ (assemble_hop _ ?st) =>
      destruct st as [? [? |]]; unfold assemble_hop; failing
  end.
Qed.

Lemma assemble_halting host_num : halting (assemble host_num).
Proof.
  unfold assemble. halts.
  match goal with
  | |- halting (assemble_hop _ ?st) =>
      destruct st as [? [? |]]; unfold assemble_hop; halts
  end.
Qed.

(** The setup of a run is what comes before the build, then the build. *)
Lemma run_setup_split host_num bk h v pre :
  run_prelude bk h = (Normal v, pre) ->
  run_setup host_num bk h
  = (fst (create_topology host_num bk (h ++ pre)),
     pre ++ snd (create_topology host_num bk (h ++ pre))).
Proof.
  unfold run_prelude, run_setup. intros H.
  apply bind_normal_inv in H. destruct H as (a1 & e1 & r1 & H1 & H & ->).
  apply bind_normal_inv in H. destruct H as (a2 & e2 & e3 & H2 & H3 & ->).
  rewrite (bind_normal _ _ _ _ _ _ H1), (bind_normal _ _ _ _ _ _ H2),
    (bind_normal _ _ _ _ _ _ H3).
  cbn [fst snd]. now rewrite <- !app_assoc.
Qed.

(** What comes before the build stops no network. *)
Lemma run_prelude_never_stops : emits_only (avoids is_net_stop) run_prelude.
Proof.
  unfold run_prelude, config_ipv6. emits_with ltac:(reflexivity || exact I).
Qed.

Lemma run_experiment_never_stops SYMBOL_SIZE META_DATA_LEN ALL_FOWARD hosts
    host_num profile coder_log_conf :
  emits_only (avoids is_net_stop)
    (run_experiment SYMBOL_SIZE META_DATA_LEN ALL_FOWARD hosts host_num
                    profile coder_log_conf).
Proof.
  unfold run_experiment, add_ovs_flows, add_ovs_flows_body, get_ofport,
    disable_cksum_offload, sweep, variant, build_action_map.
  emits_with ltac:(reflexivity || exact I).
Qed.

(** The events of a sequence start with those of its first part. *)
Lemma bind_events_prefix {A B : Type} (m : M A) (f : A -> M B) bk h :
  exists rest, snd (bind m f bk h) = snd (m bk h) ++ rest.
Proof.
  unfold bind. destruct (m bk h) as [[a | e] e1].
  - destruct (f a bk (h ++ e1)) as [r e2]. now exists e2.
  - exists []. cbn [snd]. now rewrite app_nil_r.
Qed.

(** With 5 hosts or more the installation starts with the flush of the
    first switch. *)
Lemma add_ovs_flows_starts switch_num bk h :
  5 <= switch_num ->
  exists o rest,
    snd (add_ovs_flows switch_num bk h)
    = EvCall (CheckOutput (OvsOfctlDelFlows 1)) o :: rest.
Proof.
  intros Hn. unfold add_ovs_flows, range.
  destruct (Z.to_nat (switch_num - 1)) as [| k] eqn:Hk; [lia |].
  cbn [seq map]. rewrite for_each_cons.
  assert (H0 : exists o rest,
             snd (add_ovs_flows_body (Z.of_nat 0) bk h)
             = EvCall (CheckOutput (OvsOfctlDelFlows 1)) o :: rest).
  { unfold add_ovs_flows_body. cbv zeta.
    rewrite (check_output_call (OvsOfctlDelFlows _)) by splitting.
    rewrite bind_call_events. eexists _, _. reflexivity. }
  destruct H0 as (o & rest & H0).
  destruct (add_ovs_flows_body (Z.of_nat 0) bk h) as [[[] | e] e1];
    cbn [snd] in H0; subst e1.
  - destruct (for_each _ _ bk _) as [r e2]. cbn [snd app].
    eexists _, _. reflexivity.
  - eexists _, _. reflexivity.
Qed.

(** The [try] block starts with its log line and [net.start()]; when that
    returns, with 5 hosts or more, it goes on to program flows. *)
Lemma run_experiment_starts SYMBOL_SIZE META_DATA_LEN ALL_FOWARD hosts
    host_num profile coder_log_conf bk h :
  exists o rest,
    snd (run_experiment SYMBOL_SIZE META_DATA_LEN ALL_FOWARD hosts host_num
                        profile coder_log_conf bk h)
    = EvInfo ("*** Starting network" ++ nl) :: EvCall net_start o :: rest
    /\ (5 <= host_num ->
        forall out,
          o = Returns out ->
          exists o2 rest2,
            rest
            = EvInfo ("*** Adding OpenFlow rules" ++ nl)
                :: EvCall (CheckOutput (OvsOfctlDelFlows 1)) o2 :: rest2).
Proof.
  unfold run_experiment. cbv zeta. rewrite bind_info_events, bind_call_events.
  eexists _, _. split; [reflexivity |].
  intros Hn out ->. rewrite bind_info_events.
  match goal with
  | |- context [snd (bind ?m ?f bk ?h')] =>
      destruct (bind_events_prefix m f bk h') as [r ->];
      destruct (add_ovs_flows_starts host_num bk h' Hn) as (o2 & r2 & ->)
  end.
  cbn [app]. eexists _, _. reflexivity.
Qed.

Lemma run_calls_cons bk h c t :
  run_calls bk h (c :: t)
  = match bk h c with
    | Returns out =>
        (fst (run_calls bk (h ++ [EvCall c (Returns out)]) t),
         EvCall c (Returns out)
           :: snd (run_calls bk (h ++ [EvCall c (Returns out)]) t))
    | Throws msg => (Raised (BackendError msg), [EvCall c (Throws msg)])
    end.
Proof.
  cbn [run_calls]. destruct (bk h c) as [out | msg]; [| reflexivity].
  now destruct (run_calls bk (h ++ [EvCall c (Returns out)]) t).
Qed.

(** The cleanup stops the network once. *)
Lemma cleanup_stops_once bk h :
  count_calls is_net_stop (snd (run_calls bk h cleanup_calls)) = 1%nat.
Proof.
  unfold cleanup_calls, sysctl_all, sysctl_default.
  rewrite run_calls_cons. destruct (bk h net_stop); [| reflexivity].
  rewrite run_calls_cons. cbn [snd]. destruct (bk _ mgr_stop); [| reflexivity].
  rewrite run_calls_cons. cbn [snd].
  destruct (bk _ (CheckOutput (SysctlW "net.ipv6.conf.all.disable_ipv6" 0)));
    [| reflexivity].
  rewrite run_calls_cons. cbn [snd].
  now destruct (bk _ (CheckOutput
                        (SysctlW "net.ipv6.conf.default.disable_ipv6" 0))).
Qed.

(** The cleanup makes no call that is made outside the setup and the
    cleanup only. *)
Lemma cleanup_calls_avoid p bk h :
  outside_setup p -> Forall (avoids p) (snd (run_calls bk h cleanup_calls)).
Proof.
  intros Hp. unfold cleanup_calls, sysctl_all, sysctl_default.
  repeat (rewrite run_calls_cons;
          match goal with
          | |- context [match bk ?h' ?c with _ => _ end] =>
              destruct (bk h' c); cbn [snd];
              (constructor; [apply Hp; reflexivity |]); try constructor
          end).
Qed.

(** C1, as the code has it.  When a backend call fails while the
    controller, the hosts, the switches or the links are being created
    ([host_num >= 5]), the build stops at the failing call: that call is the
    last event of the assembly, every call before it returned, and its error
    is what the assembly raises.  [create_topology] logs the error and
    invokes [net.stop()] exactly once, and no deployment call occurs in the
    whole run.  The error is not re-raised: [create_topology] returns [None]
    to its caller, and an exception leaves it only when that [net.stop()]
    itself raises, in which case the run ends there.  Otherwise the run
    goes on: it starts the network and, when that returns, programs flows,
    beginning with the flush of the first switch; and its cleanup invokes
    [net.stop()] a second time. *)
Theorem build_failure_teardown SYMBOL_SIZE META_DATA_LEN ALL_FOWARD host_num
    profile coder_log_conf bk h v pre e ev :
  5 <= host_num ->
  run_prelude bk h = (Normal v, pre) ->
  assemble host_num bk (h ++ pre) = (Raised e, ev) ->
  let o := bk ((h ++ pre) ++ ev ++ [EvError (exn_msg e)]) net_stop in
  let build := create_topology host_num bk (h ++ pre) in
  let run :=
    run_multihop_nc_test SYMBOL_SIZE META_DATA_LEN ALL_FOWARD host_num
                         profile coder_log_conf bk h in
  (exists done c msg,
     ev = done ++ [EvCall c (Throws msg)] /\ is_assembly c = true
     /\ e = BackendError msg /\ bk ((h ++ pre) ++ done) c = Throws msg
     /\ Forall returned done)
  /\ Forall assembly_event ev
  /\ build
     = (match o with
        | Returns _ => Normal None
        | Throws msg => Raised (BackendError msg)
        end,
        ev ++ [EvError (exn_msg e); EvCall net_stop o])
  /\ count_calls is_net_stop (snd build) = 1%nat
  /\ count_calls is_deployment (snd run) = 0%nat
  /\ match o with
     | Throws msg => run = (Raised (BackendError msg), pre ++ snd build)
     | Returns _ =>
         count_calls is_net_stop (snd run) = 2%nat
         /\ exists o' rest,
              snd run
              = pre ++ snd build
                  ++ EvInfo ("*** Starting network" ++ nl)
                  :: EvCall net_start o' :: rest
              /\ forall out',
                   o' = Returns out' ->
                   exists o'' rest',
                     rest
                     = EvInfo ("*** Adding OpenFlow rules" ++ nl)
                         :: EvCall (CheckOutput (OvsOfctlDelFlows 1)) o''
                         :: rest'
     end.
Proof.
  intros Hn Hpre H o build run.
  pose proof (assemble_events host_num bk (h ++ pre)) as Hev.
  rewrite H in Hev. cbn [snd] in Hev.
  assert (Hbuild : build
                   = (match o with
                      | Returns _ => Normal None
                      | Throws msg => Raised (BackendError msg)
                      end,
                      ev ++ [EvError (exn_msg e); EvCall net_stop o]))
    by exact (create_topology_failed _ _ _ _ _ Hn H).
  assert (Hstop : count_calls is_net_stop (snd build) = 1%nat).
  { rewrite Hbuild. cbn [snd]. rewrite count_calls_app.
    rewrite (count_calls_none assembly_event is_net_stop ev); auto.
    intros [] ? ?; simpl in *; congruence. }
  pose proof (run_setup_split host_num bk h v pre Hpre) as Hsetup.
  fold build in Hsetup.
  pose proof (run_prelude_never_stops bk h) as Hquiet. rewrite Hpre in Hquiet.
  cbn [snd] in Hquiet. apply count_avoided in Hquiet.
  assert (Hsetup_quiet : Forall (avoids is_deployment) (pre ++ snd build)).
  { pose proof (run_setup_avoids is_deployment host_num
                  deployment_outside_setup bk h) as K.
    now rewrite Hsetup in K. }
  split; [| split; [exact Hev | split; [exact Hbuild | split; [exact Hstop |]]]].
  { destruct (assemble_fails host_num _ _ _ _ H)
      as (done & c & msg & -> & Hc & -> & Hbk).
    exists done, c, msg. repeat (split; [reflexivity || assumption |]).
    exact (proj2 (halting_returned _ _ _ _ _ (assemble_halting host_num) H)
             done _ eq_refl). }
  destruct (fst build) as [[hosts |] | x] eqn:Hfst.
  - exfalso. rewrite Hbuild in Hfst. cbn [fst] in Hfst.
    destruct o; discriminate Hfst.
  - pose proof (run_outcome SYMBOL_SIZE META_DATA_LEN ALL_FOWARD host_num
                  profile coder_log_conf bk h None _ Hsetup) as Hrun.
    cbv zeta in Hrun. fold run in Hrun.
    pose proof (experiment_without_hosts_avoids SYMBOL_SIZE META_DATA_LEN
                  ALL_FOWARD host_num profile coder_log_conf bk
                  (h ++ pre ++ snd build)) as Hexp.
    pose proof (run_experiment_never_stops SYMBOL_SIZE META_DATA_LEN
                  ALL_FOWARD None host_num profile coder_log_conf bk
                  (h ++ pre ++ snd build)) as Hns.
    pose proof (run_experiment_starts SYMBOL_SIZE META_DATA_LEN
                  ALL_FOWARD None host_num profile coder_log_conf bk
                  (h ++ pre ++ snd build)) as (o' & rest & Hfirst & Hnext).
    set (exp := run_experiment SYMBOL_SIZE META_DATA_LEN ALL_FOWARD None
                  host_num profile coder_log_conf bk _) in *.
    assert (Hlogged : forall p,
               count_calls p
                 (match fst exp with
                  | Normal _ => []
                  | Raised e0 =>
                      [EvError ("*** Emulation has errors:" ++ nl);
                       EvError (exn_msg e0)]
                  end) = 0%nat)
      by (intros p; now destruct (fst exp)).
    assert (Ho : exists out, o = Returns out).
    { rewrite Hbuild in Hfst. cbn [fst] in Hfst.
      destruct o as [out |]; [now exists out | discriminate Hfst]. }
    destruct Ho as [out Ho]. rewrite Ho. rewrite Hrun. cbn [snd].
    split; [| split].
    + apply count_avoided. apply Forall_app. split; [exact Hsetup_quiet |].
      apply Forall_app. split.
      * apply Forall_app. split; [exact Hexp |].
        destruct (fst exp); repeat constructor.
      * constructor; [exact I |].
        apply cleanup_calls_avoid, deployment_outside_setup.
    + rewrite (count_calls_app _ (pre ++ snd build)), (count_calls_app _ pre),
        Hquiet, Hstop, (count_calls_app _ (snd exp ++ _)),
        (count_calls_app _ (snd exp)), (count_avoided _ _ Hns), Hlogged.
      change (count_calls is_net_stop (EvInfo ?x :: ?l))
        with (count_calls is_net_stop l).
      now rewrite cleanup_stops_once.
    + rewrite Hfirst. exists o'. eexists. split.
      * rewrite <- !app_assoc. cbn [app]. reflexivity.
      * intros out' Ho'. destruct (Hnext Hn out' Ho') as (o'' & rest' & ->).
        cbn [app]. eexists _, _. reflexivity.
  - assert (Ho : exists msg, o = Throws msg /\ x = BackendError msg).
    { rewrite Hbuild in Hfst. cbn [fst] in Hfst.
      destruct o as [| msg]; [discriminate Hfst |].
      exists msg. split; [reflexivity | congruence]. }
    destruct Ho as (msg & Ho & ->). rewrite Ho.
    assert (Hrun : run = (Raised (BackendError msg), pre ++ snd build)).
    { unfold run, run_multihop_nc_test.
      now rewrite (bind_raised _ _ _ _ _ _ Hsetup). }
    rewrite Hrun. split; [| reflexivity].
    cbn [snd]. now apply count_avoided.
Qed.

Lemma build_failure_teardown_witness :
  let pre := snd (run_prelude s2_fails []) in
  let ev := snd (assemble 5 s2_fails pre) in
  let run := run_multihop_nc_test 1 0 false 5 0 no_logs s2_fails [] in
  (exists done c msg,
     ev = done ++ [EvCall c (Throws msg)] /\ is_assembly c = true
     /\ BackendError "cannot create s2" = BackendError msg
     /\ s2_fails (pre ++ done) c = Throws msg
     /\ Forall returned done)
  /\ Forall assembly_event ev
  /\ create_topology 5 s2_fails pre
     = (Normal None,
        ev ++ [EvError "cannot create s2"; EvCall net_stop (Returns "")])
  /\ count_calls is_net_stop (snd (create_topology 5 s2_fails pre)) = 1%nat
  /\ count_calls is_deployment (snd run) = 0%nat
  /\ count_calls is_net_stop (snd run) = 2%nat
  /\ exists o' rest,
       snd run
       = pre ++ snd (create_topology 5 s2_fails pre)
           ++ EvInfo ("*** Starting network" ++ nl)
           :: EvCall net_start o' :: rest
       /\ forall out',
            o' = Returns out' ->
            exists o'' rest',
              rest
              = EvInfo ("*** Adding OpenFlow rules" ++ nl)
                  :: EvCall (CheckOutput (OvsOfctlDelFlows 1)) o'' :: rest'.
Proof.
  exact (build_failure_teardown 1 0 false 5 0 no_logs s2_fails []
           "" (snd (run_prelude s2_fails []))
           (BackendError "cannot create s2")
           (snd (assemble 5 s2_fails (snd (run_prelude s2_fails []))))
           ltac:(lia) eq_refl eq_refl).
Defined.

(** C1, as stated, fails.  When the creation of the second switch fails,
    the build does not raise: it returns [None].  The run then goes on: it
    starts the network, programs flows, and invokes [net.stop()] a second
    time on its way out. *)
Lemma build_failure_not_reraised :
  fst (assemble 5 s2_fails []) = Raised (BackendError "cannot create s2")
  /\ fst (create_topology 5 s2_fails []) = Normal None
  /\ (forall e, fst (create_topology 5 s2_fails []) <> Raised e)
  /\ count_calls is_net_stop
       (snd (run_multihop_nc_test 1 0 false 5 0 no_logs s2_fails [])) = 2%nat
  /\ count_calls is_flow_programming
       (snd (run_multihop_nc_test 1 0 false 5 0 no_logs s2_fails [])) = 25%nat.
Proof.
  repeat split; try (vm_compute; reflexivity).
  intros e. vm_compute. discriminate.
Qed.

(** ** Cleanup of the run *)

(** C2, as the code has it.  Once the run has got past its setup (IPv6
    disabled, the network and the manager constructed, [create_topology]
    returned), every way out of the [try] block, with or without an
    exception, goes through the [finally] block, and the result of the run
    is the result of that block.  After its log line, [net.stop()] is always
    invoked; when it raises, nothing else is done and its error leaves the
    run; when it returns, [mgr.stop()] is invoked; when [net.stop()] and
    [mgr.stop()] have returned, the command that re-enables IPv6 on all
    interfaces is issued, and the one for the default when the first has
    returned; the run then ends normally unless that last command raises. *)
Theorem cleanup_after_setup SYMBOL_SIZE META_DATA_LEN ALL_FOWARD
    host_num profile coder_log_conf bk h hosts ev0 :
  run_setup host_num bk h = (Normal hosts, ev0) ->
  exists ev1,
    let stop := EvInfo ("*** Stopping network" ++ nl) in
    let ipv6_all := CheckOutput (SysctlW "net.ipv6.conf.all.disable_ipv6" 0) in
    let ipv6_default :=
      CheckOutput (SysctlW "net.ipv6.conf.default.disable_ipv6" 0) in
    let h1 := ((h ++ ev0) ++ ev1) ++ [stop] in
    let cleanup :=
      run_calls bk h1 [net_stop; mgr_stop; ipv6_all; ipv6_default] in
    run_multihop_nc_test SYMBOL_SIZE META_DATA_LEN ALL_FOWARD host_num profile
                         coder_log_conf bk h
    = (fst cleanup, ev0 ++ ev1 ++ stop :: snd cleanup)
    /\ (exists rest, snd cleanup = EvCall net_stop (bk h1 net_stop) :: rest)
    /\ (forall msg,
          bk h1 net_stop = Throws msg ->
          cleanup = (Raised (BackendError msg), [EvCall net_stop (Throws msg)]))
    /\ (forall out1 out2,
          bk h1 net_stop = Returns out1 ->
          bk (h1 ++ [EvCall net_stop (Returns out1)]) mgr_stop = Returns out2 ->
          let h3 := (h1 ++ [EvCall net_stop (Returns out1)])
                      ++ [EvCall mgr_stop (Returns out2)] in
          exists rest,
            snd cleanup
            = EvCall net_stop (Returns out1) :: EvCall mgr_stop (Returns out2)
                :: EvCall ipv6_all (bk h3 ipv6_all) :: rest
            /\ forall out3,
                 bk h3 ipv6_all = Returns out3 ->
                 rest
                 = [EvCall ipv6_default
                      (bk (h3 ++ [EvCall ipv6_all (Returns out3)])
                          ipv6_default)]
                 /\ fst cleanup
                    = match bk (h3 ++ [EvCall ipv6_all (Returns out3)])
                               ipv6_default with
                      | Returns _ => Normal tt
                      | Throws msg => Raised (BackendError msg)
                      end).
Proof.
  intros Hsetup.
  pose proof (run_outcome SYMBOL_SIZE META_DATA_LEN ALL_FOWARD host_num
                profile coder_log_conf bk h hosts ev0 Hsetup) as Hrun.
  cbv zeta in Hrun.
  match type of Hrun with
  | _ = (_, ev0 ++ ?mid ++ _) => exists mid
  end.
  intros stop ipv6_all ipv6_default h1 cleanup.
  split; [exact Hrun |]. subst cleanup. rewrite run_calls_cons.
  split; [| split].
  - destruct (bk h1 net_stop); eexists; reflexivity.
  - intros msg E. now rewrite E.
  - intros out1 out2 E1 E2 h3. rewrite E1. cbn [fst snd].
    rewrite run_calls_cons, E2. cbn [fst snd]. fold h3.
    rewrite run_calls_cons. destruct (bk h3 ipv6_all) as [o3 | m3].
    + cbn [fst snd]. eexists. split; [reflexivity |].
      intros out3 E3. injection E3 as ->. rewrite run_calls_cons.
      destruct (bk _ ipv6_default); split; reflexivity.
    + cbn [fst snd]. eexists. split; [reflexivity |].
      intros out3 E3. discriminate E3.
Qed.

Lemma cleanup_after_setup_witness :
  exists ev1,
    run_multihop_nc_test 1 0 false 5 0 no_logs ok_backend []
    = (Normal tt,
       snd (run_setup 5 ok_backend []) ++ ev1
         ++ [EvInfo ("*** Stopping network" ++ nl);
             EvCall net_stop (Returns "");
             EvCall mgr_stop (Returns "");
             EvCall (CheckOutput (SysctlW "net.ipv6.conf.all.disable_ipv6" 0))
               (Returns "");
             EvCall
               (CheckOutput (SysctlW "net.ipv6.conf.default.disable_ipv6" 0))
               (Returns "")]).
Proof.
  destruct (cleanup_after_setup 1 0 false 5 0 no_logs ok_backend []
              (Some (hosts_upto 5)) (snd (run_setup 5 ok_backend [])) eq_refl)
    as (ev1 & Hrun & _ & _ & Hrest).
  exists ev1. rewrite Hrun.
  destruct (Hrest "" "" eq_refl eq_refl) as (rest & Hev & Hlast).
  destruct (Hlast "" eq_refl) as [-> Hfst].
  rewrite Hev, Hfst. reflexivity.
Defined.

(** C2, as stated, fails.  With 4 hosts the run disables IPv6, constructs
    the network and the manager, and leaves with the configuration error:
    [net.stop()] is not invoked and IPv6 is not re-enabled. *)
Lemma short_chain_skips_cleanup :
  run_multihop_nc_test 1 0 false 4 0 no_logs ok_backend []
  = (Raised (RuntimeError "Require at least 5 hosts"),
     [EvCall (CheckOutput (SysctlW "net.ipv6.conf.all.disable_ipv6" 1))
        (Returns "");
      EvCall (CheckOutput (SysctlW "net.ipv6.conf.default.disable_ipv6" 1))
        (Returns "");
      EvCall Containernet_new (Returns "");
      EvCall VNFManager_new (Returns "")])
  /\ count_calls is_net_stop
       (snd (run_multihop_nc_test 1 0 false 4 0 no_logs ok_backend [])) = 0%nat
  /\ ~ In (CheckOutput (SysctlW "net.ipv6.conf.all.disable_ipv6" 0))
          (calls_of
             (snd (run_multihop_nc_test 1 0 false 4 0 no_logs ok_backend []))).
Proof.
  repeat split; try (vm_compute; reflexivity).
  vm_compute. intros [H | [H | [H | [H | []]]]]; discriminate.
Qed.

Lemma print_coders_log_quiet coders coder_log_conf bk h :
  quiet coder_log_conf ->
  print_coders_log coders coder_log_conf bk h = (Normal tt, []).
Proof.
  intros (Hr & Hd & He). destruct coders as [[encoder decoder] recoders].
  unfold print_coders_log. rewrite Hr, Hd, He. reflexivity.
Qed.

Lemma quiet_run_reads_no_log SYMBOL_SIZE META_DATA_LEN ALL_FOWARD host_num
    profile coder_log_conf :
  quiet coder_log_conf ->
  emits_only (avoids is_log_read)
    (run_multihop_nc_test SYMBOL_SIZE META_DATA_LEN ALL_FOWARD host_num
                          profile coder_log_conf).
Proof.
  intros Hq. unfold run_multihop_nc_test.
  apply emits_bind;
    [apply run_setup_avoids; exact log_read_outside_setup | intros hosts].
  apply emits_try_finally;
    [| apply run_cleanup_avoids; exact log_read_outside_setup].
  apply emits_try_except; [| intros e; avoiding].
  unfold run_experiment, add_ovs_flows, add_ovs_flows_body, get_ofport,
    disable_cksum_offload, sweep, variant, build_action_map.
  repeat first
    [ match goal with
      | |- emits_only _ (print_coders_log ?c coder_log_conf) =>
          intros bk h; rewrite (print_coders_log_quiet c _ bk h Hq);
          constructor
      | |- emits_only _ (deploy_coders _ _ _ _) =>
          unfold deploy_coders, deploy_recoder
      | |- emits_only _ (run_iperf_test _ _ _ _ _ _ _) =>
          unfold run_iperf_test
      | |- emits_only _ (remove_coders ?c) =>
          destruct c as [[? ?] ?]; unfold remove_coders
      end
    | apply emits_bind; [| intros ?]
    | apply emits_call; intros ?; reflexivity
    | apply emits_check_output; intros ?; reflexivity
    | apply emits_info; exact I
    | apply emits_print; exact I
    | apply emits_ret
    | apply emits_raise
    | apply emits_lift
    | apply emits_subscript
    | apply emits_slice
    | apply emits_py_len
    | apply emits_sleep; intros ?; reflexivity
    | apply emits_for_loop; intros ? ?
    | apply emits_for_each; intros ?
    | match goal with
      | |- emits_only _ (if ?b then _ else _) => destruct b
      end ].
Qed.

(** X9. A log configuration in which the keys [recoder], [decoder] and
    [encoder] are missing or hold [False] asks for nothing:
    [print_coders_log] then ends normally without any call and without any
    output, and a whole run never reads the log of a coder, whatever the
    backend does. *)
Theorem quiet_configuration coder_log_conf :
  quiet coder_log_conf ->
  (forall coders bk h,
     print_coders_log coders coder_log_conf bk h = (Normal tt, []))
  /\ (forall SYMBOL_SIZE META_DATA_LEN ALL_FOWARD host_num profile bk h,
        count_calls is_log_read
          (snd (run_multihop_nc_test SYMBOL_SIZE META_DATA_LEN ALL_FOWARD
                                     host_num profile coder_log_conf bk h))
        = 0%nat).
Proof.
  intros Hq. split.
  - intros coders bk h. now apply print_coders_log_quiet.
  - intros. apply count_avoided. now apply quiet_run_reads_no_log.
Qed.

Lemma quiet_configuration_witness :
  print_coders_log
    (mkContainer "encoder", mkContainer "decoder", [mkContainer "r"])
    [("decoder", false)] ok_backend []
  = (Normal tt, [])
  /\ count_calls is_log_read
       (snd (run_multihop_nc_test 1 0 false 5 0 [("decoder", false)]
                                  ok_backend [])) = 0%nat.
Proof.
  destruct (quiet_configuration [("decoder", false)]
              (conj eq_refl (conj eq_refl eq_refl))) as [Hprint Hrun].
  split; [apply Hprint | apply Hrun].
Defined.

(** X11. Only [add_ovs_flows] writes flow tables.  Turning checksum
    offloading off, the sweep with all its deployments, traffic runs and
    removals, and the cleanup of the run send no flush and no install
    command, whatever the backend does: the table of every switch is after
    them what it was before. *)
Theorem flow_tables_kept sw :
  (forall switch_num bk h,
     flow_table sw (h ++ snd (disable_cksum_offload switch_num bk h))
     = flow_table sw h)
  /\ (forall SYMBOL_SIZE META_DATA_LEN ALL_FOWARD hosts rec_st_idx relay_num
             coder_log_conf bk h,
        flow_table sw
          (h ++ snd (sweep SYMBOL_SIZE META_DATA_LEN ALL_FOWARD hosts
                           rec_st_idx relay_num coder_log_conf bk h))
        = flow_table sw h)
  /\ (forall bk h, flow_table sw (h ++ snd (run_cleanup bk h))
                   = flow_table sw h).
Proof.
  split; [| split]; intros;
    match goal with
    | |- flow_table sw (?h ++ snd (?m ?bk ?h)) = _ =>
        enough (E : emits_only (avoids is_flow_write) m)
          by exact (proj2 (flow_untouched sw _ (E bk h) h))
    end.
  - unfold disable_cksum_offload. avoiding.
  - unfold sweep, variant, build_action_map.
    repeat first
      [ match goal with
        | |- emits_only _ (print_coders_log ?c _) =>
            destruct c as [[? ?] ?]; unfold print_coders_log
        | |- emits_only _ (remove_coders ?c) =>
            destruct c as [[? ?] ?]; unfold remove_coders
        | |- emits_only _ (deploy_coders _ _ _ _) =>
            unfold deploy_coders, deploy_recoder
        | |- emits_only _ (run_iperf_test _ _ _ _ _ _ _) =>
            unfold run_iperf_test
        end
      | apply emits_bind; [| intros ?]
      | apply emits_call; intros ?; reflexivity
      | apply emits_check_output; intros ?; reflexivity
      | apply emits_info; exact I
      | apply emits_print; exact I
      | apply emits_ret
      | apply emits_raise
      | apply emits_lift
      | apply emits_subscript
      | apply emits_slice
      | apply emits_py_len
      | apply emits_sleep; intros ?; reflexivity
      | apply emits_for_loop; intros ? ?
      | apply emits_for_each; intros ?
      | match goal with
        | |- emits_only _ (if ?b then _ else _) => destruct b
        end ].
  - unfold run_cleanup, config_ipv6. avoiding.
Qed.

(** X13. The script as launched, with its 7 hosts and its log
    configuration of three [False] entries, with or without
    [--all_forward].  An exception leaves it only when a call of the setup
    or of the cleanup raises: that call is the last event of the run and
    its error is the exception; either the setup raised, and nothing else
    was run, or the run reached its cleanup and the exception is the error
    of the first of the four calls of the cleanup that raised.  So neither
    the host-count error nor any error of the experiment leaves the script.
    And it never reads the log of a coder. *)
Theorem main_run SYMBOL_SIZE META_DATA_LEN all_forward bk h :
  (forall e,
     fst (main SYMBOL_SIZE META_DATA_LEN all_forward bk h) = Raised e ->
     (exists pre c msg,
        snd (main SYMBOL_SIZE META_DATA_LEN all_forward bk h)
        = pre ++ [EvCall c (Throws msg)]
        /\ is_setup_call c = true /\ e = BackendError msg
        /\ bk (h ++ pre) c = Throws msg)
     /\ (run_setup 7 bk h
         = (Raised e, snd (main SYMBOL_SIZE META_DATA_LEN all_forward bk h))
         \/ exists ev1 tail,
              snd (main SYMBOL_SIZE META_DATA_LEN all_forward bk h)
              = ev1 ++ EvInfo ("*** Stopping network" ++ nl) :: tail
              /\ run_calls bk
                   ((h ++ ev1) ++ [EvInfo ("*** Stopping network" ++ nl)])
                   [net_stop; mgr_stop;
                    CheckOutput (SysctlW "net.ipv6.conf.all.disable_ipv6" 0);
                    CheckOutput
                      (SysctlW "net.ipv6.conf.default.disable_ipv6" 0)]
                 = (Raised e, tail)))
  /\ (forall msg,
        fst (main SYMBOL_SIZE META_DATA_LEN all_forward bk h)
        <> Raised (RuntimeError msg))
  /\ count_calls is_log_read
       (snd (main SYMBOL_SIZE META_DATA_LEN all_forward bk h)) = 0%nat.
Proof.
  assert (Hfails : forall e,
            fst (main SYMBOL_SIZE META_DATA_LEN all_forward bk h) = Raised e ->
            exists pre c msg,
              snd (main SYMBOL_SIZE META_DATA_LEN all_forward bk h)
              = pre ++ [EvCall c (Throws msg)]
              /\ is_setup_call c = true /\ e = BackendError msg
              /\ bk (h ++ pre) c = Throws msg).
  { intros e H.
    destruct (main SYMBOL_SIZE META_DATA_LEN all_forward bk h) as [r ev] eqn:E.
    cbn [fst snd] in *. subst r. unfold main in E.
    exact (run_fails _ _ _ 7 _ _ ltac:(lia) _ _ _ _ E). }
  split; [| split].
  - intros e H. split; [now apply Hfails |]. unfold main in *.
    destruct (run_setup 7 bk h) as [[hosts | e0] ev0] eqn:Es.
    + right.
      pose proof (run_outcome SYMBOL_SIZE META_DATA_LEN all_forward 7
                    PROFILES_mobile_recoder_deterministic
                    [("encoder", false); ("decoder", false);
                     ("recoder", false)] bk h hosts ev0 Es) as Hrun.
      cbv zeta in Hrun. rewrite Hrun in H |- *. cbn [fst snd] in *.
      match goal with
      | |- exists _ _, ev0 ++ ?mid ++ _ :: snd ?rc = _ /\ _ =>
          exists (ev0 ++ mid), (snd rc);
          split; [now rewrite <- !app_assoc |];
          rewrite (app_assoc h ev0 mid);
          change (run_calls bk (((h ++ ev0) ++ mid) ++ _) _) with rc;
          rewrite <- H; now destruct rc
      end.
    + left. unfold run_multihop_nc_test in H |- *.
      rewrite (bind_raised _ _ _ _ _ _ Es) in H |- *.
      cbn [fst snd] in *. now injection H as ->.
  - intros msg H. destruct (Hfails _ H) as (_ & _ & m & _ & _ & Hm & _).
    discriminate Hm.
  - apply count_avoided. unfold main. apply quiet_run_reads_no_log.
    repeat split.
Qed.

Lemma main_run_witness :
  (fst (main 1 0 false unreachable_backend [])
   = Raised (BackendError "unreachable")
   /\ run_setup 7 unreachable_backend []
      = (Raised (BackendError "unreachable"),
         snd (main 1 0 false unreachable_backend [])))
  /\ fst (main 1 0 false manager_stuck [])
     = Raised (BackendError "manager does not stop")
  /\ exists pre c msg,
       snd (main 1 0 false manager_stuck [])
       = pre ++ [EvCall c (Throws msg)]
       /\ is_setup_call c = true
       /\ BackendError "manager does not stop" = BackendError msg
       /\ manager_stuck pre c = Throws msg.
Proof.
  split; [| split].
  - split; [reflexivity |].
    destruct (proj2 (proj1 (main_run 1 0 false unreachable_backend [])
                       (BackendError "unreachable") eq_refl))
      as [H | (ev1 & tail & H & _)]; [exact H |].
    vm_compute in H. destruct ev1 as [| ? [| ? ?]]; discriminate H.
  - vm_compute. reflexivity.
  - exact (proj1 (proj1 (main_run 1 0 false manager_stuck [])
                    (BackendError "manager does not stop")
                    ltac:(vm_compute; reflexivity))).
Defined.

(** ** The traffic run in UDP mode *)

(** X14. The client runs in the foreground only for the exact protocol
    names ["UDP"] and ["udp"]: for these, and for no other spelling, the
    suffix of the client command is empty.  The command then ends with the
    flag [-u], and when the caller asks for the client log the report
    printed last is what the backend returned for that command. *)
Theorem udp_client_report SYMBOL_SIZE META_DATA_LEN h_clt h_srv proto time
    bk h ev :
  (p_suffix (iperf_client_para SYMBOL_SIZE META_DATA_LEN h_srv proto time) = ""
   <-> proto = "UDP" \/ proto = "udp")
  /\ (proto = "UDP" \/ proto = "udp" ->
      iperf_clt_cmd
        (iperf_client_para SYMBOL_SIZE META_DATA_LEN h_srv proto time)
      = ("iperf -c " ++ IP h_srv ++ " -p 9999 -t " ++ str time
           ++ " -i 1 -b 50K -l " ++ str (SYMBOL_SIZE - META_DATA_LEN)
           ++ " -u ")%string
      /\ (run_iperf_test SYMBOL_SIZE META_DATA_LEN h_clt h_srv proto time true
                         bk h = (Normal tt, ev) ->
          exists ev0 report out,
            bk (h ++ ev0)
               (host_cmd (name h_clt)
                  (iperf_clt_cmd
                     (iperf_client_para SYMBOL_SIZE META_DATA_LEN h_srv
                                        proto time)))
            = Returns report
            /\ ev = ev0
                    ++ [EvCall
                          (host_cmd (name h_clt)
                             (iperf_clt_cmd
                                (iperf_client_para SYMBOL_SIZE META_DATA_LEN
                                                   h_srv proto time)))
                          (Returns report);
                        EvInfo ("*** Output of Iperf server:" ++ nl);
                        EvCall
                          (host_cmd (name h_srv) "cat /tmp/iperf_server.log")
                          (Returns out);
                        EvPrint out;
                        EvInfo ("*** Output of Iperf client:" ++ nl);
                        EvPrint report])).
Proof.
  assert (Hiff : String.eqb proto "UDP" || String.eqb proto "udp" = true
                 <-> proto = "UDP" \/ proto = "udp").
  { rewrite orb_true_iff, !String.eqb_eq. reflexivity. }
  split.
  - rewrite para_suffix, <- Hiff.
    destruct (String.eqb proto "UDP" || String.eqb proto "udp"); split;
      congruence.
  - intros Hudp. apply Hiff in Hudp. split.
    + rewrite iperf_clt_cmd_text, para_suffix, Hudp. reflexivity.
    + intros Hrun. apply run_iperf_test_normal in Hrun.
      destruct Hrun as (ev0 & report & out & Hreport & ->).
      exists ev0, report, out. split; [exact Hreport | reflexivity].
Qed.

Lemma udp_client_report_witness :
  iperf_clt_cmd (iperf_client_para 100 4 (hop_host 6) "udp" 30)
  = "iperf -c 10.0.0.7 -p 9999 -t 30 -i 1 -b 50K -l 96 -u "
  /\ p_suffix (iperf_client_para 100 4 (hop_host 6) "Udp" 30) <> "".
Proof.
  destruct (udp_client_report 100 4 (hop_host 0) (hop_host 6) "udp" 30
              ok_backend [] []) as [_ Hudp].
  destruct (udp_client_report 100 4 (hop_host 0) (hop_host 6) "Udp" 30
              ok_backend [] []) as [Hiff _].
  split.
  - exact (proj1 (Hudp (or_intror eq_refl))).
  - intros H. apply Hiff in H. destruct H; discriminate.
Defined.

(** ** The variants of a sweep *)

Section Variants.

Variables SYMBOL_SIZE META_DATA_LEN : Z.
Variable ALL_FOWARD : bool.
Variable hosts : option (list Host).
Variables rec_st_idx relay_num : Z.
Variable coder_log_conf : list (string * bool).

Let run_variant :=
  variant SYMBOL_SIZE META_DATA_LEN ALL_FOWARD hosts rec_st_idx relay_num
          coder_log_conf.

Lemma print_coders_log_keeps coders :
  emits_only (avoids is_container_change)
             (print_coders_log coders coder_log_conf).
Proof.
  destruct coders as [[encoder decoder] recoders]. unfold print_coders_log.
  avoiding.
Qed.

Lemma run_iperf_test_keeps h_clt h_srv proto time print_clt_log :
  emits_only (avoids is_container_change)
             (run_iperf_test SYMBOL_SIZE META_DATA_LEN h_clt h_srv proto time
                             print_clt_log).
Proof. unfold run_iperf_test. avoiding. Qed.

(** A variant that completes, taken apart: the action map, its log line,
    the deployment, steps that launch and remove nothing, the removal. *)
Lemma variant_normal_inv i u bk h c u' ev :
  run_variant i u bk h = (Normal (c, u'), ev) ->
  exists action_map coders ev1 mid u2 ev2,
    build_action_map ALL_FOWARD relay_num i bk h = (Normal action_map, [])
    /\ deploy_coders hosts rec_st_idx relay_num action_map bk
                     (h ++ [variant_log relay_num action_map])
       = (Normal coders, ev1)
    /\ Forall (avoids is_container_change) mid
    /\ remove_coders coders bk
                     (((h ++ [variant_log relay_num action_map]) ++ ev1) ++ mid)
       = (Normal u2, ev2)
    /\ ev = variant_log relay_num action_map :: ev1 ++ mid ++ ev2
    /\ c = (if ALL_FOWARD then Break else Next).
Proof.
  unfold run_variant, variant. intros H.
  apply bind_normal_inv in H. destruct H as (am & e0 & r0 & Hmap & H & ->).
  assert (e0 = []) as ->.
  { pose proof (build_action_map_silent ALL_FOWARD relay_num i bk h) as S.
    now rewrite Hmap in S. }
  rewrite app_nil_r in H.
  apply bind_normal_inv in H. destruct H as ([] & e1 & r1 & Hinfo & H & ->).
  apply info_normal_inv in Hinfo. subst e1.
  apply bind_normal_inv in H. destruct H as (coders & ev1 & r2 & Hdeploy & H & ->).
  apply bind_normal_inv in H. destruct H as ([] & es & r3 & Hsleep & H & ->).
  apply bind_normal_inv in H. destruct H as (h_clt & ec & r4 & Hclt & H & ->).
  apply bind_normal_inv in H. destruct H as (h_srv & esv & r5 & Hsrv & H & ->).
  apply bind_normal_inv in H. destruct H as ([] & ei & r6 & Hiperf & H & ->).
  apply bind_normal_inv in H. destruct H as ([] & el & r7 & Hlogs & H & ->).
  apply bind_normal_inv in H. destruct H as (u2 & ev2 & r8 & Hremove & H & ->).
  exists am, coders, ev1, (es ++ ec ++ esv ++ ei ++ el), u2, ev2.
  split; [exact Hmap |]. split; [exact Hdeploy |]. split.
  { apply sleep_normal_inv in Hsleep. destruct Hsleep as [_ [out ->]].
    apply subscript_normal_inv in Hclt. destruct Hclt as (? & _ & _ & ->).
    apply subscript_normal_inv in Hsrv. destruct Hsrv as (? & _ & _ & ->).
    match type of Hiperf with
    | _ _ _ _ _ _ _ _ _ ?h' = _ =>
        pose proof (run_iperf_test_keeps h_clt h_srv "udp" 30 false bk h')
          as Hi
    end.
    rewrite Hiperf in Hi.
    match type of Hlogs with
    | _ _ _ _ ?h' = _ =>
        pose proof (print_coders_log_keeps coders bk h') as Hl
    end.
    rewrite Hlogs in Hl. cbn [snd] in Hi, Hl.
    repeat (apply Forall_app; split); auto. repeat constructor. }
  split; [rewrite <- !app_assoc in *; exact Hremove |].
  split.
  - unfold variant_log. cbn [app]. f_equal.
    destruct ALL_FOWARD; apply ret_normal_inv in H; destruct H as [_ ->];
      now rewrite <- !app_assoc, app_nil_r.
  - destruct ALL_FOWARD; apply ret_normal_inv in H; destruct H as [H _];
      congruence.
Qed.

(** A variant that completes leaves with the manager the containers it
    found that do not bear the name of one of its coders. *)
Lemma variant_running i u bk h c u' ev :
  run_variant i u bk h = (Normal (c, u'), ev) ->
  running (h ++ ev)
  = filter (kept ("encoder" :: "decoder"
                    :: map recoder_name
                           (range2 rec_st_idx (rec_st_idx + relay_num))))
           (running h).
Proof.
  intros H. apply variant_normal_inv in H.
  destruct H as (am & coders & ev1 & mid & u2 & ev2 & _ & Hdeploy & Hmid
                 & Hremove & -> & _).
  destruct (deploy_remove_running _ _ _ _ _ _ _ _ _ _ _ Hdeploy Hmid Hremove)
    as (_ & Hend & _).
  apply deploy_coders_normal in Hdeploy.
  destruct Hdeploy as (_ & _ & _ & _ & _ & _ & _ & _ & _ & _ & ->).
  replace (h ++ variant_log relay_num am :: ev1 ++ mid ++ ev2)
    with ((((h ++ [variant_log relay_num am]) ++ ev1) ++ mid) ++ ev2)
    by (rewrite <- !app_assoc; reflexivity).
  rewrite Hend, running_app. cbn [coder_names container_name].
  now rewrite map_map.
Qed.

Lemma sweep_loop_running l : forall u bk h u' ev,
  for_loop l u run_variant bk h = (Normal u', ev) ->
  running h = [] -> running (h ++ ev) = [].
Proof.
  induction l as [| i t IH]; intros u bk h u' ev H Hnone.
  - cbn [for_loop] in H. apply ret_normal_inv in H. destruct H as [_ ->].
    now rewrite app_nil_r.
  - apply for_loop_normal_inv in H.
    destruct H as (c & u1 & e1 & e2 & Hbody & -> & Hrest).
    pose proof (variant_running _ _ _ _ _ _ _ Hbody) as Hrun.
    rewrite Hnone in Hrun. cbn [filter] in Hrun.
    rewrite app_assoc. destruct c.
    + exact (IH _ _ _ _ _ Hrest Hrun).
    + destruct Hrest as [_ ->]. now rewrite app_nil_r.
Qed.

(** A variant logs its action map once, first of all. *)
Lemma variant_logs_map i u bk h action_map :
  build_action_map ALL_FOWARD relay_num i bk h = (Normal action_map, []) ->
  filter is_variant_log (snd (run_variant i u bk h))
  = [variant_log relay_num action_map].
Proof.
  intros Hmap. unfold run_variant, variant.
  rewrite (bind_normal _ _ _ _ _ _ Hmap). cbn [snd app].
  rewrite bind_info_events. cbn [filter is_variant_log].
  rewrite prefix_append.
  unfold variant_log. f_equal. apply filter_none.
  match goal with |- Forall _ (snd (?m bk ?h')) =>
    enough (E : emits_only not_variant_log m) by exact (E bk h') end.
  emits;
    first [ apply deploy_coders_no_variant_log
          | apply run_iperf_test_no_variant_log
          | apply print_coders_log_no_variant_log
          | apply remove_coders_no_variant_log ].
Qed.

End Variants.

(** X16. A sweep that completes leaves no container behind.  Each variant
    that completes has removed every container it launched before the next
    one starts: the manager holds after it what it held before, less the
    containers that bear the name of one of the coders of the variant, which
    are [encoder], [decoder] and [recoder_on_h{i+1}] for each host index [i]
    of [rec_st_idx, rec_st_idx + relay_num); so a sweep entered with nothing
    running ends with nothing running. *)
Theorem sweep_releases_containers SYMBOL_SIZE META_DATA_LEN ALL_FOWARD hosts
    rec_st_idx relay_num coder_log_conf bk h :
  (forall i u c u' ev,
     variant SYMBOL_SIZE META_DATA_LEN ALL_FOWARD hosts rec_st_idx relay_num
             coder_log_conf i u bk h = (Normal (c, u'), ev) ->
     running (h ++ ev)
     = filter
         (kept ("encoder" :: "decoder"
                  :: map (fun i => ("recoder_on_h" ++ str (i + 1))%string)
                         (range2 rec_st_idx (rec_st_idx + relay_num))))
         (running h))
  /\ (forall u ev,
        sweep SYMBOL_SIZE META_DATA_LEN ALL_FOWARD hosts rec_st_idx relay_num
              coder_log_conf bk h = (Normal u, ev) ->
        running h = [] -> running (h ++ ev) = []).
Proof.
  split.
  - intros i u c u' ev H. exact (variant_running _ _ _ _ _ _ _ _ _ _ _ _ _ _ H).
  - intros u ev H. exact (sweep_loop_running _ _ _ _ _ _ _ _ _ _ _ _ _ H).
Qed.

Lemma sweep_releases_containers_witness :
  running (snd (sweep 1 0 false (Some (hosts_upto 7)) 2 3 no_logs
                      ok_backend [])) = []
  /\ running
       ([EvCall (addContainer "spare" "h1" "nc_coder" "sleep 1" 3)
           (Returns "");
         EvCall (addContainer "decoder" "h6" "nc_coder" "sleep 1" 3)
           (Returns "")]
          ++ snd (variant 1 0 false (Some (hosts_upto 7)) 2 3 no_logs 0 tt
                          ok_backend
                          [EvCall (addContainer "spare" "h1" "nc_coder"
                                     "sleep 1" 3) (Returns "");
                           EvCall (addContainer "decoder" "h6" "nc_coder"
                                     "sleep 1" 3) (Returns "")]))
     = ["spare"].
Proof.
  destruct (sweep_releases_containers 1 0 false (Some (hosts_upto 7)) 2 3
              no_logs ok_backend []) as [_ H].
  split.
  - exact (H tt (snd (sweep 1 0 false (Some (hosts_upto 7)) 2 3 no_logs
                            ok_backend [])) eq_refl eq_refl).
  - exact (proj1 (sweep_releases_containers 1 0 false (Some (hosts_upto 7)) 2
                    3 no_logs ok_backend
                    [EvCall (addContainer "spare" "h1" "nc_coder" "sleep 1" 3)
                       (Returns "");
                     EvCall (addContainer "decoder" "h6" "nc_coder" "sleep 1" 3)
                       (Returns "")])
                 0 tt Next tt _ eq_refl).
Defined.

(** ** The sweep on a reliable backend *)

Lemma through_bind_value {A B : Type} (m : M A) (f : A -> M B) a :
  (forall bk h, exists ev, m bk h = (Normal a, ev)) ->
  goes_through (f a) -> goes_through (bind m f).
Proof.
  intros Hm Hf bk h Hbk. destruct (Hm bk h) as (e1 & E1).
  destruct (Hf bk (h ++ e1) Hbk) as (b & e2 & E2).
  exists b, (e1 ++ e2). rewrite (bind_normal _ _ _ _ _ _ E1), E2. reflexivity.
Qed.

Lemma build_action_map_step relay_num k bk h :
  0 <= k < relay_num ->
  build_action_map false relay_num k bk h
  = (Normal (step_map relay_num k), []).
Proof.
  intros Hk. unfold build_action_map, py_setitem, step_map. cbn [negb].
  assert (Hlen : len (repeat "forward" (Z.to_nat relay_num)) = relay_num)
    by (unfold len; rewrite repeat_length; lia).
  rewrite Hlen. destruct (Z.ltb_spec k 0); [lia |].
  destruct (Z.ltb_spec k relay_num); [reflexivity | lia].
Qed.

Lemma step_map_length relay_num k :
  0 <= relay_num -> len (step_map relay_num k) = relay_num.
Proof.
  intros H. unfold len, step_map. rewrite replace_nth_length, repeat_length.
  lia.
Qed.

Lemma run_iperf_test_goes_through SYMBOL_SIZE META_DATA_LEN h_clt h_srv proto
    time print_clt_log :
  goes_through (run_iperf_test SYMBOL_SIZE META_DATA_LEN h_clt h_srv proto
                               time print_clt_log).
Proof. unfold run_iperf_test. through. Qed.

Lemma print_coders_log_goes_through coders coder_log_conf :
  goes_through (print_coders_log coders coder_log_conf).
Proof.
  destruct coders as [[encoder decoder] recoders]. unfold print_coders_log.
  through; apply through_for_each; intros r _; through.
Qed.

Lemma remove_coders_goes_through coders : goes_through (remove_coders coders).
Proof.
  destruct coders as [[encoder decoder] recoders]. unfold remove_coders.
  through. apply through_for_each. intros r _. through.
Qed.

(** On a reliable backend, with the relays from host index 2 on and four
    hosts more than relays, every variant of the sweep goes through. *)
Lemma variant_goes_through SYMBOL_SIZE META_DATA_LEN ALL_FOWARD hs relay_num
    coder_log_conf k u :
  0 <= relay_num -> relay_num + 4 <= len hs ->
  ALL_FOWARD = true \/ 0 <= k < relay_num ->
  goes_through (variant SYMBOL_SIZE META_DATA_LEN ALL_FOWARD (Some hs) 2
                        relay_num coder_log_conf k u).
Proof.
  intros Hn Hhs Hk. unfold variant.
  assert (Hmap : exists action_map,
             len action_map = relay_num
             /\ forall bk h,
                  build_action_map ALL_FOWARD relay_num k bk h
                  = (Normal action_map, [])).
  { destruct ALL_FOWARD.
    - exists (repeat "forward" (Z.to_nat relay_num)). split; [| reflexivity].
      unfold len. rewrite repeat_length. lia.
    - destruct Hk as [Hk | Hk]; [discriminate |].
      exists (step_map relay_num k). split; [now apply step_map_length |].
      intros bk h. now apply build_action_map_step. }
  destruct Hmap as (action_map & Hlen & Hmap).
  apply (through_bind_value _ _ action_map); [intros bk h; eauto |].
  apply through_bind; [apply through_info | intros _].
  apply through_bind; [now apply deploy_coders_goes_through | intros coders].
  apply through_bind; [apply through_sleep; lia | intros _].
  unfold subscript.
  destruct (py_index_some hs 0 ltac:(lia)) as [h_clt E0].
  destruct (py_index_some hs (-1) ltac:(lia)) as [h_srv E1].
  rewrite E0, E1. cbn [lift].
  apply through_bind; [apply through_ret | intros ?].
  apply through_bind; [apply through_ret | intros ?].
  apply through_bind; [apply run_iperf_test_goes_through | intros _].
  apply through_bind; [apply print_coders_log_goes_through | intros _].
  apply through_bind; [apply remove_coders_goes_through | intros _].
  destruct ALL_FOWARD; apply through_ret.
Qed.

Lemma sweep_loop_visits SYMBOL_SIZE META_DATA_LEN hs relay_num coder_log_conf
    bk l :
  reliable bk -> 0 <= relay_num -> relay_num + 4 <= len hs ->
  (forall k, In k l -> 0 <= k < relay_num) ->
  forall u h,
    exists ev,
      for_loop l u
               (variant SYMBOL_SIZE META_DATA_LEN false (Some hs) 2 relay_num
                        coder_log_conf) bk h = (Normal tt, ev)
      /\ filter is_variant_log ev
         = map (fun k => variant_log relay_num (step_map relay_num k)) l.
Proof.
  intros Hbk Hn Hhs. induction l as [| k t IH]; intros Hl u h.
  - destruct u. now exists [].
  - assert (Hk : 0 <= k < relay_num) by (apply Hl; now left).
    destruct (variant_goes_through SYMBOL_SIZE META_DATA_LEN false hs
                relay_num coder_log_conf k u Hn Hhs (or_intror Hk) bk h Hbk)
      as ([c u1] & e1 & E1).
    pose proof (variant_logs_map SYMBOL_SIZE META_DATA_LEN false (Some hs) 2
                  relay_num coder_log_conf k u bk h _
                  (build_action_map_step relay_num k bk h Hk)) as Hlog.
    rewrite E1 in Hlog. cbn [snd] in Hlog.
    pose proof E1 as E1'. apply variant_normal_inv in E1'.
    destruct E1' as (_ & _ & _ & _ & _ & _ & _ & _ & _ & _ & _ & ->).
    destruct (IH (fun k' H' => Hl k' (or_intror H')) u1 (h ++ e1))
      as (e2 & E2 & Hlogs).
    exists (e1 ++ e2). split.
    + rewrite for_loop_cons, (bind_normal _ _ _ _ _ _ E1). cbv beta iota.
      now rewrite E2.
    + rewrite filter_app, Hlog, Hlogs. reflexivity.
Qed.

(** X15. On a backend on which no call raises, with all-forward mode off,
    the relays from host index 2 on and at least four hosts more than
    relays, the sweep ends normally after one variant per relay, in the
    order of the relays: the action maps it logs are, for [k = 0 ..
    relay_num - 1], the map in which relay [k] alone recodes. *)
Theorem sweep_visits_each_relay SYMBOL_SIZE META_DATA_LEN hs relay_num
    coder_log_conf bk h :
  reliable bk -> 0 <= relay_num -> relay_num + 4 <= len hs ->
  exists ev,
    sweep SYMBOL_SIZE META_DATA_LEN false (Some hs) 2 relay_num
          coder_log_conf bk h = (Normal tt, ev)
    /\ filter is_variant_log ev
       = map (fun k => variant_log relay_num (step_map relay_num k))
             (range relay_num)
    /\ len (filter is_variant_log ev) = relay_num.
Proof.
  intros Hbk Hn Hhs.
  destruct (sweep_loop_visits SYMBOL_SIZE META_DATA_LEN hs relay_num
              coder_log_conf bk (range relay_num) Hbk Hn Hhs
              (fun k H => proj1 (range_In relay_num k) H) tt h)
    as (ev & E & Hlogs).
  exists ev. split; [exact E |]. split; [exact Hlogs |].
  rewrite Hlogs. unfold len. rewrite length_map. now apply range_length.
Qed.

Lemma sweep_visits_each_relay_witness :
  exists ev,
    sweep 1 0 false (Some (hosts_upto 7)) 2 3 no_logs ok_backend []
    = (Normal tt, ev)
    /\ filter is_variant_log ev
       = [variant_log 3 ["recode"; "forward"; "forward"];
          variant_log 3 ["forward"; "recode"; "forward"];
          variant_log 3 ["forward"; "forward"; "recode"]].
Proof.
  destruct (sweep_visits_each_relay 1 0 (hosts_upto 7) 3 no_logs ok_backend []
              reliable_ok ltac:(lia) ltac:(vm_compute; discriminate))
    as (ev & E & Hlogs & _).
  exists ev. split; [exact E | exact Hlogs].
Defined.

(** ** A run on a reliable backend *)

Lemma run_experiment_no_error SYMBOL_SIZE META_DATA_LEN ALL_FOWARD hosts
    host_num profile coder_log_conf :
  emits_only not_error
    (run_experiment SYMBOL_SIZE META_DATA_LEN ALL_FOWARD hosts host_num
                    profile coder_log_conf).
Proof.
  unfold run_experiment, add_ovs_flows, add_ovs_flows_body, get_ofport,
    disable_cksum_offload, sweep, variant, build_action_map.
  emits_with ltac:(exact I).
Qed.

Lemma container_change_outside_setup : outside_setup is_container_change.
Proof.
  intros c H.
  destruct c as [[] | | | | | | | | | | | | | | |]; try discriminate H;
    reflexivity.
Qed.

(** On a reliable backend the setup of a run with 5 hosts or more returns
    the hosts of the chain and logs no error. *)
Lemma run_setup_reliable host_num bk h :
  reliable bk -> 5 <= host_num ->
  exists ev0,
    run_setup host_num bk h = (Normal (Some (hosts_upto host_num)), ev0)
    /\ Forall not_error ev0.
Proof.
  intros Hbk Hn. unfold run_setup.
  assert (H1 : goes_through (config_ipv6 "disable"))
    by (unfold config_ipv6; through).
  destruct (H1 bk h Hbk) as (a1 & e1 & E1).
  destruct (through_call Containernet_new bk (h ++ e1) Hbk) as (a2 & e2 & E2).
  destruct (through_call VNFManager_new bk ((h ++ e1) ++ e2) Hbk)
    as (a3 & e3 & E3).
  destruct (assemble_goes_through host_num bk (((h ++ e1) ++ e2) ++ e3) Hbk)
    as (hs & e4 & E4).
  pose proof (create_topology_normal _ _ _ _ _ Hn E4) as E5.
  pose proof (proj1 (assemble_normal _ _ _ _ _ E4)) as Hhs. subst hs.
  exists (e1 ++ e2 ++ e3 ++ e4). split.
  - rewrite (bind_normal _ _ _ _ _ _ E1), (bind_normal _ _ _ _ _ _ E2),
      (bind_normal _ _ _ _ _ _ E3), E5. reflexivity.
  - assert (F1 : emits_only not_error (config_ipv6 "disable"))
      by (unfold config_ipv6; emits_with ltac:(exact I)).
    assert (F2 : forall c, emits_only not_error (call c))
      by (intros c; emits_with ltac:(exact I)).
    assert (F4 : emits_only not_error (assemble host_num))
      by (unfold assemble; emits_with ltac:(exact I)).
    specialize (F1 bk h). rewrite E1 in F1.
    pose proof (F2 Containernet_new bk (h ++ e1)) as F2'. rewrite E2 in F2'.
    pose proof (F2 VNFManager_new bk ((h ++ e1) ++ e2)) as F3.
    rewrite E3 in F3.
    specialize (F4 bk (((h ++ e1) ++ e2) ++ e3)). rewrite E4 in F4.
    repeat (apply Forall_app; split); assumption.
Qed.

Lemma run_experiment_passes SYMBOL_SIZE META_DATA_LEN ALL_FOWARD hs
    host_num profile coder_log_conf bk :
  reliable bk -> plain_ports bk -> 5 <= host_num -> len hs = host_num ->
  passes bk (run_experiment SYMBOL_SIZE META_DATA_LEN ALL_FOWARD (Some hs)
                            host_num profile coder_log_conf).
Proof.
  intros Hbk Hports Hn Hhs. unfold run_experiment.
  assert (Hthrough : forall (A : Type) (m : M A), goes_through m -> passes bk m)
    by (intros A m; now apply passes_through).
  apply passes_seq; [apply Hthrough, through_info | intros _].
  apply passes_seq; [apply Hthrough, through_call | intros _].
  apply passes_seq; [apply Hthrough, through_info | intros _].
  apply passes_seq; [now apply add_ovs_flows_passes | intros _].
  apply passes_seq; [apply Hthrough, through_info | intros _].
  apply passes_seq.
  { apply Hthrough. unfold disable_cksum_offload. apply through_for_each.
    intros i _. cbv zeta. through. }
  intros _. apply passes_seq; [| intros _; apply Hthrough, through_info].
  destruct (profile =? PROFILES_mobile_recoder_deterministic);
    [| apply Hthrough, through_ret].
  apply passes_seq; [apply Hthrough, through_info | intros _].
  apply Hthrough. unfold sweep. apply through_for_loop. intros k u Hk.
  apply range_In in Hk. apply variant_goes_through; lia.
Qed.

(** An experiment that completes leaves no container behind. *)
Lemma run_experiment_running SYMBOL_SIZE META_DATA_LEN ALL_FOWARD hosts
    host_num profile coder_log_conf bk h u ev :
  run_experiment SYMBOL_SIZE META_DATA_LEN ALL_FOWARD hosts host_num profile
                 coder_log_conf bk h = (Normal u, ev) ->
  running h = [] -> running (h ++ ev) = [].
Proof.
  unfold run_experiment. intros H Hnone.
  assert (Hkeep : forall (m : M unit) h' u' e,
             emits_only (avoids is_container_change) m ->
             m bk h' = (Normal u', e) ->
             running h' = [] -> running (h' ++ e) = []).
  { intros m h' u' e Hm E Hr. specialize (Hm bk h'). rewrite E in Hm.
    now rewrite running_app, (running_untouched _ Hm). }
  assert (Hcall : forall c h' out e,
             is_container_change c = false ->
             call c bk h' = (Normal out, e) ->
             running h' = [] -> running (h' ++ e) = []).
  { intros c h' out e Hc E Hr.
    pose proof (emits_call (avoids is_container_change) c (fun _ => Hc) bk h')
      as Hm.
    rewrite E in Hm. now rewrite running_app, (running_untouched _ Hm). }
  apply bind_normal_inv in H. destruct H as (? & e1 & ? & H1 & H & ->).
  apply (Hkeep _ _ _ _ (emits_info _ _ I)) in H1; [| exact Hnone].
  apply bind_normal_inv in H. destruct H as (? & e2 & ? & H2 & H & ->).
  apply (Hcall net_start _ _ _ eq_refl) in H2; [| exact H1].
  apply bind_normal_inv in H. destruct H as (? & e3 & ? & H3 & H & ->).
  apply (Hkeep _ _ _ _ (emits_info _ _ I)) in H3; [| exact H2].
  apply bind_normal_inv in H. destruct H as (? & e4 & ? & H4 & H & ->).
  apply Hkeep in H4; [| | exact H3].
  2:{ unfold add_ovs_flows, add_ovs_flows_body, get_ofport.
      emits_with ltac:(reflexivity || exact I). }
  apply bind_normal_inv in H. destruct H as (? & e5 & ? & H5 & H & ->).
  apply (Hkeep _ _ _ _ (emits_info _ _ I)) in H5; [| exact H4].
  apply bind_normal_inv in H. destruct H as (? & e6 & ? & H6 & H & ->).
  apply Hkeep in H6; [| | exact H5].
  2:{ unfold disable_cksum_offload. emits_with ltac:(reflexivity || exact I). }
  apply bind_normal_inv in H. destruct H as (? & e7 & e8 & H7 & H & ->).
  assert (H7' : running ((((((h ++ e1) ++ e2) ++ e3) ++ e4) ++ e5) ++ e6 ++ e7)
                = []).
  { destruct (profile =? PROFILES_mobile_recoder_deterministic).
    - apply bind_normal_inv in H7. destruct H7 as (? & e9 & e10 & H9 & H7 & ->).
      apply (Hkeep _ _ _ _ (emits_info _ _ I)) in H9; [| exact H6].
      unfold sweep in H7.
      apply (sweep_loop_running _ _ _ _ _ _ _ _ _ _ _ _ _ H7) in H9.
      now rewrite <- !app_assoc in *.
    - apply ret_normal_inv in H7. destruct H7 as [_ ->].
      now rewrite app_nil_r. }
  apply (Hkeep _ _ _ _ (emits_info _ _ I)) in H.
  - now rewrite <- !app_assoc in *.
  - now rewrite <- !app_assoc in *.
Qed.

(** X17. On a backend on which no call raises and whose port texts hold
    no quote and no backslash, a run with 5 hosts or more ends normally, in
    every profile and in both sweep modes, without logging any error, and
    leaves with the manager no container that was not there before. *)
Theorem reliable_run SYMBOL_SIZE META_DATA_LEN ALL_FOWARD host_num profile
    coder_log_conf bk h :
  reliable bk -> plain_ports bk -> 5 <= host_num ->
  exists ev,
    run_multihop_nc_test SYMBOL_SIZE META_DATA_LEN ALL_FOWARD host_num
                         profile coder_log_conf bk h = (Normal tt, ev)
    /\ Forall not_error ev
    /\ (running h = [] -> running (h ++ ev) = []).
Proof.
  intros Hbk Hports Hn.
  destruct (run_setup_reliable host_num bk h Hbk Hn) as (ev0 & Hs & Herr0).
  assert (Hlen : len (hosts_upto host_num) = host_num).
  { unfold len, hosts_upto. rewrite length_map. apply range_length. lia. }
  destruct (run_experiment_passes SYMBOL_SIZE META_DATA_LEN ALL_FOWARD
              (hosts_upto host_num) host_num profile coder_log_conf bk
              Hbk Hports Hn Hlen (h ++ ev0)) as ([] & ev1 & E1).
  destruct (run_cleanup_returns bk ((h ++ ev0) ++ ev1) (Hbk _) (Hbk _)
              (Hbk _) (Hbk _)) as [ev2 E2].
  exists (ev0 ++ ev1 ++ ev2). split; [| split].
  - unfold run_multihop_nc_test. rewrite (bind_normal _ _ _ _ _ _ Hs).
    match goal with
    | |- context [try_finally ?G run_cleanup bk (h ++ ev0)] =>
        assert (HG : G bk (h ++ ev0) = (Normal tt, ev1))
          by (unfold try_except; now rewrite E1);
        rewrite (try_finally_normal G run_cleanup bk (h ++ ev0) tt ev2)
          by (rewrite HG; exact E2);
        rewrite HG
    end.
    reflexivity.
  - pose proof (run_experiment_no_error SYMBOL_SIZE META_DATA_LEN ALL_FOWARD
                  (Some (hosts_upto host_num)) host_num profile coder_log_conf
                  bk (h ++ ev0)) as Herr1.
    rewrite E1 in Herr1.
    assert (Herr2 : emits_only not_error run_cleanup)
      by (unfold run_cleanup, config_ipv6; emits_with ltac:(exact I)).
    specialize (Herr2 bk ((h ++ ev0) ++ ev1)). rewrite E2 in Herr2.
    repeat (apply Forall_app; split); assumption.
  - intros Hnone.
    pose proof (run_setup_avoids is_container_change host_num
                  container_change_outside_setup bk h) as K0.
    rewrite Hs in K0. cbn [snd] in K0.
    pose proof (run_cleanup_avoids is_container_change
                  container_change_outside_setup bk ((h ++ ev0) ++ ev1)) as K2.
    rewrite E2 in K2. cbn [snd] in K2.
    assert (R0 : running (h ++ ev0) = [])
      by now rewrite running_app, (running_untouched _ K0).
    pose proof (run_experiment_running _ _ _ _ _ _ _ _ _ _ _ E1 R0) as R1.
    rewrite !app_assoc, running_app, (running_untouched _ K2). exact R1.
Qed.

Lemma reliable_run_witness :
  exists ev,
    run_multihop_nc_test 1 0 false 7 0 no_logs ok_backend [] = (Normal tt, ev)
    /\ Forall not_error ev
    /\ running ev = [].
Proof.
  destruct (reliable_run 1 0 false 7 0 no_logs ok_backend [] reliable_ok
              plain_ports_ok ltac:(lia)) as (ev & E & Herr & Hrun).
  exists ev. split; [exact E |]. split; [exact Herr | exact (Hrun eq_refl)].
Defined.

(** ** A port text that breaks the quotation *)

Lemma lex_plain_raises s e : plain s = true ->
  forall rest,
    (forall st token quoted,
       word_state st -> lex rest st token quoted = Raised e) ->
    forall st token quoted,
      word_state st -> lex (s ++ rest) st token quoted = Raised e.
Proof.
  induction s as [| c s IH]; intros Hs rest Hrest st token quoted Hst;
    [now apply Hrest |].
  cbn [plain] in Hs. apply andb_true_iff in Hs. destruct Hs as [Hc Hs].
  apply andb_true_iff in Hc. destruct Hc as [Hq He].
  apply negb_true_iff in Hq, He.
  specialize (IH Hs rest Hrest).
  destruct Hst as [-> | ->]; cbn [append lex]; rewrite Hq, He;
    destruct (is_whitespace c); try destruct (has_token token quoted);
    rewrite IH; first [reflexivity | now left | now right].
Qed.

Lemma lex_quotation_raises body e : plain body = true ->
  forall rest,
    (forall token quoted, lex rest InWord token quoted = Raised e) ->
    forall token quoted,
      lex (body ++ dq ++ rest) (InQuote (ascii_of_nat 34)) token quoted
      = Raised e.
Proof.
  induction body as [| c body IH]; intros Hb rest Hrest token quoted.
  - cbn. apply Hrest.
  - cbn [plain] in Hb. apply andb_true_iff in Hb. destruct Hb as [Hc Hb].
    apply andb_true_iff in Hc. destruct Hc as [Hq He].
    apply negb_true_iff in Hq, He. cbn [append lex].
    assert (Hne : Ascii.eqb c (ascii_of_nat 34) = false).
    { unfold is_quote in Hq. cbn [map existsb] in Hq.
      apply orb_false_iff in Hq. destruct Hq as [_ Hq].
      apply orb_false_iff in Hq. tauto. }
    rewrite Hne, He. cbn [andb]. now apply IH.
Qed.

(** A text with three double quotes, and plain otherwise, ends inside a
    quotation. *)
Lemma three_quotes_raise pre body1 body2 :
  plain pre = true -> plain body1 = true -> plain body2 = true ->
  shlex_split (pre ++ dq ++ body1 ++ dq ++ body2 ++ dq)
  = Raised (ValueError "No closing quotation").
Proof.
  intros Hpre H1 H2. unfold shlex_split.
  apply lex_plain_raises; [exact Hpre | | now left].
  intros st token quoted Hst.
  assert (E : lex (dq ++ body1 ++ dq ++ body2 ++ dq) st token quoted
              = lex (body1 ++ dq ++ body2 ++ dq)
                    (InQuote (ascii_of_nat 34)) token quoted)
    by (destruct Hst as [-> | ->]; reflexivity).
  rewrite E. apply lex_quotation_raises; [exact H1 |].
  intros token' quoted'.
  apply lex_plain_raises; [exact H2 | | now right].
  intros st' token'' quoted'' [-> | ->]; reflexivity.
Qed.

(** X18. A port text that breaks the quotation stops the installation.
    One iteration of [add_ovs_flows] flushes the switch and asks for the two
    ports; the texts it is given are put between double quotes in the text
    of the [add-flow] command.  When that text cannot be split, the
    iteration leaves with the [ValueError] of the splitting right after the
    three calls, without sending any [add-flow] command: this is so when the
    first port text holds one double quote and the texts are plain
    otherwise, the error being [No closing quotation].  When the text can
    be split, the [add-flow] command is the next call. *)
Theorem broken_quotation_stops_installation i bk h out in_port out_port :
  let del := CheckOutput (OvsOfctlDelFlows (i + 1)) in
  let get_in :=
    CheckOutput
      (OvsVsctlGetOfport ("s" ++ str (i + 1) ++ "-h" ++ str (i + 1))) in
  let get_out :=
    CheckOutput
      (OvsVsctlGetOfport ("s" ++ str (i + 1) ++ "-s" ++ str (i + 2))) in
  let text :=
    ("ovs-ofctl add-flow s" ++ str (i + 1) ++ " " ++ dq ++ "udp,in_port="
       ++ in_port ++ ",actions=output=" ++ out_port ++ dq)%string in
  let asked :=
    [EvCall del (Returns out); EvCall get_in (Returns in_port);
     EvCall get_out (Returns out_port)] in
  bk h del = Returns out ->
  bk (h ++ [EvCall del (Returns out)]) get_in = Returns in_port ->
  bk ((h ++ [EvCall del (Returns out)]) ++ [EvCall get_in (Returns in_port)])
     get_out = Returns out_port ->
  (forall e,
     shlex_split text = Raised e ->
     add_ovs_flows_body i bk h = (Raised e, asked))
  /\ (forall p q,
        in_port = (p ++ dq ++ q)%string ->
        plain p = true -> plain q = true -> plain out_port = true ->
        add_ovs_flows_body i bk h
        = (Raised (ValueError "No closing quotation"), asked))
  /\ (forall argv,
        shlex_split text = Normal argv ->
        exists o rest,
          snd (add_ovs_flows_body i bk h)
          = asked
              ++ EvCall (CheckOutput
                           (OvsOfctlAddFlow (i + 1) "udp" in_port out_port)) o
              :: rest).
Proof.
  intros del get_in get_out text asked Hdel Hin Hout.
  assert (Hasked :
             add_ovs_flows_body i bk h
             = (let (r, e2) :=
                  (check_output (OvsOfctlAddFlow (i + 1) "udp" in_port out_port)
                   ;; if i =? 0 then ret tt
                      else
                        in_port' <- get_ofport
                                      ("s" ++ str (i + 1) ++ "-s" ++ str i) ;;
                        out_port' <- get_ofport
                                       ("s" ++ str (i + 1) ++ "-h"
                                          ++ str (i + 1)) ;;
                        check_output
                          (OvsOfctlAddFlow (i + 1) "udp" in_port' out_port') ;;
                        ret tt)
                    bk (((h ++ [EvCall del (Returns out)])
                           ++ [EvCall get_in (Returns in_port)])
                          ++ [EvCall get_out (Returns out_port)]) in
                (r, asked ++ e2))).
  { unfold add_ovs_flows_body, get_ofport. cbv zeta.
    rewrite (check_output_call (OvsOfctlDelFlows (i + 1))) by splitting.
    rewrite bind_call_split. fold del. rewrite Hdel.
    rewrite (check_output_call (OvsVsctlGetOfport _)) by splitting.
    rewrite bind_call_split. fold get_in. rewrite Hin.
    rewrite (check_output_call (OvsVsctlGetOfport _)) by splitting.
    rewrite bind_call_split. fold get_out. rewrite Hout.
    match goal with
    | |- context [bind ?m ?f bk ?h'] => destruct (bind m f bk h')
    end.
    reflexivity. }
  assert (Hraise : forall e,
             shlex_split text = Raised e ->
             add_ovs_flows_body i bk h = (Raised e, asked)).
  { intros e E. rewrite Hasked. unfold check_output at 1.
    change (cmdline (OvsOfctlAddFlow (i + 1) "udp" in_port out_port)) with text.
    rewrite E. reflexivity. }
  split; [exact Hraise | split].
  - intros p q -> Hp Hq Ho. apply Hraise. subst text.
    replace ("ovs-ofctl add-flow s" ++ str (i + 1) ++ " " ++ dq
               ++ "udp,in_port=" ++ (p ++ dq ++ q) ++ ",actions=output="
               ++ out_port ++ dq)%string
      with (("ovs-ofctl add-flow s" ++ str (i + 1) ++ " ") ++ dq
              ++ ("udp,in_port=" ++ p) ++ dq
              ++ (q ++ ",actions=output=" ++ out_port) ++ dq)%string
      by (rewrite !append_assoc; reflexivity).
    apply three_quotes_raise;
      rewrite !plain_app, ?plain_str, ?Hp, ?Hq, ?Ho; reflexivity.
  - intros argv E. rewrite Hasked.
    match goal with
    | |- context [let (_, _) := ?x in _] => destruct x as [r e2] eqn:Ex
    end.
    apply (f_equal snd) in Ex.
    rewrite (check_output_call
               (OvsOfctlAddFlow (i + 1) "udp" in_port out_port))
      in Ex by (now exists argv).
    rewrite bind_call_events in Ex. cbn [snd] in Ex |- *. rewrite <- Ex.
    eexists _, _. reflexivity.
Qed.

Lemma broken_quotation_stops_installation_witness :
  add_ovs_flows_body 0 s1_port_quoted []
  = (Raised (ValueError "No closing quotation"),
     [EvCall (CheckOutput (OvsOfctlDelFlows 1)) (Returns "");
      EvCall (CheckOutput (OvsVsctlGetOfport "s1-h1")) (Returns ("1" ++ dq));
      EvCall (CheckOutput (OvsVsctlGetOfport "s1-s2")) (Returns "s1-s2")]).
Proof.
  exact (proj1 (proj2 (broken_quotation_stops_installation 0 s1_port_quoted
                         [] "" ("1" ++ dq)%string "s1-s2"
                         eq_refl eq_refl eq_refl))
           "1"%string ""%string eq_refl eq_refl eq_refl eq_refl).
Defined.

(** On such a backend every call returns, and yet the run logs an error of
    the emulation: the only command sent to a flow table is the flush of
    the first switch, and no coder is deployed. *)
Example run_with_quoted_port :
  reliable s1_port_quoted
  /\ fst (run_multihop_nc_test 1 0 false 5 0 no_logs s1_port_quoted [])
     = Normal tt
  /\ In (EvError ("*** Emulation has errors:" ++ nl))
        (snd (run_multihop_nc_test 1 0 false 5 0 no_logs s1_port_quoted []))
  /\ In (EvError "No closing quotation")
        (snd (run_multihop_nc_test 1 0 false 5 0 no_logs s1_port_quoted []))
  /\ count_calls is_flow_write
       (snd (run_multihop_nc_test 1 0 false 5 0 no_logs s1_port_quoted []))
     = 1%nat
  /\ count_calls is_deployment
       (snd (run_multihop_nc_test 1 0 false 5 0 no_logs s1_port_quoted []))
     = 0%nat.
Proof.
  split.
  { intros c h. unfold s1_port_quoted, ok_backend.
    destruct c as [[] | | | | | | | | | | | | | | |]; try (now eexists).
    match goal with |- context [if ?b then _ else _] => destruct b end;
      now eexists. }
  repeat split; vm_compute; try reflexivity; tauto.
Qed.
